(** * Binary-bot: the signal engine and the session manager

    A shallow embedding of the TypeScript sources

    - [services/signalEngine.ts]   (vote producers, [collectVotes],
      [calculateScores], [determineDirection], [generateSignal]),
    - [config/indicators.ts]       (weight table, [getIndicatorWeight],
      [isIndicatorEnabled], [SIGNAL_CONFIG], [VOLATILITY_CONFIG]),
    - [config/assets.ts]           ([SUPPORTED_ASSETS], [TIMEFRAMES],
      [getAssetById], [getTimeframeLabel]),
    - [utils/time.ts]              ([getCandleBoundary], [getCandleCloseTime],
      [getSecondsUntilClose], [isPreCloseWindow], [formatDuration],
      [scheduleAt]),
    - [services/sessionManager.ts] ([startSession], [stopSession],
      [scheduleNextPreClose], [emitPreCloseSignal], [restartSession],
      [getSessionByChatId], [getActiveSessionsCount], [getSessionCandles],
      [getDebugSignal]),
    - [storage.ts]                 (the signal log and the candle buffers of
      [MemStorage]),
    - [telegram/keyboards.ts]      (the inline keyboards),
    - [telegram/handlers.ts]       (the dispatch of [handleCallback],
      [handleStartSession], [handleStopSession]),
    - [telegram/bot.ts]            (the [/stop] command),
    - [routes.ts]                  (the start and stop routes),

    followed by the properties of the specification that concern them and
    by further properties of the code.

    Conventions of the embedding.

    - A JavaScript [number] that carries a price, a weight, a probability or a
      confidence is an IEEE-754 binary64 value: Rocq's primitive [float], whose
      operations are the ones the JavaScript engine performs, [NaN] and the
      infinities included.  Epoch seconds, millisecond clocks, time frames,
      counts and chat ids are integral and are modelled as [Z]: they are
      safe integers, on which the arithmetic of the sources is exact.
    - An optional property ([x?: T]) or a nullable value is an [option].
    - A JavaScript object used as a dictionary and a [Map] are [gmap]s.
    - Reading the wall clock ([Date.now()]) is an explicit argument.
    - Calls to the logger have no effect on any value and are left out. *)

From Stdlib Require Import ZArith List String Ascii Bool Floats Sorted Lia.
From Stdlib Require Uint63 DecimalString DecimalZ.
From stdpp Require Import gmap strings.
Import ListNotations.

#[local] Set Warnings "-inexact-float".

(** ** Primitives of the JavaScript runtime used by the sources *)

Module JS.

#[local] Open Scope float_scope.

(** The integer [n] as a binary64 value, exact for [|n| < 2^53]. *)
Definition float_of_Z (n : Z) : float :=
  match n with
  | Z0 => 0
  | Zpos _ => of_uint63 (Uint63.of_Z n)
  | Zneg _ => - of_uint63 (Uint63.of_Z (- n))
  end.

(** [Math.round]: a value that is not finite or is already integral is
    returned as it is; otherwise the nearest integer, a tie going towards
    plus infinity, computed on the exact value [(+/-) m * 2^e]; a result
    of zero keeps the sign of the argument. *)
Definition Math_round (x : float) : float :=
  match Prim2SF x with
  | S754_finite s m e =>
      if (0 <=? e)%Z then x
      else
        let sm := if s then Z.neg m else Z.pos m in
        let n := ((2 * sm + 2 ^ (- e)) / 2 ^ (1 - e))%Z in
        if (n =? 0)%Z then (if s then neg_zero else zero) else float_of_Z n
  | _ => x
  end.

(** [Math.max] of two arguments: [NaN] when either is [NaN]; [+0] is
    larger than [-0]. *)
Definition Math_max (a b : float) : float :=
  if is_nan a || is_nan b then nan
  else if a <? b then b
  else if b <? a then a
  else if get_sign a then b else a.

#[local] Open Scope char_scope.

Definition lower_ascii (c : ascii) : ascii :=
  let n := nat_of_ascii c in
  if (65 <=? n)%nat && (n <=? 90)%nat then ascii_of_nat (n + 32) else c.

(** [String.prototype.toLowerCase], on the ASCII letters. *)
Fixpoint toLowerCase (s : string) : string :=
  match s with
  | EmptyString => EmptyString
  | String c r => String (lower_ascii c) (toLowerCase r)
  end.

(** The characters of the class [\s] below code 128: tab, line feed,
    vertical tab, form feed, carriage return and space. *)
Definition is_space (c : ascii) : bool :=
  let n := nat_of_ascii c in
  ((9 <=? n)%nat && (n <=? 13)%nat) || (n =? 32)%nat.

Fixpoint replace_spaces_from (in_run : bool) (s : string) : string :=
  match s with
  | EmptyString => EmptyString
  | String c r =>
      if is_space c
      then (if in_run then replace_spaces_from true r
            else String "_" (replace_spaces_from true r))
      else String c (replace_spaces_from false r)
  end.

(** [s.replace(/\s+/g, "_")]: every maximal run of white space becomes
    one underscore. *)
Definition replace_spaces (s : string) : string := replace_spaces_from false s.

(** [String.prototype.includes]. *)
Fixpoint includes (s sub : string) : bool :=
  String.prefix sub s ||
  match s with
  | EmptyString => false
  | String _ r => includes r sub
  end.

(** [String.prototype.startsWith]. *)
Definition startsWith (s search : string) : bool := String.prefix search s.

(** [s] without its first [n] characters. *)
Fixpoint skip (n : nat) (s : string) : string :=
  match n, s with
  | S n', String _ r => skip n' r
  | _, _ => s
  end.

(** [s.replace(pattern, replacement)] for a string [pattern] and a
    [replacement] without [$]: the first occurrence of [pattern], if there
    is one, is replaced. *)
Fixpoint replace (s pattern replacement : string) : string :=
  if String.prefix pattern s
  then String.append replacement (skip (String.length pattern) s)
  else
    match s with
    | EmptyString => EmptyString
    | String c r => String c (replace r pattern replacement)
    end.

(** [s.split(separator)] for a separator of one character. *)
Fixpoint split (separator : ascii) (s : string) : list string :=
  match s with
  | EmptyString => [EmptyString]
  | String c r =>
      if Ascii.eqb c separator then EmptyString :: split separator r
      else
        match split separator r with
        | piece :: pieces => String c piece :: pieces
        | [] => [String c EmptyString]
        end
  end.

(** The template-literal conversion of an integral number: its decimal
    numeral, with a minus sign when negative.  The engine prints this
    numeral for the safe integers, those strictly between [-2^53] and
    [2^53]. *)
Definition String_of_Z (n : Z) : string :=
  DecimalString.NilZero.string_of_int (Z.to_int n).

Definition safe_integer (n : Z) : Prop := (- 2 ^ 53 < n < 2 ^ 53)%Z.

(** The longest prefix of [s] made of decimal digits, and what follows it. *)
Fixpoint decimal_prefix (s : string) : Decimal.uint * string :=
  match s with
  | String c r =>
      let '(d, rest) := decimal_prefix r in
      match c with
      | "0" => (Decimal.D0 d, rest)
      | "1" => (Decimal.D1 d, rest)
      | "2" => (Decimal.D2 d, rest)
      | "3" => (Decimal.D3 d, rest)
      | "4" => (Decimal.D4 d, rest)
      | "5" => (Decimal.D5 d, rest)
      | "6" => (Decimal.D6 d, rest)
      | "7" => (Decimal.D7 d, rest)
      | "8" => (Decimal.D8 d, rest)
      | "9" => (Decimal.D9 d, rest)
      | _ => (Decimal.Nil, s)
      end
  | EmptyString => (Decimal.Nil, s)
  end.

(** The same for hexadecimal digits of either case. *)
Fixpoint hexadecimal_prefix (s : string) : Hexadecimal.uint * string :=
  match s with
  | String c r =>
      let '(d, rest) := hexadecimal_prefix r in
      match c with
      | "0" => (Hexadecimal.D0 d, rest)
      | "1" => (Hexadecimal.D1 d, rest)
      | "2" => (Hexadecimal.D2 d, rest)
      | "3" => (Hexadecimal.D3 d, rest)
      | "4" => (Hexadecimal.D4 d, rest)
      | "5" => (Hexadecimal.D5 d, rest)
      | "6" => (Hexadecimal.D6 d, rest)
      | "7" => (Hexadecimal.D7 d, rest)
      | "8" => (Hexadecimal.D8 d, rest)
      | "9" => (Hexadecimal.D9 d, rest)
      | "a" | "A" => (Hexadecimal.Da d, rest)
      | "b" | "B" => (Hexadecimal.Db d, rest)
      | "c" | "C" => (Hexadecimal.Dc d, rest)
      | "d" | "D" => (Hexadecimal.Dd d, rest)
      | "e" | "E" => (Hexadecimal.De d, rest)
      | "f" | "F" => (Hexadecimal.Df d, rest)
      | _ => (Hexadecimal.Nil, s)
      end
  | EmptyString => (Hexadecimal.Nil, s)
  end.

(** [s] without its leading white space. *)
Fixpoint trimStart (s : string) : string :=
  match s with
  | String c r => if is_space c then trimStart r else s
  | EmptyString => s
  end.

(** [parseInt(s)], called without a radix: leading white space is skipped,
    then a sign is read, then the digits up to the first character that is
    not one; they are hexadecimal after a prefix [0x] or [0X] and decimal
    otherwise.  [None] is [NaN], returned when there is no digit.  The
    result is the exact integer, which is the engine's result when it is a
    safe integer. *)
Definition parseInt (s : string) : option Z :=
  let s := trimStart s in
  let '(negative, s) :=
    match s with
    | String "-" r => (true, r)
    | String "+" r => (false, r)
    | _ => (false, s)
    end in
  let magnitude :=
    match s with
    | String "0" (String "x" r) | String "0" (String "X" r) =>
        match fst (hexadecimal_prefix r) with
        | Hexadecimal.Nil => None
        | d => Some (Z.of_hex_uint d)
        end
    | _ =>
        match fst (decimal_prefix s) with
        | Decimal.Nil => None
        | d => Some (Z.of_uint d)
        end
    end in
  option_map (fun n => if negative then (- n)%Z else n) magnitude.

(** The names of the properties every object inherits from
    [Object.prototype]: for an object [o] that does not define [name]
    itself, [o[name]] is [undefined] unless [name] is one of them. *)
Definition Object_prototype : list string :=
  [ "constructor"; "__defineGetter__"; "__defineSetter__"; "hasOwnProperty";
    "__lookupGetter__"; "__lookupSetter__"; "isPrototypeOf";
    "propertyIsEnumerable"; "toString"; "valueOf"; "__proto__";
    "toLocaleString" ]%string.

Definition inherited (name : string) : bool :=
  existsb (String.eqb name) Object_prototype.

(** [array.slice(start)]: from index [start], counted from the end when
    negative, to the end of the array. *)
Definition slice {A : Type} (start : Z) (l : list A) : list A :=
  let len := Z.of_nat (List.length l) in
  let k := if (start <? 0)%Z then Z.max (len + start) 0 else Z.min start len in
  skipn (Z.to_nat k) l.

End JS.

(** ** The shared schema ([shared/schema.ts]) *)

Inductive VoteDirection := UP | DOWN | NEUTRAL.
Inductive SignalDirection := CALL | PUT | NO_TRADE.
Inductive Sentiment := bullish | bearish | neutral.
Inductive TrendDirection := up | down.
Inductive SessionStatus := active | stopped.

Module Candle.
Record t := mk {
  symbol : string;
  timeframe : Z;
  open : float;
  high : float;
  low : float;
  close : float;
  timestamp : Z;
  tickCount : Z;
  isForming : bool
}.
End Candle.

Module Macd.
Record t := mk { macd : float; signal : float; histogram : float }.
End Macd.

Module Stochastic.
Record t := mk { k : float; d : float }.
End Stochastic.

Module Bands.
Record t := mk { upper : float; middle : float; lower : float }.
End Bands.

Module Channel.
Record t := mk { upper : float; lower : float }.
End Channel.

Module SuperTrend.
Record t := mk { value : float; direction : TrendDirection }.
End SuperTrend.

Module IndicatorValues.
Record t := mk {
  ema5 : option float;
  ema9 : option float;
  ema12 : option float;
  ema21 : option float;
  ema50 : option float;
  sma20 : option float;
  sma50 : option float;
  sma200 : option float;
  macd : option Macd.t;
  rsi14 : option float;
  stochastic : option Stochastic.t;
  atr14 : option float;
  adx : option float;
  cci : option float;
  williamsR : option float;
  bollingerBands : option Bands.t;
  keltnerChannels : option Bands.t;
  hullMA : option float;
  superTrend : option SuperTrend.t;
  roc : option float;
  momentum : option float;
  vwap : option float;
  obv : option float;
  chaikinOsc : option float;
  fisherTransform : option float;
  donchianChannels : option Channel.t;
  psar : option float;
  ultimateOsc : option float;
  meanReversionZ : option float;
  linRegSlope : option float;
  atrBands : option Channel.t;
  rangePercentile : option float;
  emaRibbon : option float
}.

(** The object literal [{}]. *)
Definition empty : t :=
  mk None None None None None None None None None None None None None None
     None None None None None None None None None None None None None None
     None None None None None.

(** [indicators[key] as number | undefined] for the keys the engine reads
    this way (the moving averages). *)
Definition number_at (i : t) (key : string) : option float :=
  if String.eqb key "ema5" then ema5 i
  else if String.eqb key "ema9" then ema9 i
  else if String.eqb key "ema12" then ema12 i
  else if String.eqb key "ema21" then ema21 i
  else if String.eqb key "ema50" then ema50 i
  else if String.eqb key "sma20" then sma20 i
  else if String.eqb key "sma50" then sma50 i
  else if String.eqb key "sma200" then sma200 i
  else None.
End IndicatorValues.

Module CandlestickPattern.
Record t := mk {
  name : string;
  type : Sentiment;
  strength : float;
  description : string
}.
End CandlestickPattern.

Module PsychologyAnalysis.
Record t := mk {
  bodyRatio : float;
  upperWickRatio : float;
  lowerWickRatio : float;
  isDoji : bool;
  patterns : list CandlestickPattern.t;
  bias : Sentiment;
  orderBlockProbability : float;
  fvgDetected : bool
}.
End PsychologyAnalysis.

Module Vote.
Record t := mk {
  indicator : string;
  direction : VoteDirection;
  weight : float;
  reason : option string
}.

(** [vote.indicator = name] and [vote.weight *= factor], the two in-place
    updates the engine performs on a vote it has just built. *)
Definition set_indicator (v : t) (name : string) : t :=
  mk name (direction v) (weight v) (reason v).
Definition scale (v : t) (factor : float) : t :=
  mk (indicator v) (direction v) (weight v * factor)%float (reason v).
End Vote.

Module SessionOptions.
Record t := mk {
  enabledIndicators : option (list string);
  customWeights : option (gmap string float);
  volatilityThreshold : option float
}.
End SessionOptions.

Module SignalResult.
Record t := mk {
  sessionId : string;
  symbol : string;
  timeframe : Z;
  timestamp : Z;
  candleCloseTime : Z;
  direction : SignalDirection;
  confidence : float;
  pUp : float;
  pDown : float;
  votes : list Vote.t;
  indicators : IndicatorValues.t;
  psychology : PsychologyAnalysis.t;
  volatilityOverride : bool;
  volatilityReason : option string;
  closedCandlesCount : Z;
  formingCandle : option Candle.t
}.

Definition with_timestamp (ts : Z) (r : t) : t :=
  mk (sessionId r) (symbol r) (timeframe r) ts (candleCloseTime r)
     (direction r) (confidence r) (pUp r) (pDown r) (votes r) (indicators r)
     (psychology r) (volatilityOverride r) (volatilityReason r)
     (closedCandlesCount r) (formingCandle r).
End SignalResult.

Module Session.
(** [ActiveSession], the [Session] of the schema extended by the session
    manager with its timers and the start of the last candle signalled. *)
Inductive Timer :=
| Rearm (delayMs : Z)
| AtPreClose (preCloseTime : Z) (formingStart : Z) (candleCloseTime : Z).

Record t := mk {
  id : string;
  chatId : Z;
  symbol : string;
  timeframe : Z;
  status : SessionStatus;
  startedAt : Z;
  lastSignalAt : option Z;
  options : option SessionOptions.t;
  signalTimer : option Timer;
  preCloseTimer : option Timer;
  lastSignalCandleTimestamp : option Z
}.

(** The assignments the session manager makes to a session object.  A timer
    field holds the one-shot timer that is pending: a handle that was cleared
    or has already fired is [None], [clearTimeout] on it being a no-op. *)
Definition set_status (v : SessionStatus) (s : t) : t :=
  mk (id s) (chatId s) (symbol s) (timeframe s) v (startedAt s)
     (lastSignalAt s) (options s) (signalTimer s) (preCloseTimer s)
     (lastSignalCandleTimestamp s).
Definition set_lastSignalAt (v : Z) (s : t) : t :=
  mk (id s) (chatId s) (symbol s) (timeframe s) (status s) (startedAt s)
     (Some v) (options s) (signalTimer s) (preCloseTimer s)
     (lastSignalCandleTimestamp s).
Definition set_signalTimer (v : option Timer) (s : t) : t :=
  mk (id s) (chatId s) (symbol s) (timeframe s) (status s) (startedAt s)
     (lastSignalAt s) (options s) v (preCloseTimer s)
     (lastSignalCandleTimestamp s).
Definition set_preCloseTimer (v : option Timer) (s : t) : t :=
  mk (id s) (chatId s) (symbol s) (timeframe s) (status s) (startedAt s)
     (lastSignalAt s) (options s) (signalTimer s) v
     (lastSignalCandleTimestamp s).
Definition set_lastSignalCandleTimestamp (v : Z) (s : t) : t :=
  mk (id s) (chatId s) (symbol s) (timeframe s) (status s) (startedAt s)
     (lastSignalAt s) (options s) (signalTimer s) (preCloseTimer s) (Some v).
End Session.

Module Asset.
Record t := mk { id : string; name : string; category : option string }.
End Asset.

(** ** Configuration ([config/indicators.ts], [config/assets.ts]) *)

Module Config.

#[local] Open Scope float_scope.
#[local] Open Scope string_scope.

Record IndicatorWeight := mkWeight {
  name : string;
  weight : float;
  enabled : bool
}.

Definition DEFAULT_INDICATOR_WEIGHTS : list IndicatorWeight :=
  [ mkWeight "ema_cross_5_21" 1.2 true;
    mkWeight "ema_cross_9_21" 1.1 true;
    mkWeight "ema_cross_12_50" 1.3 true;
    mkWeight "sma_trend_20" 0.8 true;
    mkWeight "sma_trend_50" 0.9 true;
    mkWeight "sma_trend_200" 1.0 true;
    mkWeight "macd_signal" 1.4 true;
    mkWeight "macd_histogram" 1.2 true;
    mkWeight "rsi_overbought" 1.3 true;
    mkWeight "rsi_oversold" 1.3 true;
    mkWeight "rsi_divergence" 1.5 true;
    mkWeight "stochastic_cross" 1.1 true;
    mkWeight "stochastic_extreme" 1.0 true;
    mkWeight "adx_trend_strength" 0.9 true;
    mkWeight "cci_signal" 0.8 true;
    mkWeight "williams_r" 0.7 true;
    mkWeight "bollinger_squeeze" 1.2 true;
    mkWeight "bollinger_breakout" 1.4 true;
    mkWeight "keltner_breakout" 1.1 true;
    mkWeight "hull_ma_trend" 1.0 true;
    mkWeight "supertrend_signal" 1.5 true;
    mkWeight "roc_momentum" 0.8 true;
    mkWeight "momentum_signal" 0.7 true;
    mkWeight "donchian_breakout" 1.1 true;
    mkWeight "psar_signal" 1.2 true;
    mkWeight "ultimate_osc" 0.9 true;
    mkWeight "mean_reversion" 1.0 true;
    mkWeight "lin_reg_slope" 0.8 true;
    mkWeight "fisher_transform" 0.9 true;
    mkWeight "engulfing_pattern" 1.5 true;
    mkWeight "hammer_pattern" 1.3 true;
    mkWeight "shooting_star" 1.3 true;
    mkWeight "doji_pattern" 0.8 true;
    mkWeight "wick_rejection" 1.1 true;
    mkWeight "order_block" 1.4 true;
    mkWeight "fvg_signal" 1.2 true ].

Definition atrThreshold : float := 0.005.
Definition tickVolatilityThreshold : float := 0.003.
Definition tickVolatilityWindow : Z := 10.
Definition minCandlesForSignal : Z := 50.

Definition minConfidence : float := 60.
Definition preCloseSeconds : Z := 4.
Definition sendSignalSeconds : Z := 3.
Definition historyCandles : Z := 300.
Definition chartCandles : Z := 100.

(** [value || fallback] on numbers: [0], [-0] and [NaN] are falsy. *)
Definition or_else (value fallback : float) : float :=
  if is_nan value || is_zero value then fallback else value.

(** [DEFAULT_INDICATOR_WEIGHTS.find(w => w.name === name)]. *)
Definition find_weight (n : string) : option IndicatorWeight :=
  List.find (fun w => String.eqb (name w) n) DEFAULT_INDICATOR_WEIGHTS.

(** [customWeights[name] !== undefined] holds for a property the object
    defines itself and for one it inherits from [Object.prototype].  The
    value of an inherited property is a function or an object, not a number:
    the only use of the result, [vote.weight *= ...], makes the weight [NaN]
    with it, as it does with [NaN], which stands for that value here. *)
Definition getIndicatorWeight (n : string)
    (customWeights : option (gmap string float)) : float :=
  match
    match customWeights with
    | Some cw =>
        match cw !! n with
        | Some w => Some w
        | None => if JS.inherited n then Some nan else None
        end
    | None => None
    end
  with
  | Some w => w
  | None =>
      match find_weight n with
      | Some indicator => or_else (weight indicator) 1.0
      | None => 1.0
      end
  end.

Definition isIndicatorEnabled (n : string)
    (enabledIndicators : option (list string)) : bool :=
  match enabledIndicators with
  | None =>
      match find_weight n with
      | Some indicator => enabled indicator
      | None => true
      end
  | Some l => existsb (String.eqb n) l
  end.

(** [TIMEFRAMES], as (value, label) pairs. *)
Definition TIMEFRAMES : list (Z * string) :=
  [ (60%Z, "1m"); (120%Z, "2m"); (300%Z, "5m");
    (900%Z, "15m"); (1800%Z, "30m"); (3600%Z, "1h") ].

(** [SUPPORTED_ASSETS] ([config/assets.ts]). *)
Definition SUPPORTED_ASSETS : list Asset.t :=
  [ Asset.mk "frxEURUSD" "EUR / USD" (Some "forex");
    Asset.mk "frxGBPUSD" "GBP / USD" (Some "forex");
    Asset.mk "frxUSDJPY" "USD / JPY" (Some "forex");
    Asset.mk "frxAUDUSD" "AUD / USD" (Some "forex");
    Asset.mk "frxUSDINR" "USD / INR" (Some "forex");
    Asset.mk "frxUSDCAD" "USD / CAD" (Some "forex");
    Asset.mk "frxEURGBP" "EUR / GBP" (Some "forex");
    Asset.mk "frxEURJPY" "EUR / JPY" (Some "forex");
    Asset.mk "R_10" "Volatility 10 Index" (Some "synthetic");
    Asset.mk "R_25" "Volatility 25 Index" (Some "synthetic");
    Asset.mk "R_50" "Volatility 50 Index" (Some "synthetic");
    Asset.mk "R_75" "Volatility 75 Index" (Some "synthetic");
    Asset.mk "R_100" "Volatility 100 Index" (Some "synthetic");
    Asset.mk "1HZ10V" "Volatility 10 (1s) Index" (Some "synthetic");
    Asset.mk "1HZ25V" "Volatility 25 (1s) Index" (Some "synthetic");
    Asset.mk "1HZ50V" "Volatility 50 (1s) Index" (Some "synthetic");
    Asset.mk "1HZ75V" "Volatility 75 (1s) Index" (Some "synthetic");
    Asset.mk "1HZ100V" "Volatility 100 (1s) Index" (Some "synthetic");
    Asset.mk "cryBTCUSD" "Bitcoin / USD" (Some "crypto");
    Asset.mk "cryETHUSD" "Ethereum / USD" (Some "crypto") ].

Definition getAssetById (id : string) : option Asset.t :=
  List.find (fun asset => String.eqb (Asset.id asset) id) SUPPORTED_ASSETS.

(** [tf?.label || `${seconds}s`]: the empty string is falsy. *)
Definition getTimeframeLabel (seconds : Z) : string :=
  match List.find (fun t => (fst t =? seconds)%Z) TIMEFRAMES with
  | Some tf =>
      if String.eqb (snd tf) "" then JS.String_of_Z seconds ++ "s" else snd tf
  | None => JS.String_of_Z seconds ++ "s"
  end.

End Config.

(** ** Time helpers ([utils/time.ts]) *)

Module TimeUtils.
#[local] Open Scope Z_scope.

(** [Math.floor(timestamp / timeframeSec) * timeframeSec].  Epochs and time
    frames are whole numbers of seconds; [Z]'s division rounds down, as
    [Math.floor] of the quotient does.  The source computes in binary64:
    its quotient rounded down, its product and the sum of
    [getCandleCloseTime] are these exact ones for a positive time frame, a
    timestamp that is not negative and a close time that is a safe integer
    ([exact_window] below).  At time frame 0 the source has [NaN] where [Z]
    has 0, and past the safe integers it rounds. *)
Definition getCandleBoundary (timestamp timeframeSec : Z) : Z :=
  timestamp / timeframeSec * timeframeSec.

Definition getCandleCloseTime (timestamp timeframeSec : Z) : Z :=
  getCandleBoundary timestamp timeframeSec + timeframeSec.

(** [Math.floor(Date.now() / 1000)] for a clock reading in milliseconds. *)
Definition nowEpoch (nowMs : Z) : Z := nowMs / 1000.

Definition getSecondsUntilClose (timestamp timeframeSec : Z) : Z :=
  let closeTime := getCandleCloseTime timestamp timeframeSec in
  closeTime - timestamp.

Definition isPreCloseWindow (timestamp timeframeSec preCloseSeconds : Z)
    : bool :=
  let secondsUntil := getSecondsUntilClose timestamp timeframeSec in
  (secondsUntil <=? preCloseSeconds) && (0 <? secondsUntil).

(** [%] on numbers is the remainder of the division that truncates:
    [Z.rem].  The quotients rounded down and the remainders of the source
    are these exact ones for a duration that is a safe integer; past the
    safe integers the source rounds. *)
Definition formatDuration (seconds : Z) : string :=
  if seconds <? 60 then (JS.String_of_Z seconds ++ "s")%string
  else
    let minutes := seconds / 60 in
    let remainingSeconds := Z.rem seconds 60 in
    if minutes <? 60 then
      if 0 <? remainingSeconds
      then (JS.String_of_Z minutes ++ "m " ++
            JS.String_of_Z remainingSeconds ++ "s")%string
      else (JS.String_of_Z minutes ++ "m")%string
    else
      let hours := minutes / 60 in
      let remainingMinutes := Z.rem minutes 60 in
      (JS.String_of_Z hours ++ "h " ++
       JS.String_of_Z remainingMinutes ++ "m")%string.

(** The delay [scheduleAt] hands to [setTimeout], in milliseconds. *)
Definition scheduleAt (nowMs epochSeconds : Z) : Z :=
  let now := nowEpoch nowMs in
  Z.max 0 ((epochSeconds - now) * 1000).
End TimeUtils.

(** ** The prediction engine's result

    [services/predictionEngine.ts] is not among the sources at hand.  The
    record below has the fields [generateSignal] reads from the value that
    [predictWithFormingCandle] returns; the function itself is a parameter of
    the signal engine. *)

Module Volatility.
Record t := mk { isVolatile : bool; reason : option string }.
End Volatility.

Module Prediction.
Record t := mk {
  estimatedClose : float;
  indicators : IndicatorValues.t;
  psychology : PsychologyAnalysis.t;
  volatility : Volatility.t
}.
End Prediction.

(** ** The signal engine ([services/signalEngine.ts]) *)

Module SignalEngine.

#[local] Open Scope float_scope.

Section Engine.

(** [Number.prototype.toFixed], which only appears in the [reason] text
    of some votes. *)
Variable toFixed : float -> nat -> string.

(** [predictWithFormingCandle] of [services/predictionEngine.ts]. *)
Variable predictWithFormingCandle :
  list Candle.t -> option Candle.t -> Prediction.t.

Definition voteFromEMACross (indicators : IndicatorValues.t)
    (fastKey slowKey : string) (lastClose : float) (name : string)
    : option Vote.t :=
  match IndicatorValues.number_at indicators fastKey,
        IndicatorValues.number_at indicators slowKey with
  | Some fast, Some slow =>
      if (slow <? fast) && (fast <? lastClose) then
        Some (Vote.mk name UP 1
                (Some (fastKey ++ " > " ++ slowKey ++ ", price above")%string))
      else if (fast <? slow) && (lastClose <? fast) then
        Some (Vote.mk name DOWN 1
                (Some (fastKey ++ " < " ++ slowKey ++ ", price below")%string))
      else Some (Vote.mk name NEUTRAL 0.3 (Some "No clear cross"%string))
  | _, _ => None
  end.

Definition voteFromSMATrend (indicators : IndicatorValues.t)
    (smaKey : string) (lastClose : float) (name : string) : option Vote.t :=
  match IndicatorValues.number_at indicators smaKey with
  | None => None
  | Some sma =>
      let diff := (lastClose - sma) / sma in
      if 0.001 <? diff then
        Some (Vote.mk name UP 1 (Some ("Price above " ++ smaKey)%string))
      else if diff <? -0.001 then
        Some (Vote.mk name DOWN 1 (Some ("Price below " ++ smaKey)%string))
      else Some (Vote.mk name NEUTRAL 0.5 (Some ("Near " ++ smaKey)%string))
  end.

Definition voteFromMACD (indicators : IndicatorValues.t) : list Vote.t :=
  match IndicatorValues.macd indicators with
  | None => []
  | Some macd =>
      let votes :=
        if Macd.signal macd <? Macd.macd macd
        then [Vote.mk "macd_signal" UP 1 (Some "MACD above signal"%string)]
        else [Vote.mk "macd_signal" DOWN 1 (Some "MACD below signal"%string)] in
      if (0 <? Macd.histogram macd) && (0.00001 <? Macd.histogram macd) then
        votes ++ [Vote.mk "macd_histogram" UP 1 (Some "Positive histogram"%string)]
      else if (Macd.histogram macd <? 0) && (Macd.histogram macd <? -0.00001) then
        votes ++ [Vote.mk "macd_histogram" DOWN 1 (Some "Negative histogram"%string)]
      else votes ++ [Vote.mk "macd_histogram" NEUTRAL 0.3 None]
  end.

Definition voteFromRSI (indicators : IndicatorValues.t) : list Vote.t :=
  match IndicatorValues.rsi14 indicators with
  | None => []
  | Some rsi =>
      if rsi <? 30 then
        [Vote.mk "rsi_oversold" UP 1
           (Some ("RSI oversold: " ++ toFixed rsi 1)%string)]
      else if 70 <? rsi then
        [Vote.mk "rsi_overbought" DOWN 1
           (Some ("RSI overbought: " ++ toFixed rsi 1)%string)]
      else if 50 <? rsi then
        [Vote.mk "rsi_trend" UP 0.5
           (Some ("RSI bullish: " ++ toFixed rsi 1)%string)]
      else
        [Vote.mk "rsi_trend" DOWN 0.5
           (Some ("RSI bearish: " ++ toFixed rsi 1)%string)]
  end.

Definition voteFromStochastic (indicators : IndicatorValues.t) : list Vote.t :=
  match IndicatorValues.stochastic indicators with
  | None => []
  | Some stoch =>
      let k := Stochastic.k stoch in
      let d := Stochastic.d stoch in
      let votes :=
        if (d <? k) && (k <? 80) then
          [Vote.mk "stochastic_cross" UP 1 (Some "Bullish stochastic cross"%string)]
        else if (k <? d) && (20 <? k) then
          [Vote.mk "stochastic_cross" DOWN 1 (Some "Bearish stochastic cross"%string)]
        else [] in
      if k <? 20 then
        votes ++ [Vote.mk "stochastic_extreme" UP 1 (Some "Stochastic oversold"%string)]
      else if 80 <? k then
        votes ++ [Vote.mk "stochastic_extreme" DOWN 1 (Some "Stochastic overbought"%string)]
      else votes
  end.

Definition voteFromBollinger (indicators : IndicatorValues.t)
    (lastClose : float) : list Vote.t :=
  match IndicatorValues.bollingerBands indicators with
  | None => []
  | Some bb =>
      let bandwidth := (Bands.upper bb - Bands.lower bb) / Bands.middle bb in
      let votes :=
        if bandwidth <? 0.02 then
          [Vote.mk "bollinger_squeeze" NEUTRAL 0.8
             (Some "Bollinger squeeze - expect breakout"%string)]
        else [] in
      if Bands.upper bb <? lastClose then
        votes ++ [Vote.mk "bollinger_breakout" UP 1
                    (Some "Price broke above upper band"%string)]
      else if lastClose <? Bands.lower bb then
        votes ++ [Vote.mk "bollinger_breakout" DOWN 1
                    (Some "Price broke below lower band"%string)]
      else votes
  end.

Definition voteFromSuperTrend (indicators : IndicatorValues.t) : option Vote.t :=
  match IndicatorValues.superTrend indicators with
  | None => None
  | Some st =>
      match SuperTrend.direction st with
      | up => Some (Vote.mk "supertrend_signal" UP 1 (Some "SuperTrend bullish"%string))
      | down => Some (Vote.mk "supertrend_signal" DOWN 1 (Some "SuperTrend bearish"%string))
      end
  end.

Definition voteFromPSAR (indicators : IndicatorValues.t) (lastClose : float)
    : option Vote.t :=
  match IndicatorValues.psar indicators with
  | None => None
  | Some psar =>
      if psar <? lastClose
      then Some (Vote.mk "psar_signal" UP 1 (Some "Price above PSAR"%string))
      else Some (Vote.mk "psar_signal" DOWN 1 (Some "Price below PSAR"%string))
  end.

Definition voteFromADX (indicators : IndicatorValues.t) : option Vote.t :=
  match IndicatorValues.adx indicators with
  | None => None
  | Some adx =>
      if adx <? 25 then
        Some (Vote.mk "adx_trend_strength" NEUTRAL 0.5
                (Some ("Weak trend ADX: " ++ toFixed adx 1)%string))
      else
        Some (Vote.mk "adx_trend_strength" NEUTRAL 1
                (Some ("Strong trend ADX: " ++ toFixed adx 1)%string))
  end.

Definition voteFromCCI (indicators : IndicatorValues.t) : option Vote.t :=
  match IndicatorValues.cci indicators with
  | None => None
  | Some cci =>
      if 100 <? cci then
        Some (Vote.mk "cci_signal" UP 1
                (Some ("CCI bullish: " ++ toFixed cci 1)%string))
      else if cci <? -100 then
        Some (Vote.mk "cci_signal" DOWN 1
                (Some ("CCI bearish: " ++ toFixed cci 1)%string))
      else Some (Vote.mk "cci_signal" NEUTRAL 0.3 None)
  end.

Definition voteFromWilliamsR (indicators : IndicatorValues.t) : option Vote.t :=
  match IndicatorValues.williamsR indicators with
  | None => None
  | Some wr =>
      if wr <? -80 then
        Some (Vote.mk "williams_r" UP 1 (Some "Williams %R oversold"%string))
      else if -20 <? wr then
        Some (Vote.mk "williams_r" DOWN 1 (Some "Williams %R overbought"%string))
      else Some (Vote.mk "williams_r" NEUTRAL 0.3 None)
  end.

Definition voteFromHullMA (indicators : IndicatorValues.t) (lastClose : float)
    : option Vote.t :=
  match IndicatorValues.hullMA indicators with
  | None => None
  | Some hull =>
      if hull <? lastClose
      then Some (Vote.mk "hull_ma_trend" UP 1 (Some "Price above Hull MA"%string))
      else Some (Vote.mk "hull_ma_trend" DOWN 1 (Some "Price below Hull MA"%string))
  end.

Definition voteFromMeanReversion (indicators : IndicatorValues.t)
    : option Vote.t :=
  match IndicatorValues.meanReversionZ indicators with
  | None => None
  | Some z =>
      let text :=
        ("Strong mean reversion signal (z=" ++ toFixed z 2 ++ ")")%string in
      if z <? -2 then Some (Vote.mk "mean_reversion" UP 1 (Some text))
      else if 2 <? z then Some (Vote.mk "mean_reversion" DOWN 1 (Some text))
      else None
  end.

(** The body of the loop over [psychology.patterns]: the vote built for
    one pattern. *)
Definition patternVote (pattern : CandlestickPattern.t) : Vote.t :=
  let name := CandlestickPattern.name pattern in
  match CandlestickPattern.type pattern with
  | bullish =>
      let vote :=
        Vote.mk (JS.replace_spaces (JS.toLowerCase name)) UP
          (CandlestickPattern.strength pattern)
          (Some (CandlestickPattern.description pattern)) in
      let vote :=
        if JS.includes name "Engulfing"
        then Vote.set_indicator vote "engulfing_pattern" else vote in
      if JS.includes name "Hammer"
      then Vote.set_indicator vote "hammer_pattern" else vote
  | bearish =>
      let vote :=
        Vote.mk (JS.replace_spaces (JS.toLowerCase name)) DOWN
          (CandlestickPattern.strength pattern)
          (Some (CandlestickPattern.description pattern)) in
      let vote :=
        if JS.includes name "Engulfing"
        then Vote.set_indicator vote "engulfing_pattern" else vote in
      if JS.includes name "Shooting"
      then Vote.set_indicator vote "shooting_star" else vote
  | neutral =>
      Vote.mk "doji_pattern" NEUTRAL
        (CandlestickPattern.strength pattern * 0.5)
        (Some (CandlestickPattern.description pattern))
  end.

Definition voteFromPsychology (psychology : PsychologyAnalysis.t)
    : list Vote.t :=
  let votes :=
    fold_left (fun votes pattern => votes ++ [patternVote pattern])
      (PsychologyAnalysis.patterns psychology) [] in
  let votes :=
    if 0.6 <? PsychologyAnalysis.orderBlockProbability psychology then
      let direction :=
        match PsychologyAnalysis.bias psychology with
        | bullish => UP
        | bearish => DOWN
        | neutral => NEUTRAL
        end in
      votes ++ [Vote.mk "order_block" direction
                  (PsychologyAnalysis.orderBlockProbability psychology)
                  (Some "Order block detected"%string)]
    else votes in
  let votes :=
    if PsychologyAnalysis.fvgDetected psychology then
      votes ++ [Vote.mk "fvg_signal"
                  match PsychologyAnalysis.bias psychology with
                  | bullish => UP
                  | _ => DOWN
                  end
                  0.8 (Some "Fair Value Gap detected"%string)]
    else votes in
  let votes :=
    if 0.6 <? PsychologyAnalysis.upperWickRatio psychology then
      votes ++ [Vote.mk "wick_rejection" DOWN
                  (PsychologyAnalysis.upperWickRatio psychology)
                  (Some "Upper wick rejection"%string)]
    else votes in
  if 0.6 <? PsychologyAnalysis.lowerWickRatio psychology then
    votes ++ [Vote.mk "wick_rejection" UP
                (PsychologyAnalysis.lowerWickRatio psychology)
                (Some "Lower wick rejection"%string)]
  else votes.

(** The closures [addVote] and [addVotes] of [collectVotes]; the array
    [votes] they push to is threaded through. *)
Definition addVote (enabledIndicators : option (list string))
    (customWeights : option (gmap string float))
    (votes : list Vote.t) (vote : option Vote.t) (name : string)
    : list Vote.t :=
  match vote with
  | Some vote =>
      if Config.isIndicatorEnabled name enabledIndicators
      then votes ++ [Vote.scale vote (Config.getIndicatorWeight name customWeights)]
      else votes
  | None => votes
  end.

Definition addVotes (enabledIndicators : option (list string))
    (customWeights : option (gmap string float))
    (votes : list Vote.t) (voteList : list Vote.t) (prefix : string)
    : list Vote.t :=
  fold_left
    (fun votes vote =>
       let name :=
         if String.eqb prefix "" then Vote.indicator vote else prefix in
       if Config.isIndicatorEnabled name enabledIndicators
       then votes ++ [Vote.scale vote (Config.getIndicatorWeight name customWeights)]
       else votes)
    voteList votes.

Definition collectVotes (indicators : IndicatorValues.t)
    (psychology : PsychologyAnalysis.t) (lastClose : float)
    (options : option SessionOptions.t) : list Vote.t :=
  let enabledIndicators :=
    match options with
    | Some o => SessionOptions.enabledIndicators o
    | None => None
    end in
  let customWeights :=
    match options with
    | Some o => SessionOptions.customWeights o
    | None => None
    end in
  let addVote := addVote enabledIndicators customWeights in
  let addVotes := addVotes enabledIndicators customWeights in
  let votes := [] in
  let votes := addVote votes (voteFromEMACross indicators "ema5" "ema21" lastClose "ema_cross_5_21") "ema_cross_5_21" in
  let votes := addVote votes (voteFromEMACross indicators "ema9" "ema21" lastClose "ema_cross_9_21") "ema_cross_9_21" in
  let votes := addVote votes (voteFromEMACross indicators "ema12" "ema50" lastClose "ema_cross_12_50") "ema_cross_12_50" in
  let votes := addVote votes (voteFromSMATrend indicators "sma20" lastClose "sma_trend_20") "sma_trend_20" in
  let votes := addVote votes (voteFromSMATrend indicators "sma50" lastClose "sma_trend_50") "sma_trend_50" in
  let votes := addVote votes (voteFromSMATrend indicators "sma200" lastClose "sma_trend_200") "sma_trend_200" in
  let votes := addVotes votes (voteFromMACD indicators) "" in
  let votes := addVotes votes (voteFromRSI indicators) "" in
  let votes := addVotes votes (voteFromStochastic indicators) "" in
  let votes := addVotes votes (voteFromBollinger indicators lastClose) "" in
  let votes := addVote votes (voteFromSuperTrend indicators) "supertrend_signal" in
  let votes := addVote votes (voteFromPSAR indicators lastClose) "psar_signal" in
  let votes := addVote votes (voteFromADX indicators) "adx_trend_strength" in
  let votes := addVote votes (voteFromCCI indicators) "cci_signal" in
  let votes := addVote votes (voteFromWilliamsR indicators) "williams_r" in
  let votes := addVote votes (voteFromHullMA indicators lastClose) "hull_ma_trend" in
  let votes := addVote votes (voteFromMeanReversion indicators) "mean_reversion" in
  addVotes votes (voteFromPsychology psychology) "".

Record Scores := mkScores { finalUp : float; finalDown : float; pUp : float }.

Definition calculateScores (votes : list Vote.t) : Scores :=
  let '(finalUp, finalDown) :=
    fold_left
      (fun '(finalUp, finalDown) vote =>
         match Vote.direction vote with
         | UP => (finalUp + Vote.weight vote, finalDown)
         | DOWN => (finalUp, finalDown + Vote.weight vote)
         | NEUTRAL => (finalUp, finalDown)
         end)
      votes (0, 0) in
  let total := finalUp + finalDown + 1e-9 in
  let pUp := finalUp / total in
  mkScores finalUp finalDown pUp.

Definition determineDirection (pUp confidence : float) : SignalDirection :=
  if confidence <? Config.minConfidence then NO_TRADE
  else if 0.5 <? pUp then CALL else PUT.

(** [generateSignal]; [nowMs] is the value [Date.now()] returns when the
    function reads the clock. *)
Definition generateSignal (nowMs : Z) (sessionId symbol : string)
    (timeframe : Z) (closedCandles : list Candle.t)
    (formingCandle : option Candle.t) (candleCloseTime : Z)
    (options : option SessionOptions.t) : SignalResult.t :=
  let timestamp := TimeUtils.nowEpoch nowMs in
  if (Z.of_nat (length closedCandles) <? Config.minCandlesForSignal)%Z then
    SignalResult.mk sessionId symbol timeframe timestamp candleCloseTime
      NO_TRADE 0 0.5 0.5 [] IndicatorValues.empty
      (PsychologyAnalysis.mk 0 0 0 false [] neutral 0 false)
      false None (Z.of_nat (length closedCandles)) formingCandle
  else
    let prediction := predictWithFormingCandle closedCandles formingCandle in
    if Volatility.isVolatile (Prediction.volatility prediction) then
      SignalResult.mk sessionId symbol timeframe timestamp candleCloseTime
        NO_TRADE 0 0.5 0.5 []
        (Prediction.indicators prediction) (Prediction.psychology prediction)
        true (Volatility.reason (Prediction.volatility prediction))
        (Z.of_nat (length closedCandles)) formingCandle
    else
      let lastClose := Prediction.estimatedClose prediction in
      let votes :=
        collectVotes (Prediction.indicators prediction)
          (Prediction.psychology prediction) lastClose options in
      let scores := calculateScores votes in
      let pUp := pUp scores in
      let confidence := JS.Math_round (JS.Math_max pUp (1 - pUp) * 100) in
      let direction := determineDirection pUp confidence in
      SignalResult.mk sessionId symbol timeframe timestamp candleCloseTime
        direction confidence pUp (1 - pUp) votes
        (Prediction.indicators prediction) (Prediction.psychology prediction)
        false None (Z.of_nat (length closedCandles)) formingCandle.

End Engine.

End SignalEngine.

(** ** The session manager ([services/sessionManager.ts])

    The feed client ([derivFeed]) and the candle aggregator
    ([candleAggregator]) are collaborators whose sources are not at hand.
    What they answer when the session manager calls them is given by an
    [Env]: one per callback of the manager, which runs to completion.  A
    promise settles as an [Outcome]. *)

Inductive Outcome (A : Type) :=
| Resolved (value : A)
| Rejected (error : string).
Arguments Resolved {A} value.
Arguments Rejected {A} error.

Module Env.
Record t := mk {
  fetchCandleHistory : string -> Z -> Z -> Outcome (list Candle.t);
  subscribeTicks : string -> string -> Outcome unit;
  unsubscribeTicks : string -> string -> Outcome unit;
  getClosedCandles : string -> Z -> list Candle.t;
  getFormingCandle : string -> Z -> option Candle.t;
  now : Z
}.
End Env.

Module SessionManager.

#[local] Open Scope Z_scope.

(** The tick handler a session registers: a closure over its symbol and id. *)
Record TickHandler := mkHandler { handlerSymbol : string; handlerSession : string }.

(** What the manager emits to its subscribers. *)
Inductive Event :=
| sessionStarted (session : Session.t)
| sessionStopped (session : Session.t)
| preCloseSignal (session : Session.t) (signal : SignalResult.t)
| feedDisconnected.

(** The manager: its two maps and the events emitted so far.  [signalled] is
    a history variable, not a field of the class: the session id and the
    forming-candle start of every [preCloseSignal] emitted, in order. *)
Record t := mk {
  sessions : gmap string Session.t;
  tickHandlers : gmap string TickHandler;
  emitted : list Event;
  signalled : list (string * Z)
}.

Definition empty : t := mk ∅ ∅ [] [].

(** An assignment to a field of the session object stored under [sessionId]. *)
Definition assign (sessionId : string) (f : Session.t -> Session.t) (m : t) : t :=
  mk (alter f sessionId (sessions m)) (tickHandlers m) (emitted m) (signalled m).

Definition emit (e : Event) (m : t) : t :=
  mk (sessions m) (tickHandlers m) (emitted m ++ [e]) (signalled m).

Definition is_active (s : Session.t) : bool :=
  match Session.status s with
  | active => true
  | stopped => false
  end.

(** [a !== b] for [lastSignalCandleTimestamp], which may be undefined, and a
    candle's timestamp. *)
Definition differs (last : option Z) (timestamp : Z) : bool :=
  match last with
  | Some l => negb (l =? timestamp)
  | None => true
  end.

Section Manager.

Variable toFixed : float -> nat -> string.
Variable predictWithFormingCandle :
  list Candle.t -> option Candle.t -> Prediction.t.

(** [formingStart] is not an argument of the method: it names the forming
    candle the caller deduplicated on, for the history variable. *)
Definition emitPreCloseSignal (env : Env.t) (sessionId : string)
    (candleCloseTime : Z) (formingStart : Z) (m : t) : t :=
  match sessions m !! sessionId with
  | None => m
  | Some session =>
      if negb (is_active session) then m
      else
        let closedCandles :=
          Env.getClosedCandles env (Session.symbol session) (Session.timeframe session) in
        let formingCandle :=
          Env.getFormingCandle env (Session.symbol session) (Session.timeframe session) in
        let signal :=
          SignalEngine.generateSignal toFixed predictWithFormingCandle
            (Env.now env) sessionId (Session.symbol session)
            (Session.timeframe session) closedCandles formingCandle
            candleCloseTime (Session.options session) in
        let session := Session.set_lastSignalAt (SignalResult.timestamp signal) session in
        mk (<[sessionId := session]> (sessions m)) (tickHandlers m)
           (emitted m ++ [preCloseSignal session signal])
           (signalled m ++ [(sessionId, formingStart)])
  end.

(** The block both branches of the scheduler share: emit unless the forming
    candle was signalled already, then record its start. *)
Definition signalOnce (env : Env.t) (sessionId : string)
    (formingStart candleCloseTime : Z) (m : t) : t :=
  match sessions m !! sessionId with
  | None => m
  | Some session =>
      if differs (Session.lastSignalCandleTimestamp session) formingStart then
        let m := emitPreCloseSignal env sessionId candleCloseTime formingStart m in
        assign sessionId (Session.set_lastSignalCandleTimestamp formingStart) m
      else m
  end.

Definition scheduleNextPreClose (env : Env.t) (sessionId : string) (m : t) : t :=
  match sessions m !! sessionId with
  | None => m
  | Some session =>
      if negb (is_active session) then m
      else
        let m := assign sessionId (Session.set_preCloseTimer None) m in
        match Env.getFormingCandle env (Session.symbol session) (Session.timeframe session) with
        | None => assign sessionId (Session.set_preCloseTimer (Some (Session.Rearm 1000))) m
        | Some formingCandle =>
            let candleCloseTime :=
              TimeUtils.getCandleCloseTime (Candle.timestamp formingCandle)
                (Session.timeframe session) in
            let preCloseTime := candleCloseTime - Config.preCloseSeconds in
            let now := TimeUtils.nowEpoch (Env.now env) in
            if preCloseTime <=? now then
              let m := signalOnce env sessionId (Candle.timestamp formingCandle)
                         candleCloseTime m in
              let nextCandleStart := candleCloseTime + Session.timeframe session in
              let nextPreClose := nextCandleStart - Config.preCloseSeconds in
              let delayMs :=
                Z.max 1000 ((nextPreClose - TimeUtils.nowEpoch (Env.now env)) * 1000) in
              assign sessionId (Session.set_preCloseTimer (Some (Session.Rearm delayMs))) m
            else
              assign sessionId
                (Session.set_preCloseTimer
                   (Some (Session.AtPreClose preCloseTime
                            (Candle.timestamp formingCandle) candleCloseTime))) m
        end
  end.

(** The pending pre-close timer of a session fires and its callback runs. *)
Definition timerFired (env : Env.t) (sessionId : string) (m : t) : t :=
  match sessions m !! sessionId with
  | None => m
  | Some session =>
      match Session.preCloseTimer session with
      | None => m
      | Some timer =>
          let m := assign sessionId (Session.set_preCloseTimer None) m in
          match timer with
          | Session.Rearm _ => scheduleNextPreClose env sessionId m
          | Session.AtPreClose _ formingStart candleCloseTime =>
              let m := signalOnce env sessionId formingStart candleCloseTime m in
              scheduleNextPreClose env sessionId m
          end
      end
  end.

(** [startSession] is suspended twice: at [await
    derivFeed.fetchCandleHistory] (line 56), after the test of line 50 and
    before the session is stored (line 70), and at [await
    derivFeed.subscribeTicks] (line 81).  Other callbacks may run while it
    is suspended.  [startSession] is the call run with none in between;
    [startSessionFetched] and [startSessionSubscribed] below are the two
    parts in which it resumes. *)
Definition startSession (env : Env.t) (sessionId : string) (chatId : Z)
    (symbol : string) (timeframe : Z) (options : option SessionOptions.t)
    (m : t) : Outcome Session.t * t :=
  match sessions m !! sessionId with
  | Some _ => (Rejected ("Session " ++ sessionId ++ " already exists")%string, m)
  | None =>
      match Env.fetchCandleHistory env symbol timeframe Config.historyCandles with
      | Rejected error => (Rejected error, m)
      | Resolved historyCandles =>
          let session :=
            Session.mk sessionId chatId symbol timeframe active
              (TimeUtils.nowEpoch (Env.now env)) None options None None None in
          let m :=
            mk (<[sessionId := session]> (sessions m))
               (<[sessionId := mkHandler symbol sessionId]> (tickHandlers m))
               (emitted m) (signalled m) in
          match Env.subscribeTicks env symbol sessionId with
          | Rejected error => (Rejected error, m)
          | Resolved _ =>
              let m := scheduleNextPreClose env sessionId m in
              let session := default session (sessions m !! sessionId) in
              (Resolved session, emit (sessionStarted session) m)
          end
      end
  end.

(** [startSession] from its first await to its second (lines 56 to 81),
    for a call that passed the test of line 50 when it was made: the
    history has settled, and the session is stored whatever the manager
    holds under the id by now.  The result is the session object the call
    created. *)
Definition startSessionFetched (env : Env.t) (sessionId : string) (chatId : Z)
    (symbol : string) (timeframe : Z) (options : option SessionOptions.t)
    (m : t) : Outcome Session.t * t :=
  match Env.fetchCandleHistory env symbol timeframe Config.historyCandles with
  | Rejected error => (Rejected error, m)
  | Resolved historyCandles =>
      let session :=
        Session.mk sessionId chatId symbol timeframe active
          (TimeUtils.nowEpoch (Env.now env)) None options None None None in
      (Resolved session,
       mk (<[sessionId := session]> (sessions m))
          (<[sessionId := mkHandler symbol sessionId]> (tickHandlers m))
          (emitted m) (signalled m))
  end.

(** [startSession] from its second await on (lines 81 to 88): the
    subscription has settled.  [session] is the object the call created;
    the event carries what the manager holds under its id, which is that
    object unless another call stored one over it. *)
Definition startSessionSubscribed (env : Env.t) (session : Session.t) (m : t)
    : Outcome Session.t * t :=
  let sessionId := Session.id session in
  match Env.subscribeTicks env (Session.symbol session) sessionId with
  | Rejected error => (Rejected error, m)
  | Resolved _ =>
      let m := scheduleNextPreClose env sessionId m in
      let session := default session (sessions m !! sessionId) in
      (Resolved session, emit (sessionStarted session) m)
  end.

(** [stopSession] changes the manager before its await (line 192); the
    event of line 196 is logged here with the call. *)
Definition stopSession (env : Env.t) (sessionId : string) (m : t)
    : Outcome unit * t :=
  match sessions m !! sessionId with
  | None => (Resolved tt, m)
  | Some session =>
      let m := assign sessionId (Session.set_status stopped) m in
      let m := assign sessionId (Session.set_preCloseTimer None) m in
      let m := assign sessionId (Session.set_signalTimer None) m in
      let m :=
        mk (sessions m) (delete sessionId (tickHandlers m)) (emitted m) (signalled m) in
      match Env.unsubscribeTicks env (Session.symbol session) sessionId with
      | Rejected error => (Rejected error, m)
      | Resolved _ =>
          let session := default session (sessions m !! sessionId) in
          (Resolved tt, emit (sessionStopped session) m)
      end
  end.

(** [restartSession], run for a session the [connected] listener found
    active. *)
Definition restartSession (env : Env.t) (sessionId : string) (m : t) : t :=
  match sessions m !! sessionId with
  | None => m
  | Some session =>
      match Env.fetchCandleHistory env (Session.symbol session)
              (Session.timeframe session) Config.historyCandles with
      | Rejected _ => m
      | Resolved historyCandles =>
          match Env.subscribeTicks env (Session.symbol session) sessionId with
          | Rejected _ => m
          | Resolved _ => scheduleNextPreClose env sessionId m
          end
      end
  end.

Definition onConnected (env : Env.t) (sessionId : string) (m : t) : t :=
  match sessions m !! sessionId with
  | Some session =>
      if is_active session then restartSession env sessionId m else m
  | None => m
  end.

Definition getSession (sessionId : string) (m : t) : option Session.t :=
  sessions m !! sessionId.

(** [Map.values()] visits the sessions in the order in which their ids were
    first stored.  The [gmap] does not keep that order: [order] gives it. *)
Definition getSessionByChatId (order : list string) (chatId : Z) (m : t)
    : option Session.t :=
  List.find
    (fun session => (Session.chatId session =? chatId) && is_active session)
    (omap (fun sessionId => sessions m !! sessionId) order).

(** The loop visits every session once and counts the active ones; the
    count does not depend on the order of the visit. *)
Definition getActiveSessionsCount (m : t) : Z :=
  map_fold
    (fun _ session count => if is_active session then count + 1 else count)
    0 (sessions m).

Definition getSessionCandles (env : Env.t) (sessionId : string) (m : t)
    : list Candle.t * option Candle.t :=
  match sessions m !! sessionId with
  | None => ([], None)
  | Some session =>
      (Env.getClosedCandles env (Session.symbol session)
         (Session.timeframe session),
       Env.getFormingCandle env (Session.symbol session)
         (Session.timeframe session))
  end.

(** [formingCandle?.timestamp || lastClosed.timestamp]: a timestamp of 0 is
    falsy.  [None] is [null]. *)
Definition getDebugSignal (env : Env.t) (symbol : string) (timeframe : Z)
    : option SignalResult.t :=
  let closedCandles := Env.getClosedCandles env symbol timeframe in
  let formingCandle := Env.getFormingCandle env symbol timeframe in
  match list.last closedCandles with
  | None => None
  | Some lastClosed =>
      let start :=
        match formingCandle with
        | Some forming =>
            if Candle.timestamp forming =? 0 then Candle.timestamp lastClosed
            else Candle.timestamp forming
        | None => Candle.timestamp lastClosed
        end in
      let candleCloseTime := TimeUtils.getCandleCloseTime start timeframe in
      Some (SignalEngine.generateSignal toFixed predictWithFormingCandle
              (Env.now env) "debug" symbol timeframe closedCandles
              formingCandle candleCloseTime None)
  end.

(** One callback of the manager: a call run with no other callback
    between its awaits ([Start], [Stop], and [Connected] for the restart of
    one session, which changes the manager only in its last part), a timer
    firing, or a call of [startSession] resuming after its first await
    ([Fetched]) or its second ([Subscribed]). *)
Inductive Action :=
| Start (sessionId : string) (chatId : Z) (symbol : string) (timeframe : Z)
    (options : option SessionOptions.t)
| Stop (sessionId : string)
| Connected (sessionId : string)
| TimerFired (sessionId : string)
| Fetched (sessionId : string) (chatId : Z) (symbol : string) (timeframe : Z)
    (options : option SessionOptions.t)
| Subscribed (session : Session.t).

Definition step (m : t) (ea : Env.t * Action) : t :=
  let '(env, a) := ea in
  match a with
  | Start sessionId chatId symbol timeframe options =>
      snd (startSession env sessionId chatId symbol timeframe options m)
  | Stop sessionId => snd (stopSession env sessionId m)
  | Connected sessionId => onConnected env sessionId m
  | TimerFired sessionId => timerFired env sessionId m
  | Fetched sessionId chatId symbol timeframe options =>
      snd (startSessionFetched env sessionId chatId symbol timeframe options m)
  | Subscribed session => snd (startSessionSubscribed env session m)
  end.

Definition run (l : list (Env.t * Action)) (m : t) : t := fold_left step l m.

End Manager.

End SessionManager.

(** ** The in-memory storage ([storage.ts], class [MemStorage])

    The signal log and the candle buffers.  The user and session maps of
    the class are not touched by the methods below and are left out. *)

Module MemStorage.

#[local] Open Scope Z_scope.

Record t := mk {
  signals : list SignalResult.t;
  candles : gmap string (list Candle.t)
}.

Definition empty : t := mk [] ∅.

Definition saveSignal (signal : SignalResult.t) (st : t) : t :=
  let signals := signals st ++ [signal] in
  if 10000 <? Z.of_nat (length signals)
  then mk (JS.slice (-5000) signals) (candles st)
  else mk signals (candles st).

(** [limit] is [None] when the caller leaves it out. *)
Definition getSignals (sessionId : string) (limit : option Z) (st : t)
    : list SignalResult.t :=
  let limit := default 100 limit in
  rev (JS.slice (- limit)
         (List.filter
            (fun s => String.eqb (SignalResult.sessionId s) sessionId)
            (signals st))).

Definition getRecentSignals (limit : option Z) (st : t)
    : list SignalResult.t :=
  let limit := default 50 limit in
  rev (JS.slice (- limit) (signals st)).

(** [`${symbol}:${timeframe}`]. *)
Definition key (symbol : string) (timeframe : Z) : string :=
  (symbol ++ ":" ++ JS.String_of_Z timeframe)%string.

Definition saveCandle (candle : Candle.t) (st : t) : t :=
  let key := key (Candle.symbol candle) (Candle.timeframe candle) in
  let arr := default [] (candles st !! key) ++ [candle] in
  if 1000 <? Z.of_nat (length arr)
  then mk (signals st) (<[key := JS.slice (-500) arr]> (candles st))
  else mk (signals st) (<[key := arr]> (candles st)).

Definition getCandles (symbol : string) (timeframe : Z) (limit : option Z)
    (st : t) : list Candle.t :=
  let limit := default 500 limit in
  let arr := default [] (candles st !! key symbol timeframe) in
  JS.slice (- limit) arr.

End MemStorage.

(** ** The inline keyboards ([telegram/keyboards.ts]) *)

Module Keyboards.

#[local] Open Scope string_scope.

Record InlineButton := mkButton { text : string; callback_data : string }.

(** [InlineKeyboard], as the rows of its [inline_keyboard]. *)
Definition InlineKeyboard := list (list InlineButton).

Definition createStartKeyboard : InlineKeyboard :=
  [ [ mkButton "Begin Trading Session" "begin" ] ].

Definition assetButton (asset : Asset.t) : InlineButton :=
  mkButton (Asset.name asset) ("asset:" ++ Asset.id asset).

(** The loop [for (let i = 0; i < assets.length; i += 2)]: one row for every
    two assets, and a row of one for the last of an odd number. *)
Fixpoint assetRows (assets : list Asset.t) : list (list InlineButton) :=
  match assets with
  | first :: second :: rest =>
      [assetButton first; assetButton second] :: assetRows rest
  | [first] => [[assetButton first]]
  | [] => []
  end.

Definition inCategory (category : string) (asset : Asset.t) : bool :=
  match Asset.category asset with
  | Some c => String.eqb c category
  | None => false
  end.

Definition categoryRows (header data category : string)
    (assets : list Asset.t) : list (list InlineButton) :=
  let categoryAssets := List.filter (inCategory category) assets in
  match categoryAssets with
  | [] => []
  | _ => [mkButton header data] :: assetRows categoryAssets
  end.

Definition createAssetKeyboard (assets : list Asset.t) : InlineKeyboard :=
  (categoryRows "FOREX" "header_forex" "forex" assets ++
   categoryRows "SYNTHETIC INDICES" "header_synthetic" "synthetic" assets ++
   categoryRows "CRYPTO" "header_crypto" "crypto" assets ++
   [ [ mkButton "Cancel" "cancel" ] ])%list.

Definition timeframeButton (assetId : string) (tf : Z * string)
    : InlineButton :=
  mkButton (snd tf)
    ("timeframe:" ++ assetId ++ ":" ++ JS.String_of_Z (fst tf)).

Definition createTimeframeKeyboard (assetId : string) : InlineKeyboard :=
  let mainTimeframes := firstn 3 Config.TIMEFRAMES in
  let rows := [ map (timeframeButton assetId) mainTimeframes ] in
  let otherTimeframes := skipn 3 Config.TIMEFRAMES in
  let rows :=
    match otherTimeframes with
    | [] => rows
    | _ => (rows ++ [ map (timeframeButton assetId) otherTimeframes ])%list
    end in
  (rows ++
   [ [ mkButton "Back to Assets" "begin"; mkButton "Cancel" "cancel" ] ])%list.

Definition createConfirmSessionKeyboard (assetId : string) (timeframe : Z)
    : InlineKeyboard :=
  [ [ mkButton "Start Session"
        ("start_session:" ++ assetId ++ ":" ++ JS.String_of_Z timeframe) ];
    [ mkButton "Change Timeframe" ("asset:" ++ assetId);
      mkButton "Change Asset" "begin" ];
    [ mkButton "Cancel" "cancel" ] ].

Definition createSessionControlKeyboard (sessionId : string)
    : InlineKeyboard :=
  [ [ mkButton "View Status" ("view:" ++ sessionId);
      mkButton "Stop Session" ("stop:" ++ sessionId) ] ].

Definition createSignalActionKeyboard (sessionId : string) : InlineKeyboard :=
  [ [ mkButton "View Session" ("view:" ++ sessionId);
      mkButton "Re-run Signal" ("rerun:" ++ sessionId) ];
    [ mkButton "Stop Session" ("stop:" ++ sessionId) ] ].

Definition createStoppedSessionKeyboard : InlineKeyboard :=
  [ [ mkButton "Start New Session" "begin" ] ].

End Keyboards.

(** ** The handlers of the bot ([telegram/handlers.ts], [telegram/bot.ts])

    [handleCallback] reads the data of a callback query and calls one of
    the handlers of the file with the arguments it decodes from the data.
    The call it makes is given here; the bot, the chat, the message and
    the state of the user are passed on as they are.  An [undefined]
    argument and a [NaN] are [None]. *)

Module Handlers.

#[local] Open Scope string_scope.

Module Call.
Inductive t :=
| handleBegin
| handleAssetSelection (assetId : string)
| handleTimeframeSelection (assetId : option string) (timeframe : option Z)
| handleStartSession (assetId : option string) (timeframe : option Z)
| handleStopSession (sessionId : string)
| handleViewSession (sessionId : string)
| handleRerunSignal (sessionId : string)
| handleCancel
| noCall.
End Call.

(** [const [, assetId, tf] = data.split(":")]. *)
Definition assetAndTimeframe (data : string) : option string * option string :=
  let pieces := JS.split ":" data in
  (nth_error pieces 1, nth_error pieces 2).

Definition handleCallback (data : string) : Call.t :=
  if String.eqb data "begin" then Call.handleBegin
  else if JS.startsWith data "asset:" then
    Call.handleAssetSelection (JS.replace data "asset:" "")
  else if JS.startsWith data "timeframe:" then
    let '(assetId, tf) := assetAndTimeframe data in
    Call.handleTimeframeSelection assetId (tf ≫= JS.parseInt)
  else if JS.startsWith data "start_session:" then
    let '(assetId, tf) := assetAndTimeframe data in
    Call.handleStartSession assetId (tf ≫= JS.parseInt)
  else if JS.startsWith data "stop:" then
    Call.handleStopSession (JS.replace data "stop:" "")
  else if JS.startsWith data "view:" then
    Call.handleViewSession (JS.replace data "view:" "")
  else if JS.startsWith data "rerun:" then
    Call.handleRerunSignal (JS.replace data "rerun:" "")
  else if String.eqb data "cancel" then Call.handleCancel
  else Call.noCall.

(** The id [handleStartSession] gives a new session:
    [`${chatId}_${Date.now()}`]. *)
Definition sessionIdFor (chatId nowMs : Z) : string :=
  JS.String_of_Z chatId ++ "_" ++ JS.String_of_Z nowMs.

(** *** The handlers that start and stop sessions

    What [handleStartSession] and [handleStopSession] do to the session
    manager and to the state they keep for the user, for an asset id and a
    time frame that were decoded.  The messages they send and the rows they
    write come after these steps and are not part of the result.  A
    handler runs here with no other callback between its awaits; each call
    of the session manager has its [Env], [order] is the order in which the
    sessions were stored and [nowMs] is the clock read for the id. *)

Record UserState := mkState {
  selectedAsset : option string;
  selectedTimeframe : option Z;
  activeSessionId : option string
}.

Section Sessions.

Variable toFixed : float -> nat -> string.
Variable predictWithFormingCandle :
  list Candle.t -> option Candle.t -> Prediction.t.

(** A rejection of [stopSession] leaves the handler at once: that call is
    outside its [try]. *)
Definition handleStartSession (stopEnv startEnv : Env.t) (order : list string)
    (nowMs chatId : Z) (assetId : string) (timeframe : Z) (state : UserState)
    (m : SessionManager.t) : UserState * SessionManager.t :=
  match Config.getAssetById assetId with
  | None => (state, m)
  | Some asset =>
      let stopped :=
        match SessionManager.getSessionByChatId order chatId m with
        | Some existingSession =>
            SessionManager.stopSession stopEnv (Session.id existingSession) m
        | None => (Resolved tt, m)
        end in
      match stopped with
      | (Rejected _, m) => (state, m)
      | (Resolved _, m) =>
          let sessionId := sessionIdFor chatId nowMs in
          match
            SessionManager.startSession toFixed predictWithFormingCandle
              startEnv sessionId chatId assetId timeframe None m
          with
          | (Resolved session, m) =>
              (mkState (selectedAsset state) (selectedTimeframe state)
                 (Some sessionId), m)
          | (Rejected _, m) => (state, m)
          end
      end
  end.

Definition handleStopSession (env : Env.t) (sessionId : string)
    (state : UserState) (m : SessionManager.t)
    : UserState * SessionManager.t :=
  match SessionManager.stopSession env sessionId m with
  | (Rejected _, m) => (state, m)
  | (Resolved _, m) =>
      match activeSessionId state with
      | Some activeSessionId =>
          if String.eqb activeSessionId sessionId then
            (mkState (selectedAsset state) (selectedTimeframe state) None, m)
          else (state, m)
      | None => (state, m)
      end
  end.

End Sessions.

End Handlers.

(** The [message] listener of [initTelegramBot], as far as the session
    manager goes: [/stop] stops the session [getSessionByChatId] finds for
    the chat; [/start], [/status] and [/help] only read and answer. *)

Module Bot.

Definition onMessage (env : Env.t) (order : list string) (text : string)
    (chatId : Z) (m : SessionManager.t) : SessionManager.t :=
  if String.eqb text "/stop" then
    match SessionManager.getSessionByChatId order chatId m with
    | Some session =>
        snd (SessionManager.stopSession env (Session.id session) m)
    | None => m
    end
  else m.

End Bot.

(** ** The HTTP routes of the sessions ([routes.ts])

    The body of a request is read as the fields the handler takes from it,
    each absent or of the type the session manager declares for it. *)

Module Routes.

#[local] Open Scope Z_scope.

Record StartSessionBody := mkBody {
  session_id : option string;
  chat_id : option Z;
  asset : option string;
  timeframe : option Z;
  options : option SessionOptions.t
}.

(** The session as the responses show it. *)
Record SessionView := mkView {
  id : string;
  symbol : string;
  viewTimeframe : Z;
  status : SessionStatus;
  startedAt : Z
}.

Inductive Response :=
| success (session : option SessionView)
| badRequest (error : string)
| serverError (error : string).

(** [!value]: an absent field, the empty string and 0 are falsy. *)
Definition missingString (value : option string) : bool :=
  match value with
  | Some v => String.eqb v ""
  | None => true
  end.

Definition missingNumber (value : option Z) : bool :=
  match value with
  | Some v => v =? 0
  | None => true
  end.

Section Routes.

Variable toFixed : float -> nat -> string.
Variable predictWithFormingCandle :
  list Candle.t -> option Candle.t -> Prediction.t.

(** [POST /api/startSession]. *)
Definition startSession (env : Env.t) (body : StartSessionBody)
    (m : SessionManager.t) : Response * SessionManager.t :=
  if missingString (session_id body) || missingNumber (chat_id body) ||
     missingString (asset body) || missingNumber (timeframe body)
  then (badRequest "Missing required fields", m)
  else
    let asset := default ""%string (asset body) in
    match Config.getAssetById asset with
    | None => (badRequest "Invalid asset", m)
    | Some assetInfo =>
        match
          SessionManager.startSession toFixed predictWithFormingCandle env
            (default ""%string (session_id body)) (default 0 (chat_id body))
            asset (default 0 (timeframe body)) (options body) m
        with
        | (Resolved session, m) =>
            (success
               (Some (mkView (Session.id session) (Session.symbol session)
                        (Session.timeframe session) (Session.status session)
                        (Session.startedAt session))), m)
        | (Rejected _, m) => (serverError "Failed to start session", m)
        end
    end.

(** [POST /api/stopSession]. *)
Definition stopSession (env : Env.t) (session_id : option string)
    (m : SessionManager.t) : Response * SessionManager.t :=
  if missingString session_id then (badRequest "Missing session_id", m)
  else
    match SessionManager.stopSession env (default ""%string session_id) m with
    | (Resolved _, m) => (success None, m)
    | (Rejected _, m) => (serverError "Failed to stop session", m)
    end.

End Routes.

End Routes.

(** * Properties *)

(** ** Sample data used by the examples below *)

Module Sample.

#[local] Open Scope float_scope.

Definition toFixed (x : float) (digits : nat) : string := "#"%string.

Definition candle : Candle.t :=
  Candle.mk "R_100" 60 100 101 99 100.5 0 12 false.

Definition forming (start : Z) : Candle.t :=
  Candle.mk "R_100" 60 100.5 100.75 100.25 100.5 start 3 true.

(** [n] closed candles. *)
Definition candles (n : nat) : list Candle.t := repeat candle n.

Definition psychology : PsychologyAnalysis.t :=
  PsychologyAnalysis.mk 0.5 0.25 0.25 false [] neutral 0 false.

Definition with_psar (psar : float) : IndicatorValues.t :=
  IndicatorValues.mk None None None None None None None None None None None
    None None None None None None None None None None None None None None
    None (Some psar) None None None None None None.

Definition with_macd (macd : Macd.t) : IndicatorValues.t :=
  IndicatorValues.mk None None None None None None None None (Some macd) None
    None None None None None None None None None None None None None None
    None None None None None None None None None.

(** A prediction engine that always reports a volatile market. *)
Definition volatile (closed : list Candle.t) (forming : option Candle.t)
    : Prediction.t :=
  Prediction.mk 100.5 (with_psar 101) psychology
    (Volatility.mk true (Some "ATR ratio above threshold"%string)).

(** A calm market in which the price is below the parabolic SAR. *)
Definition below_psar (closed : list Candle.t) (forming : option Candle.t)
    : Prediction.t :=
  Prediction.mk 100.5 (with_psar 101) psychology (Volatility.mk false None).

(** A calm market where MACD is above its signal line. *)
Definition macd_up (closed : list Candle.t) (forming : option Candle.t)
    : Prediction.t :=
  Prediction.mk 100.5 (with_macd (Macd.mk 0.5 0.25 0.25)) psychology
    (Volatility.mk false None).

(** Session options that enable [psar_signal] alone and give it the custom
    weight [-1e-9]. *)
Definition cancelling_options : SessionOptions.t :=
  SessionOptions.mk (Some ["psar_signal"%string])
    (Some {[ "psar_signal"%string := -1e-9 ]}) None.

(** An analysis that detected one neutral pattern and nothing else. *)
Definition doji : PsychologyAnalysis.t :=
  PsychologyAnalysis.mk 0.05 0.4 0.4 true
    [CandlestickPattern.mk "Doji" neutral 0.8 "Indecision"] neutral 0 false.



(** A responsive feed and an aggregator holding 60 closed candles and the
    given forming candle, at the given second. *)
Definition env (forming : option Candle.t) (second : Z) : Env.t :=
  Env.mk (fun _ _ _ => Resolved (candles 60)) (fun _ _ => Resolved tt)
    (fun _ _ => Resolved tt) (fun _ _ => candles 60) (fun _ _ => forming)
    (second * 1000).

(** A session on one-minute candles: started at second 130 while the candle
    of [120, 180) forms; its pre-close timer fires at 176; the next timer
    fires at 236, in the candle of [180, 240); the feed reconnects at 237. *)
Definition two_candles : list (Env.t * SessionManager.Action) :=
  [ (env (Some (forming 120)) 130,
     SessionManager.Start "s1" 7 "R_100" 60 None);
    (env (Some (forming 120)) 176, SessionManager.TimerFired "s1");
    (env (Some (forming 180)) 236, SessionManager.TimerFired "s1");
    (env (Some (forming 180)) 237, SessionManager.Connected "s1") ].

(** Two calls of [startSession] for the id [s1], made one after the other
    on the empty manager at second 177, in the pre-close window of the
    candle of [120, 180): both pass the test of the id, since neither has
    stored its session yet.  The first resumes with the history and then
    with the subscription, and after it the second does. *)
Definition created : Session.t :=
  Session.mk "s1" 7 "R_100" 60 active 177 None None None None None.

Definition overlapping_starts : list (Env.t * SessionManager.Action) :=
  [ (env (Some (forming 120)) 177,
     SessionManager.Fetched "s1" 7 "R_100" 60 None);
    (env (Some (forming 120)) 177, SessionManager.Subscribed created);
    (env (Some (forming 120)) 177,
     SessionManager.Fetched "s1" 7 "R_100" 60 None);
    (env (Some (forming 120)) 177, SessionManager.Subscribed created) ].

(** The manager after that session was started, and the session it holds. *)
Definition started : SessionManager.t :=
  snd (SessionManager.startSession toFixed macd_up
         (env (Some (forming 120)) 130) "s1" 7 "R_100" 60 None
         SessionManager.empty).

Definition started_session : Session.t :=
  Session.mk "s1" 7 "R_100" 60 active 130 None None None
    (Some (Session.AtPreClose 176 120 180)) None.

(** A feed that returns the history but rejects the subscription to the
    ticks. *)
Definition deaf (second : Z) : Env.t :=
  Env.mk (fun _ _ _ => Resolved (candles 60))
    (fun _ _ => Rejected "no ticks"%string) (fun _ _ => Resolved tt)
    (fun _ _ => candles 60) (fun _ _ => None) (second * 1000).

(** An aggregator that holds ten closed candles and no forming one. *)
Definition short (second : Z) : Env.t :=
  Env.mk (fun _ _ _ => Resolved (candles 10)) (fun _ _ => Resolved tt)
    (fun _ _ => Resolved tt) (fun _ _ => candles 10) (fun _ _ => None)
    (second * 1000).

(** The session of [started] once stopped, and the manager that holds it. *)
Definition stopped_session : Session.t :=
  Session.set_signalTimer None
    (Session.set_preCloseTimer None (Session.set_status stopped started_session)).

Definition stopped_manager : SessionManager.t :=
  snd (SessionManager.stopSession (env None 140) "s1" started).

(** A signal for session [sessionId], computed at second [second]. *)
Definition signal (sessionId : string) (second : Z) : SignalResult.t :=
  SignalEngine.generateSignal toFixed macd_up (second * 1000) sessionId
    "R_100" 60 (candles 10) None 60 None.

(** Options that enable no indicator. *)
Definition no_indicator : SessionOptions.t :=
  SessionOptions.mk (Some []) None None.

End Sample.

(** ** The statements of the specification, as definitions *)

Module Spec.

#[local] Open Scope float_scope.

(** "[direction <> NO_TRADE] implies [confidence >= minConfidence]", with the
    comparison JavaScript's [>=] makes. *)
Definition confidence_gate (r : SignalResult.t) : Prop :=
  SignalResult.direction r <> NO_TRADE ->
  (Config.minConfidence <=? SignalResult.confidence r) = true.

(** The sum of the weights of the votes of one direction, added up in the
    order of the votes. *)
Definition has_direction (d : VoteDirection) (v : Vote.t) : bool :=
  match d, Vote.direction v with
  | UP, UP | DOWN, DOWN | NEUTRAL, NEUTRAL => true
  | _, _ => false
  end.

Definition weight_sum (d : VoteDirection) (votes : list Vote.t) : float :=
  fold_left add (map Vote.weight (List.filter (has_direction d) votes)) 0.

(** "[pUp + pDown = 1] within 1e-9". *)
Definition closes (r : SignalResult.t) : Prop :=
  (abs (SignalResult.pUp r + SignalResult.pDown r - 1) <=? 1e-9) = true.

(** "[pUp] is the UP weight over the UP weight plus the DOWN weight plus
    1e-9". *)
Definition pUp_formula (r : SignalResult.t) : Prop :=
  SignalResult.pUp r =
  weight_sum UP (SignalResult.votes r) /
  (weight_sum UP (SignalResult.votes r) + weight_sum DOWN (SignalResult.votes r) + 1e-9).

(** "[confidence = round(max(pUp, pDown) * 100)]". *)
Definition confidence_formula (r : SignalResult.t) : Prop :=
  SignalResult.confidence r =
  JS.Math_round (JS.Math_max (SignalResult.pUp r) (SignalResult.pDown r) * 100).

Definition probability_closure (r : SignalResult.t) : Prop :=
  closes r /\ pUp_formula r /\ confidence_formula r.

(** "One vote per detected pattern, direction by the pattern's type, weight
    equal to the pattern's strength": the vote [v] claimed for pattern [p]. *)
Definition pattern_vote (p : CandlestickPattern.t) (v : Vote.t) : Prop :=
  Vote.weight v = CandlestickPattern.strength p /\
  (CandlestickPattern.type p = bullish -> Vote.direction v = UP) /\
  (CandlestickPattern.type p = bearish -> Vote.direction v = DOWN).

(** The supported time frames. *)
Definition supported (timeframe : Z) : Prop :=
  In timeframe (map fst Config.TIMEFRAMES).

End Spec.

(** ** Auxiliary definitions

    The definitions the statements and proofs below are written with. *)

(** *** Votes *)

(** The votes returned by a producer of at most one vote. *)
Definition at_most_one (vote : option Vote.t) : list Vote.t :=
  match vote with
  | Some v => [v]
  | None => []
  end.

(** The votes the catalogue of producers returns, in the order in which
    [collectVotes] calls them. *)
Definition produced (toFixed : float -> nat -> string)
    (indicators : IndicatorValues.t)
    (psychology : PsychologyAnalysis.t) (lastClose : float) : list Vote.t :=
  at_most_one (SignalEngine.voteFromEMACross indicators "ema5" "ema21" lastClose "ema_cross_5_21") ++
  at_most_one (SignalEngine.voteFromEMACross indicators "ema9" "ema21" lastClose "ema_cross_9_21") ++
  at_most_one (SignalEngine.voteFromEMACross indicators "ema12" "ema50" lastClose "ema_cross_12_50") ++
  at_most_one (SignalEngine.voteFromSMATrend indicators "sma20" lastClose "sma_trend_20") ++
  at_most_one (SignalEngine.voteFromSMATrend indicators "sma50" lastClose "sma_trend_50") ++
  at_most_one (SignalEngine.voteFromSMATrend indicators "sma200" lastClose "sma_trend_200") ++
  SignalEngine.voteFromMACD indicators ++
  SignalEngine.voteFromRSI toFixed indicators ++
  SignalEngine.voteFromStochastic indicators ++
  SignalEngine.voteFromBollinger indicators lastClose ++
  at_most_one (SignalEngine.voteFromSuperTrend indicators) ++
  at_most_one (SignalEngine.voteFromPSAR indicators lastClose) ++
  at_most_one (SignalEngine.voteFromADX toFixed indicators) ++
  at_most_one (SignalEngine.voteFromCCI toFixed indicators) ++
  at_most_one (SignalEngine.voteFromWilliamsR indicators) ++
  at_most_one (SignalEngine.voteFromHullMA indicators lastClose) ++
  at_most_one (SignalEngine.voteFromMeanReversion toFixed indicators) ++
  SignalEngine.voteFromPsychology psychology.

(** Whether a produced vote is kept, and the vote it becomes. *)
Definition kept (enabledIndicators : option (list string)) (v : Vote.t)
    : bool :=
  Config.isIndicatorEnabled (Vote.indicator v) enabledIndicators.

Definition weighted (customWeights : option (gmap string float)) (v : Vote.t)
    : Vote.t :=
  Vote.scale v (Config.getIndicatorWeight (Vote.indicator v) customWeights).

(** A vote named [name] is kept when [name] is in the whitelist, if there is
    one; otherwise when the built-in table enables it (a name the table does
    not list is enabled). *)
Definition allowed (enabledIndicators : option (list string)) (name : string)
    : bool :=
  match enabledIndicators with
  | Some whitelist => bool_decide (name ∈ whitelist)
  | None =>
      match Config.find_weight name with
      | Some entry => Config.enabled entry
      | None => true
      end
  end.

(** The multiplier of a vote named [name]: the custom weight when there is
    one, else the weight of the built-in table (1 for a name the table does
    not list). *)
Definition multiplier (customWeights : option (gmap string float))
    (name : string) : float :=
  match customWeights ≫= (fun weights => weights !! name) with
  | Some w => w
  | None =>
      match Config.find_weight name with
      | Some entry => Config.weight entry
      | None => 1%float
      end
  end.

(** A name for which the code reads the custom weights as the words above
    do: one the custom weights define, or one that is not the name of a
    property inherited from [Object.prototype]. *)
Definition plain (customWeights : option (gmap string float)) (name : string)
    : Prop :=
  forall weights,
    customWeights = Some weights -> weights !! name = None ->
    JS.inherited name = false.

(** The votes of the patterns of an analysis have such names. *)
Definition plain_patterns (customWeights : option (gmap string float))
    (psychology : PsychologyAnalysis.t) : Prop :=
  Forall
    (fun pattern =>
       plain customWeights (Vote.indicator (SignalEngine.patternVote pattern)))
    (PsychologyAnalysis.patterns psychology).

(** What the loop builds for one pattern. *)
Definition vote_of_pattern (p : CandlestickPattern.t) (v : Vote.t) : Prop :=
  Vote.reason v = Some (CandlestickPattern.description p) /\
  match CandlestickPattern.type p with
  | bullish =>
      Vote.direction v = UP /\ Vote.weight v = CandlestickPattern.strength p
  | bearish =>
      Vote.direction v = DOWN /\ Vote.weight v = CandlestickPattern.strength p
  | neutral =>
      Vote.direction v = NEUTRAL /\
      Vote.weight v = (CandlestickPattern.strength p * 0.5)%float /\
      Vote.indicator v = "doji_pattern"%string
  end.

(** *** The session manager, one session at a time

    Every callback of the scheduler reads and writes one session object and
    appends to the event log.  Its effect is described here as a function of
    that session alone; it is shown below to be what the manager does. *)

Module Effect.
Record t := mk {
  next : Session.t;
  events : list SessionManager.Event;
  starts : list Z
}.

Definition idle (s : Session.t) : t := mk s [] [].

(** The manager after an effect on the session stored under [sessionId]. *)
Definition install (sessionId : string) (e : t) (m : SessionManager.t)
    : SessionManager.t :=
  SessionManager.mk (<[sessionId := next e]> (SessionManager.sessions m))
    (SessionManager.tickHandlers m)
    (SessionManager.emitted m ++ events e)
    (SessionManager.signalled m ++ map (pair sessionId) (starts e)).
End Effect.

Section SessionEffects.

#[local] Open Scope Z_scope.

Variable toFixed : float -> nat -> string.
Variable predictWithFormingCandle :
  list Candle.t -> option Candle.t -> Prediction.t.

Definition emit_effect (env : Env.t) (sessionId : string)
    (candleCloseTime formingStart : Z) (s : Session.t) : Effect.t :=
  if SessionManager.is_active s then
    let signal :=
      SignalEngine.generateSignal toFixed predictWithFormingCandle
        (Env.now env) sessionId (Session.symbol s) (Session.timeframe s)
        (Env.getClosedCandles env (Session.symbol s) (Session.timeframe s))
        (Env.getFormingCandle env (Session.symbol s) (Session.timeframe s))
        candleCloseTime (Session.options s) in
    let s' := Session.set_lastSignalAt (SignalResult.timestamp signal) s in
    Effect.mk s' [SessionManager.preCloseSignal s' signal] [formingStart]
  else Effect.idle s.

Definition once_effect (env : Env.t) (sessionId : string)
    (formingStart candleCloseTime : Z) (s : Session.t) : Effect.t :=
  if SessionManager.differs (Session.lastSignalCandleTimestamp s) formingStart then
    let e := emit_effect env sessionId candleCloseTime formingStart s in
    Effect.mk (Session.set_lastSignalCandleTimestamp formingStart (Effect.next e))
      (Effect.events e) (Effect.starts e)
  else Effect.idle s.

Definition schedule_effect (env : Env.t) (sessionId : string) (s : Session.t)
    : Effect.t :=
  if negb (SessionManager.is_active s) then Effect.idle s
  else
    let s1 := Session.set_preCloseTimer None s in
    match Env.getFormingCandle env (Session.symbol s) (Session.timeframe s) with
    | None => Effect.idle (Session.set_preCloseTimer (Some (Session.Rearm 1000)) s1)
    | Some formingCandle =>
        let candleCloseTime :=
          TimeUtils.getCandleCloseTime (Candle.timestamp formingCandle)
            (Session.timeframe s) in
        let preCloseTime := candleCloseTime - Config.preCloseSeconds in
        if preCloseTime <=? TimeUtils.nowEpoch (Env.now env) then
          let e := once_effect env sessionId (Candle.timestamp formingCandle)
                     candleCloseTime s1 in
          let delayMs :=
            Z.max 1000
              ((candleCloseTime + Session.timeframe s - Config.preCloseSeconds
                - TimeUtils.nowEpoch (Env.now env)) * 1000) in
          Effect.mk
            (Session.set_preCloseTimer (Some (Session.Rearm delayMs)) (Effect.next e))
            (Effect.events e) (Effect.starts e)
        else
          Effect.idle
            (Session.set_preCloseTimer
               (Some (Session.AtPreClose preCloseTime
                        (Candle.timestamp formingCandle) candleCloseTime)) s1)
    end.

Definition timer_effect (env : Env.t) (sessionId : string) (s : Session.t)
    : Effect.t :=
  match Session.preCloseTimer s with
  | None => Effect.idle s
  | Some timer =>
      let s1 := Session.set_preCloseTimer None s in
      match timer with
      | Session.Rearm _ => schedule_effect env sessionId s1
      | Session.AtPreClose _ formingStart candleCloseTime =>
          let e1 := once_effect env sessionId formingStart candleCloseTime s1 in
          let e2 := schedule_effect env sessionId (Effect.next e1) in
          Effect.mk (Effect.next e2) (Effect.events e1 ++ Effect.events e2)
            (Effect.starts e1 ++ Effect.starts e2)
      end
  end.

End SessionEffects.

(** *** Deduplication of the pre-close signal *)


(** The signals of the [preCloseSignal] events of a log, in order. *)
Definition signals (events : list SessionManager.Event) : list SignalResult.t :=
  flat_map
    (fun e =>
       match e with
       | SessionManager.preCloseSignal _ signal => [signal]
       | _ => []
       end)
    events.

(** A signal is the one an entry of the history stands for: it went to the
    entry's session and announces the close of the candle that starts at the
    entry's start. *)
Definition signal_of (signal : SignalResult.t) (entry : string * Z) : Prop :=
  SignalResult.sessionId signal = fst entry /\
  SignalResult.candleCloseTime signal =
    TimeUtils.getCandleCloseTime (snd entry) (SignalResult.timeframe signal).

Section Chains.

#[local] Open Scope Z_scope.





End Chains.

Section Invariants.

#[local] Open Scope Z_scope.




End Invariants.

(** Every producer that returns at most one vote names it as [collectVotes]
    does when it adds it. *)
Ltac producer_name :=
  intros v; cbv beta zeta delta
    [SignalEngine.voteFromEMACross SignalEngine.voteFromSMATrend
     SignalEngine.voteFromSuperTrend SignalEngine.voteFromPSAR
     SignalEngine.voteFromADX SignalEngine.voteFromCCI
     SignalEngine.voteFromWilliamsR SignalEngine.voteFromHullMA
     SignalEngine.voteFromMeanReversion];
  repeat match goal with
         | |- context [match ?x with _ => _ end] => destruct x
         end;
  intros H; inversion H; reflexivity.

(** *** Buttons and the calls they lead to *)

(** The call [handleCallback] makes when a button is pressed. *)
Definition call_of (button : Keyboards.InlineButton) : Handlers.Call.t :=
  Handlers.handleCallback (Keyboards.callback_data button).

(** The buttons of a category, in reading order: its header, then one
    button for each of its assets; nothing when the category is empty. *)
Definition category_buttons (header data category : string)
    (assets : list Asset.t) : list Keyboards.InlineButton :=
  match List.filter (Keyboards.inCategory category) assets with
  | [] => []
  | categoryAssets =>
      Keyboards.mkButton header data ::
      map Keyboards.assetButton categoryAssets
  end.

(** The calls those buttons are meant for: none for the header, the
    selection of its asset for each of the others. *)
Definition category_calls (category : string) (assets : list Asset.t)
    : list Handlers.Call.t :=
  match List.filter (Keyboards.inCategory category) assets with
  | [] => []
  | categoryAssets =>
      Handlers.Call.noCall ::
      map (fun asset => Handlers.Call.handleAssetSelection (Asset.id asset))
        categoryAssets
  end.

(** Unfolds [parseInt] on a string whose first characters are known. *)
Ltac reduce_parseInt :=
  unfold JS.parseInt; cbn [JS.trimStart];
  repeat match goal with
         | |- context [JS.is_space ?c] =>
             let b := eval vm_compute in (JS.is_space c) in
             change (JS.is_space c) with b
         end;
  cbn -[Z.of_uint JS.decimal_prefix fst].

(** Settles the tests of the dispatcher that the first characters of the
    data decide. *)
Ltac decide_tests :=
  repeat match goal with
         | |- context [if ?b then _ else _] =>
             let b' := eval cbv in b in
             match b' with
             | true => change b with true
             | false => change b with false
             end; cbv iota
         end.

(** *** Where the arithmetic of the clock is exact

    The sources compute on binary64 numbers.  On integers the division
    rounded down, the products and the sums of [utils/time.ts] are the exact
    ones as long as the operands and the results are safe integers and the
    divisor is not 0; the properties of these functions are stated there. *)

(** A candle that starts at or after the epoch, of a positive time frame,
    whose close time is a safe integer. *)
Definition exact_window (timestamp timeframeSec : Z) : Prop :=
  (0 < timeframeSec /\ 0 <= timestamp /\
   JS.safe_integer (timestamp + timeframeSec))%Z.

(** A session of a positive time frame, scheduled at a clock reading that is
    a safe integer, when the forming candle the aggregator holds for it, if
    any, starts at or after the epoch and the pre-close time of the candle
    after it is a safe integer in milliseconds. *)
Definition exact_schedule (env : Env.t) (s : Session.t) : Prop :=
  (0 < Session.timeframe s /\ 0 <= Env.now env /\
   JS.safe_integer (Env.now env) /\
   forall forming,
     Env.getFormingCandle env (Session.symbol s) (Session.timeframe s) =
       Some forming ->
     0 <= Candle.timestamp forming /\
     JS.safe_integer
       ((Candle.timestamp forming + 2 * Session.timeframe s) * 1000))%Z.

(** *** The events of the session manager *)

(** A [preCloseSignal] for session [sessionId]; any event that is not a
    [preCloseSignal]. *)
Definition signal_for (sessionId : string) (e : SessionManager.Event) : Prop :=
  match e with
  | SessionManager.preCloseSignal _ signal =>
      SignalResult.sessionId signal = sessionId
  | _ => False
  end.

Definition other_event (e : SessionManager.Event) : Prop :=
  match e with
  | SessionManager.preCloseSignal _ _ => False
  | _ => True
  end.

(** An effect on session [s] that signals for [sessionId] only, keeps the
    status of the session and signals nothing when the session is stopped. *)
Definition quiet (sessionId : string) (s : Session.t) (e : Effect.t) : Prop :=
  Forall (signal_for sessionId) (Effect.events e) /\
  Session.status (Effect.next e) = Session.status s /\
  (Session.status s = stopped -> Effect.events e = []).

(** The session a callback is about. *)
Definition action_session (a : SessionManager.Action) : string :=
  match a with
  | SessionManager.Start sessionId _ _ _ _ => sessionId
  | SessionManager.Stop sessionId => sessionId
  | SessionManager.Connected sessionId => sessionId
  | SessionManager.TimerFired sessionId => sessionId
  | SessionManager.Fetched sessionId _ _ _ _ => sessionId
  | SessionManager.Subscribed session => Session.id session
  end.

(** The id under which a callback stores a session without testing that
    the id is free: the one of a call of [startSession] that resumes after
    its history fetch. *)
Definition stores (a : SessionManager.Action) : option string :=
  match a with
  | SessionManager.Fetched sessionId _ _ _ _ => Some sessionId
  | _ => None
  end.





(** What a callback about [sessionId] may change: no other session, and the
    log only by appending signals for [sessionId] and events that are not
    signals. *)
Definition changes (sessionId : string) (m m' : SessionManager.t) : Prop :=
  (forall k, k <> sessionId ->
     SessionManager.sessions m' !! k = SessionManager.sessions m !! k) /\
  exists new,
    SessionManager.emitted m' = SessionManager.emitted m ++ new /\
    Forall (fun e => signal_for sessionId e \/ other_event e) new.

(** What a session adds to the count of the active sessions, and the count
    over a map of sessions. *)
Definition counted (s : Session.t) : Z :=
  if SessionManager.is_active s then 1%Z else 0%Z.

Definition count (sessions : gmap string Session.t) : Z :=
  map_fold
    (fun (_ : string) session count =>
       if SessionManager.is_active session then (count + 1)%Z else count)
    0%Z sessions.

(** *** The sessions of a chat *)

(** An active session of chat [chatId]. *)
Definition active_for (chatId : Z) (s : Session.t) : Prop :=
  Session.chatId s = chatId /\ Session.status s = active.

(** [order] lists the ids under which the manager holds a session, each
    once. *)
Definition lists_sessions (order : list string) (m : SessionManager.t)
    : Prop :=
  NoDup order /\
  forall k, In k order <-> is_Some (SessionManager.sessions m !! k).

(** Every session is stored under its own id. *)
Definition keyed (m : SessionManager.t) : Prop :=
  forall k s, SessionManager.sessions m !! k = Some s -> Session.id s = k.

(** The chat has at most one active session. *)
Definition one_session (chatId : Z) (m : SessionManager.t) : Prop :=
  forall k1 k2 s1 s2,
    SessionManager.sessions m !! k1 = Some s1 ->
    SessionManager.sessions m !! k2 = Some s2 ->
    active_for chatId s1 -> active_for chatId s2 -> k1 = k2.

(** *** Requests *)

(** A body that names a session, a chat, a time frame and a listed asset,
    none of them empty or zero. *)
Definition accepted (body : Routes.StartSessionBody) : Prop :=
  exists session_id chat_id asset timeframe assetInfo,
    Routes.session_id body = Some session_id /\ session_id <> ""%string /\
    Routes.chat_id body = Some chat_id /\ chat_id <> 0%Z /\
    Routes.asset body = Some asset /\ asset <> ""%string /\
    Routes.timeframe body = Some timeframe /\ timeframe <> 0%Z /\
    In assetInfo Config.SUPPORTED_ASSETS /\ Asset.id assetInfo = asset.

(** Bounds the length of what a vote producer returns. *)
Ltac producer_length :=
  repeat match goal with
         | |- context [match ?x with _ => _ end] => destruct x
         end;
  cbn [length app at_most_one]; lia.


(** * Proofs *)

(** ** Comparisons of binary64 values *)

Section FloatOrder.

#[local] Open Scope float_scope.

Lemma SFcompare_antisym (x y : spec_float) :
  SFcompare y x = option_map CompOpp (SFcompare x y).
Proof.
  destruct x as [sx|sx| |sx mx ex], y as [sy|sy| |sy my ey]; simpl;
    try reflexivity;
    try (destruct sx; reflexivity); try (destruct sy; reflexivity);
    try (destruct sx, sy; reflexivity).
  destruct sx, sy; simpl; try reflexivity;
    rewrite (Z.compare_antisym ex ey); destruct (ex ?= ey)%Z; simpl;
    try reflexivity; f_equal.
  - f_equal. exact (eq_sym (Pos.compare_cont_antisym mx my Eq)).
  - exact (eq_sym (Pos.compare_cont_antisym mx my Eq)).
Qed.

Lemma SFcompare_None (x y : spec_float) :
  SFcompare x y = None -> x = S754_nan \/ y = S754_nan.
Proof.
  destruct x as [sx|sx| |sx mx ex], y as [sy|sy| |sy my ey]; simpl;
    intros H; try discriminate H; auto.
Qed.

(** A value that is not below a number is at least that number, or is
    [NaN]. *)
Lemma not_below (c k : float) :
  is_nan k = false -> (c <? k) = false -> (k <=? c) = true \/ is_nan c = true.
Proof.
  unfold is_nan. rewrite !FloatAxioms.eqb_spec, FloatAxioms.ltb_spec, FloatAxioms.leb_spec.
  unfold SFeqb, SFltb, SFleb. intros Hk Hlt.
  rewrite (SFcompare_antisym (Prim2SF c) (Prim2SF k)).
  destruct (SFcompare (Prim2SF c) (Prim2SF k)) as [[ | | ]|] eqn:E; simpl; auto.
  right. destruct (SFcompare_None _ _ E) as [Hc|Hk'].
  - rewrite Hc. reflexivity.
  - rewrite Hk' in Hk. simpl in Hk. discriminate Hk.
Qed.

End FloatOrder.

(** ** The signal engine *)

Section SignalEngineProperties.

#[local] Open Scope float_scope.

Variable toFixed : float -> nat -> string.
Variable predictWithFormingCandle :
  list Candle.t -> option Candle.t -> Prediction.t.

#[local] Abbreviation generateSignal :=
  (SignalEngine.generateSignal toFixed predictWithFormingCandle).

(** The three return paths of [generateSignal]. *)
Lemma generateSignal_insufficient nowMs sessionId symbol timeframe closed
    forming closeTime options :
  (length closed < 50)%nat ->
  generateSignal nowMs sessionId symbol timeframe closed forming closeTime options =
  SignalResult.mk sessionId symbol timeframe (nowMs / 1000)%Z closeTime
    NO_TRADE 0 0.5 0.5 [] IndicatorValues.empty
    (PsychologyAnalysis.mk 0 0 0 false [] neutral 0 false)
    false None (Z.of_nat (length closed)) forming.
Proof.
  intros H. unfold SignalEngine.generateSignal, Config.minCandlesForSignal.
  destruct (Z.ltb_spec (Z.of_nat (length closed)) 50) as [_|Hge]; [reflexivity|lia].
Qed.

Lemma generateSignal_volatile nowMs sessionId symbol timeframe closed
    forming closeTime options :
  (50 <= length closed)%nat ->
  Volatility.isVolatile
    (Prediction.volatility (predictWithFormingCandle closed forming)) = true ->
  generateSignal nowMs sessionId symbol timeframe closed forming closeTime options =
  let prediction := predictWithFormingCandle closed forming in
  SignalResult.mk sessionId symbol timeframe (nowMs / 1000)%Z closeTime
    NO_TRADE 0 0.5 0.5 []
    (Prediction.indicators prediction) (Prediction.psychology prediction)
    true (Volatility.reason (Prediction.volatility prediction))
    (Z.of_nat (length closed)) forming.
Proof.
  intros H Hv. unfold SignalEngine.generateSignal, Config.minCandlesForSignal.
  destruct (Z.ltb_spec (Z.of_nat (length closed)) 50) as [Hlt|_]; [lia|].
  rewrite Hv. reflexivity.
Qed.

Lemma generateSignal_scored nowMs sessionId symbol timeframe closed
    forming closeTime options :
  (50 <= length closed)%nat ->
  Volatility.isVolatile
    (Prediction.volatility (predictWithFormingCandle closed forming)) = false ->
  generateSignal nowMs sessionId symbol timeframe closed forming closeTime options =
  let prediction := predictWithFormingCandle closed forming in
  let votes :=
    SignalEngine.collectVotes toFixed (Prediction.indicators prediction)
      (Prediction.psychology prediction) (Prediction.estimatedClose prediction)
      options in
  let pUp := SignalEngine.pUp (SignalEngine.calculateScores votes) in
  let confidence := JS.Math_round (JS.Math_max pUp (1 - pUp) * 100) in
  SignalResult.mk sessionId symbol timeframe (nowMs / 1000)%Z closeTime
    (SignalEngine.determineDirection pUp confidence) confidence pUp (1 - pUp)
    votes (Prediction.indicators prediction) (Prediction.psychology prediction)
    false None (Z.of_nat (length closed)) forming.
Proof.
  intros H Hv. unfold SignalEngine.generateSignal, Config.minCandlesForSignal.
  destruct (Z.ltb_spec (Z.of_nat (length closed)) 50) as [Hlt|_]; [lia|].
  rewrite Hv. reflexivity.
Qed.

(** Every call takes one of the three paths. *)
Lemma generateSignal_paths (closed : list Candle.t) (forming : option Candle.t) :
  (length closed < 50)%nat \/
  ((50 <= length closed)%nat /\
   Volatility.isVolatile
     (Prediction.volatility (predictWithFormingCandle closed forming)) = true) \/
  ((50 <= length closed)%nat /\
   Volatility.isVolatile
     (Prediction.volatility (predictWithFormingCandle closed forming)) = false).
Proof.
  destruct (Nat.lt_ge_cases (length closed) 50) as [H|H]; [left; exact H|right].
  destruct (Volatility.isVolatile
              (Prediction.volatility (predictWithFormingCandle closed forming)));
    [left|right]; split; auto.
Qed.

(** C1. Whatever the inputs, a result of [generateSignal] whose
    [volatilityOverride] is true has direction [NO_TRADE] and confidence 0. *)
Theorem volatility_override_is_no_trade nowMs sessionId symbol timeframe closed
    forming closeTime options :
  SignalResult.volatilityOverride
    (generateSignal nowMs sessionId symbol timeframe closed forming closeTime
       options) = true ->
  SignalResult.direction
    (generateSignal nowMs sessionId symbol timeframe closed forming closeTime
       options) = NO_TRADE /\
  SignalResult.confidence
    (generateSignal nowMs sessionId symbol timeframe closed forming closeTime
       options) = 0.
Proof.
  destruct (generateSignal_paths closed forming) as [H|[[H Hv]|[H Hv]]].
  - rewrite generateSignal_insufficient by exact H. simpl. discriminate.
  - rewrite generateSignal_volatile by assumption. simpl. auto.
  - rewrite generateSignal_scored by assumption. simpl. discriminate.
Qed.

(** C2. With fewer than 50 closed candles the result is [NO_TRADE] with
    confidence 0, no votes, the empty indicator record and no volatility
    override, whatever the forming candle and the options. *)
Theorem insufficient_data_is_no_trade nowMs sessionId symbol timeframe closed
    forming closeTime options :
  (Z.of_nat (length closed) < Config.minCandlesForSignal)%Z ->
  let r :=
    generateSignal nowMs sessionId symbol timeframe closed forming closeTime
      options in
  SignalResult.direction r = NO_TRADE /\
  SignalResult.confidence r = 0 /\
  SignalResult.votes r = [] /\
  SignalResult.indicators r = IndicatorValues.empty /\
  SignalResult.volatilityOverride r = false.
Proof.
  intros H r. subst r. unfold Config.minCandlesForSignal in H.
  rewrite generateSignal_insufficient by lia. simpl. repeat split.
Qed.

(** [determineDirection] lets a confidence through only if it is not below
    the threshold; the value is then at least 60 unless it is [NaN]. *)
Lemma determineDirection_gate (pUp confidence : float) :
  SignalEngine.determineDirection pUp confidence <> NO_TRADE ->
  (confidence <? 60) = false /\
  ((60 <=? confidence) = true \/ is_nan confidence = true).
Proof.
  unfold SignalEngine.determineDirection, Config.minConfidence.
  destruct (confidence <? 60) eqn:E; intros H.
  - contradiction H. reflexivity.
  - split; [reflexivity|]. apply not_below; [reflexivity|exact E].
Qed.

(** The decision rule. On the scored path the direction is [NO_TRADE] when
    the confidence is below 60, else [CALL] when [pUp > 0.5], else [PUT]; a
    tie [pUp = 0.5] whose confidence passes the gate is a [PUT]; and on every
    path a direction other than [NO_TRADE] comes with a confidence that is
    not below 60: at least 60, unless it is [NaN]. *)
Theorem decision_rule nowMs sessionId symbol timeframe closed forming closeTime
    options :
  let r :=
    generateSignal nowMs sessionId symbol timeframe closed forming closeTime
      options in
  ((50 <= length closed)%nat ->
   Volatility.isVolatile
     (Prediction.volatility (predictWithFormingCandle closed forming)) = false ->
   SignalResult.direction r =
   if SignalResult.confidence r <? 60 then NO_TRADE
   else if 0.5 <? SignalResult.pUp r then CALL else PUT) /\
  (forall confidence,
     (confidence <? 60) = false ->
     SignalEngine.determineDirection 0.5 confidence = PUT) /\
  (SignalResult.direction r <> NO_TRADE ->
   (SignalResult.confidence r <? 60) = false /\
   ((60 <=? SignalResult.confidence r) = true \/
    is_nan (SignalResult.confidence r) = true)).
Proof.
  intros r. subst r. split; [|split].
  - intros H Hv. rewrite generateSignal_scored by assumption. reflexivity.
  - intros confidence Hc.
    unfold SignalEngine.determineDirection, Config.minConfidence.
    rewrite Hc. reflexivity.
  - destruct (generateSignal_paths closed forming) as [H|[[H Hv]|[H Hv]]].
    + rewrite generateSignal_insufficient by exact H. simpl.
      intros Hd. contradiction Hd. reflexivity.
    + rewrite generateSignal_volatile by assumption. simpl.
      intros Hd. contradiction Hd. reflexivity.
    + rewrite generateSignal_scored by assumption. simpl.
      apply determineDirection_gate.
Qed.

(** The loop of [calculateScores] adds up the UP weights and the DOWN
    weights, each in the order of the votes. *)
Lemma score_loop (votes : list Vote.t) (a b : float) :
  fold_left
    (fun '(finalUp, finalDown) vote =>
       match Vote.direction vote with
       | UP => (finalUp + Vote.weight vote, finalDown)
       | DOWN => (finalUp, finalDown + Vote.weight vote)
       | NEUTRAL => (finalUp, finalDown)
       end)
    votes (a, b) =
  (fold_left add (map Vote.weight (List.filter (Spec.has_direction UP) votes)) a,
   fold_left add (map Vote.weight (List.filter (Spec.has_direction DOWN) votes)) b).
Proof.
  revert a b. induction votes as [|v votes IH]; intros a b; [reflexivity|].
  cbn [fold_left List.filter].
  assert (Hup : Spec.has_direction UP v =
                match Vote.direction v with UP => true | _ => false end)
    by (unfold Spec.has_direction; destruct (Vote.direction v); reflexivity).
  assert (Hdown : Spec.has_direction DOWN v =
                  match Vote.direction v with DOWN => true | _ => false end)
    by (unfold Spec.has_direction; destruct (Vote.direction v); reflexivity).
  rewrite Hup, Hdown.
  destruct (Vote.direction v); rewrite IH; reflexivity.
Qed.

Lemma calculateScores_sums (votes : list Vote.t) :
  SignalEngine.calculateScores votes =
  SignalEngine.mkScores (Spec.weight_sum UP votes) (Spec.weight_sum DOWN votes)
    (Spec.weight_sum UP votes /
     (Spec.weight_sum UP votes + Spec.weight_sum DOWN votes + 1e-9)).
Proof.
  unfold SignalEngine.calculateScores. rewrite score_loop. reflexivity.
Qed.

(** C4, as the code has it. On the scored path [pUp] is the UP weight over
    the UP weight plus the DOWN weight plus 1e-9, [pDown] is [1 - pUp] and
    the confidence is [round(max(pUp, pDown) * 100)]. On the two early
    returns (too few candles, volatility override) there are no votes,
    [pUp = pDown = 0.5], which add up to 1, and the confidence is 0. *)
Theorem probability_by_path nowMs sessionId symbol timeframe closed forming
    closeTime options :
  let r :=
    generateSignal nowMs sessionId symbol timeframe closed forming closeTime
      options in
  ((length closed < 50)%nat \/
   Volatility.isVolatile
     (Prediction.volatility (predictWithFormingCandle closed forming)) = true ->
   SignalResult.votes r = [] /\ SignalResult.pUp r = 0.5 /\
   SignalResult.pDown r = 0.5 /\ SignalResult.confidence r = 0 /\
   Spec.closes r) /\
  ((50 <= length closed)%nat /\
   Volatility.isVolatile
     (Prediction.volatility (predictWithFormingCandle closed forming)) = false ->
   Spec.pUp_formula r /\
   SignalResult.pDown r = 1 - SignalResult.pUp r /\
   Spec.confidence_formula r).
Proof.
  intros r. subst r. split.
  - intros Hearly.
    destruct (generateSignal_paths closed forming) as [H|[[H Hv]|[H Hv]]].
    + rewrite generateSignal_insufficient by exact H. repeat split.
    + rewrite generateSignal_volatile by assumption. repeat split.
    + destruct Hearly as [Hlt|Hv']; [lia|congruence].
  - intros [H Hv]. rewrite generateSignal_scored by assumption.
    unfold Spec.pUp_formula, Spec.confidence_formula. cbn zeta.
    cbn [SignalResult.pUp SignalResult.pDown SignalResult.votes
         SignalResult.confidence].
    rewrite calculateScores_sums. cbn [SignalEngine.pUp]. repeat split.
Qed.

(** C10, as the code has it. The clock reading enters the result only as its
    [timestamp], the reading in whole seconds: two calls on the same inputs
    return results that are equal once the timestamp is set aside, and equal
    outright when the clock shows the same second. *)
Theorem generateSignal_up_to_timestamp nowMs1 nowMs2 sessionId symbol timeframe
    closed forming closeTime options :
  generateSignal nowMs2 sessionId symbol timeframe closed forming closeTime
    options =
  SignalResult.with_timestamp (TimeUtils.nowEpoch nowMs2)
    (generateSignal nowMs1 sessionId symbol timeframe closed forming closeTime
       options) /\
  SignalResult.timestamp
    (generateSignal nowMs1 sessionId symbol timeframe closed forming closeTime
       options) = (nowMs1 / 1000)%Z.
Proof.
  destruct (generateSignal_paths closed forming) as [H|[[H Hv]|[H Hv]]].
  - rewrite !generateSignal_insufficient by exact H. split; reflexivity.
  - rewrite !generateSignal_volatile by assumption. split; reflexivity.
  - rewrite !generateSignal_scored by assumption. split; reflexivity.
Qed.

End SignalEngineProperties.

(** ** Collecting the votes *)

Section CollectVotesProperties.

#[local] Open Scope float_scope.

Variable toFixed : float -> nat -> string.

Variable enabledIndicators : option (list string).
Variable customWeights : option (gmap string float).

Lemma addVotes_unprefixed (voteList votes : list Vote.t) :
  SignalEngine.addVotes enabledIndicators customWeights votes voteList "" =
  votes ++ map (weighted customWeights) (List.filter (kept enabledIndicators) voteList).
Proof.
  unfold SignalEngine.addVotes. revert votes.
  induction voteList as [|v l IH]; intros votes; cbn [fold_left List.filter].
  - cbn [map]. rewrite app_nil_r. reflexivity.
  - rewrite IH. cbn [String.eqb]. fold (kept enabledIndicators v). destruct (kept enabledIndicators v).
    + cbn [map]. rewrite <- app_assoc. reflexivity.
    + reflexivity.
Qed.

Lemma addVote_named (votes : list Vote.t) (vote : option Vote.t) (name : string) :
  (forall v, vote = Some v -> Vote.indicator v = name) ->
  SignalEngine.addVote enabledIndicators customWeights votes vote name =
  votes ++ map (weighted customWeights) (List.filter (kept enabledIndicators) (at_most_one vote)).
Proof.
  intros Hname. destruct vote as [v|]; cbn [SignalEngine.addVote at_most_one].
  - rewrite <- (Hname v eq_refl). cbn [List.filter]. fold (kept enabledIndicators v).
    destruct (kept enabledIndicators v); cbn [map]; [reflexivity|rewrite app_nil_r; reflexivity].
  - cbn [List.filter map]. rewrite app_nil_r. reflexivity.
Qed.

End CollectVotesProperties.

Section CollectVotesTheorem.

#[local] Open Scope float_scope.

Variable toFixed : float -> nat -> string.

Lemma voteFromEMACross_name indicators fastKey slowKey lastClose name :
  forall v,
    SignalEngine.voteFromEMACross indicators fastKey slowKey lastClose name = Some v ->
    Vote.indicator v = name.
Proof. producer_name. Qed.

Lemma voteFromSMATrend_name indicators smaKey lastClose name :
  forall v,
    SignalEngine.voteFromSMATrend indicators smaKey lastClose name = Some v ->
    Vote.indicator v = name.
Proof. producer_name. Qed.

Lemma voteFromSuperTrend_name indicators :
  forall v,
    SignalEngine.voteFromSuperTrend indicators = Some v ->
    Vote.indicator v = "supertrend_signal"%string.
Proof. producer_name. Qed.

Lemma voteFromPSAR_name indicators lastClose :
  forall v,
    SignalEngine.voteFromPSAR indicators lastClose = Some v ->
    Vote.indicator v = "psar_signal"%string.
Proof. producer_name. Qed.

Lemma voteFromADX_name indicators :
  forall v,
    SignalEngine.voteFromADX toFixed indicators = Some v ->
    Vote.indicator v = "adx_trend_strength"%string.
Proof. producer_name. Qed.

Lemma voteFromCCI_name indicators :
  forall v,
    SignalEngine.voteFromCCI toFixed indicators = Some v ->
    Vote.indicator v = "cci_signal"%string.
Proof. producer_name. Qed.

Lemma voteFromWilliamsR_name indicators :
  forall v,
    SignalEngine.voteFromWilliamsR indicators = Some v ->
    Vote.indicator v = "williams_r"%string.
Proof. producer_name. Qed.

Lemma voteFromHullMA_name indicators lastClose :
  forall v,
    SignalEngine.voteFromHullMA indicators lastClose = Some v ->
    Vote.indicator v = "hull_ma_trend"%string.
Proof. producer_name. Qed.

Lemma voteFromMeanReversion_name indicators :
  forall v,
    SignalEngine.voteFromMeanReversion toFixed indicators = Some v ->
    Vote.indicator v = "mean_reversion"%string.
Proof. producer_name. Qed.

Lemma collectVotes_produced indicators psychology lastClose options :
  let enabledIndicators :=
    match options with
    | Some o => SessionOptions.enabledIndicators o
    | None => None
    end in
  let customWeights :=
    match options with
    | Some o => SessionOptions.customWeights o
    | None => None
    end in
  SignalEngine.collectVotes toFixed indicators psychology lastClose options =
  map (weighted customWeights)
    (List.filter (kept enabledIndicators)
       (produced toFixed indicators psychology lastClose)).
Proof.
  intros en cw. unfold SignalEngine.collectVotes, produced.
  fold en. fold cw. cbv zeta.
  rewrite !addVotes_unprefixed.
  rewrite !addVote_named
    by first [ apply voteFromEMACross_name | apply voteFromSMATrend_name
             | apply voteFromSuperTrend_name | apply voteFromPSAR_name
             | apply voteFromADX_name | apply voteFromCCI_name
             | apply voteFromWilliamsR_name | apply voteFromHullMA_name
             | apply voteFromMeanReversion_name ].
  rewrite !List.filter_app, !map_app, <- !app_assoc. reflexivity.
Qed.

End CollectVotesTheorem.

(** ** Filtering and weighting, in the words of the specification *)

Lemma table_weights_truthy :
  List.Forall
    (fun entry =>
       is_nan (Config.weight entry) || is_zero (Config.weight entry) = false)
    Config.DEFAULT_INDICATOR_WEIGHTS.
Proof. unfold Config.DEFAULT_INDICATOR_WEIGHTS. repeat constructor. Qed.

Lemma find_weight_in (name : string) (entry : Config.IndicatorWeight) :
  Config.find_weight name = Some entry ->
  In entry Config.DEFAULT_INDICATOR_WEIGHTS.
Proof.
  unfold Config.find_weight. intros H.
  destruct (List.find_some _ _ H) as [Hin _]. exact Hin.
Qed.

Lemma isIndicatorEnabled_allowed (name : string)
    (enabledIndicators : option (list string)) :
  Config.isIndicatorEnabled name enabledIndicators =
  allowed enabledIndicators name.
Proof.
  destruct enabledIndicators as [whitelist|]; [|reflexivity].
  cbn [Config.isIndicatorEnabled allowed].
  induction whitelist as [|x l IH]; cbn [existsb].
  - symmetry. apply bool_decide_eq_false. apply not_elem_of_nil.
  - rewrite IH. destruct (String.eqb_spec name x) as [->|Hne]; cbn [orb].
    + symmetry. apply bool_decide_eq_true. apply elem_of_cons. left. reflexivity.
    + apply bool_decide_ext. rewrite elem_of_cons. tauto.
Qed.

Lemma getIndicatorWeight_multiplier (name : string)
    (customWeights : option (gmap string float)) :
  plain customWeights name ->
  Config.getIndicatorWeight name customWeights = multiplier customWeights name.
Proof.
  intros Hplain. unfold Config.getIndicatorWeight, multiplier.
  assert (Hcustom :
            match customWeights with
            | Some cw =>
                match cw !! name with
                | Some w => Some w
                | None => if JS.inherited name then Some nan else None
                end
            | None => None
            end = customWeights ≫= (fun weights => weights !! name)).
  { destruct customWeights as [cw|]; [|reflexivity].
    cbn [mbind option_bind].
    destruct (cw !! name) eqn:E; [reflexivity|].
    rewrite (Hplain cw eq_refl E). reflexivity. }
  rewrite Hcustom.
  destruct (customWeights ≫= (fun weights => weights !! name)); [reflexivity|].
  destruct (Config.find_weight name) as [entry|] eqn:E; [|reflexivity].
  pose proof (proj1 (List.Forall_forall _ _) table_weights_truthy entry
                (find_weight_in _ _ E)) as Htruthy.
  cbv beta in Htruthy. unfold Config.or_else. rewrite Htruthy. reflexivity.
Qed.

Section PlainNames.

Variable toFixed : float -> nat -> string.
Variable customWeights : option (gmap string float).

#[local] Abbreviation plain_votes :=
  (Forall (fun v => plain customWeights (Vote.indicator v))).

Lemma plain_vote (vote : option Vote.t) (name : string) :
  (forall v, vote = Some v -> Vote.indicator v = name) ->
  JS.inherited name = false ->
  plain_votes (at_most_one vote).
Proof.
  intros Hvote Hname. destruct vote as [v|]; [|constructor].
  constructor; [|constructor]. rewrite (Hvote v eq_refl).
  intros weights _ _. exact Hname.
Qed.

Lemma plain_loop (patterns : list CandlestickPattern.t) (votes : list Vote.t) :
  plain_votes votes ->
  plain_votes (map SignalEngine.patternVote patterns) ->
  plain_votes
    (fold_left
       (fun votes pattern => votes ++ [SignalEngine.patternVote pattern])
       patterns votes).
Proof.
  revert votes. induction patterns as [|p l IH]; intros votes Hvotes Hl;
    [exact Hvotes|].
  cbn [fold_left]. inversion Hl as [|? ? Hp Hl']; subst. apply IH; [|exact Hl'].
  apply Forall_app. split; [exact Hvotes|]. constructor; [exact Hp|constructor].
Qed.

(** The names of the catalogue are not names of inherited properties: the
    votes of an analysis whose patterns have plain names are all plain. *)
Lemma produced_plain indicators psychology lastClose :
  plain_patterns customWeights psychology ->
  plain_votes (produced toFixed indicators psychology lastClose).
Proof.
  intros Hpatterns. unfold produced.
  repeat (apply Forall_app; split);
    try (eapply plain_vote;
         [first [ apply voteFromEMACross_name | apply voteFromSMATrend_name
                | apply voteFromSuperTrend_name | apply voteFromPSAR_name
                | apply (voteFromADX_name toFixed)
                | apply (voteFromCCI_name toFixed)
                | apply voteFromWilliamsR_name | apply voteFromHullMA_name
                | apply (voteFromMeanReversion_name toFixed) ]
         |reflexivity]).
  - unfold SignalEngine.voteFromMACD.
    repeat match goal with
           | |- context [match ?x with _ => _ end] => destruct x
           end;
      repeat (apply List.Forall_cons; [intros ? _ _; reflexivity|]);
      apply List.Forall_nil.
  - unfold SignalEngine.voteFromRSI.
    repeat match goal with
           | |- context [match ?x with _ => _ end] => destruct x
           end;
      repeat (apply List.Forall_cons; [intros ? _ _; reflexivity|]);
      apply List.Forall_nil.
  - unfold SignalEngine.voteFromStochastic.
    repeat match goal with
           | |- context [match ?x with _ => _ end] => destruct x
           end;
      repeat (apply List.Forall_cons; [intros ? _ _; reflexivity|]);
      apply List.Forall_nil.
  - unfold SignalEngine.voteFromBollinger.
    repeat match goal with
           | |- context [match ?x with _ => _ end] => destruct x
           end;
      repeat (apply List.Forall_cons; [intros ? _ _; reflexivity|]);
      apply List.Forall_nil.
  - unfold SignalEngine.voteFromPsychology. cbv zeta.
    assert (Hloop : plain_votes
                      (fold_left
                         (fun votes pattern =>
                            votes ++ [SignalEngine.patternVote pattern])
                         (PsychologyAnalysis.patterns psychology) []))
      by (apply plain_loop; [constructor|apply Forall_map; exact Hpatterns]).
    repeat match goal with
           | |- context [if ?b then _ else _] => destruct b
           end;
      repeat (apply Forall_app; split);
      try exact Hloop;
      repeat (apply List.Forall_cons; [intros ? _ _; reflexivity|]);
      apply List.Forall_nil.
Qed.

End PlainNames.

(** The votes [collectVotes] returns are the votes the producers return, in
    their order, those not allowed by the whitelist (or, without one, by the
    built-in table) left out, and the weight of each multiplied by the
    custom weight of its name when there is one, else by the table's weight
    for it: 1.2 for [ema_cross_5_21], 1.4 for [macd_signal], 1.5 for
    [supertrend_signal].  This holds when the vote of no pattern is named
    after a property inherited from [Object.prototype], unless the custom
    weights define that name themselves or there are no custom weights. *)
Theorem votes_are_filtered_and_weighted (toFixed : float -> nat -> string)
    (indicators : IndicatorValues.t) (psychology : PsychologyAnalysis.t)
    (lastClose : float) (options : option SessionOptions.t) :
  plain_patterns (options ≫= SessionOptions.customWeights) psychology ->
  SignalEngine.collectVotes toFixed indicators psychology lastClose options =
  map (fun v =>
         Vote.mk (Vote.indicator v) (Vote.direction v)
           (Vote.weight v *
            multiplier (options ≫= SessionOptions.customWeights) (Vote.indicator v))
           (Vote.reason v))
    (List.filter
       (fun v =>
          allowed (options ≫= SessionOptions.enabledIndicators) (Vote.indicator v))
       (produced toFixed indicators psychology lastClose)) /\
  multiplier None "ema_cross_5_21" = 1.2%float /\
  multiplier None "macd_signal" = 1.4%float /\
  multiplier None "supertrend_signal" = 1.5%float.
Proof.
  intros Hpatterns. split; [|repeat split].
  rewrite collectVotes_produced.
  assert (Hen : match options with
                | Some o => SessionOptions.enabledIndicators o
                | None => None
                end = options ≫= SessionOptions.enabledIndicators)
    by (destruct options; reflexivity).
  assert (Hcw : match options with
                | Some o => SessionOptions.customWeights o
                | None => None
                end = options ≫= SessionOptions.customWeights)
    by (destruct options; reflexivity).
  cbv zeta. rewrite Hen, Hcw.
  pose proof (produced_plain toFixed _ indicators psychology lastClose
                Hpatterns) as Hplain.
  set (l := produced toFixed indicators psychology lastClose) in *.
  induction l as [|v l IH]; [reflexivity|].
  inversion Hplain as [|? ? Hv Hl]; subst.
  cbn [List.filter]. unfold kept at 1.
  rewrite isIndicatorEnabled_allowed.
  destruct (allowed _ (Vote.indicator v)); [|exact (IH Hl)].
  cbn [map]. rewrite (IH Hl). f_equal.
  unfold weighted, Vote.scale.
  rewrite getIndicatorWeight_multiplier by exact Hv.
  reflexivity.
Qed.

(** ** The votes derived from the psychology analysis *)

Section PsychologyVotes.

#[local] Open Scope float_scope.

Lemma pattern_loop (patterns : list CandlestickPattern.t) (votes : list Vote.t) :
  fold_left (fun votes pattern => votes ++ [SignalEngine.patternVote pattern])
    patterns votes =
  votes ++ map SignalEngine.patternVote patterns.
Proof.
  revert votes. induction patterns as [|p l IH]; intros votes; cbn [fold_left map].
  - rewrite app_nil_r. reflexivity.
  - rewrite IH, <- app_assoc. reflexivity.
Qed.

Lemma patternVote_spec (p : CandlestickPattern.t) :
  vote_of_pattern p (SignalEngine.patternVote p).
Proof.
  unfold vote_of_pattern, SignalEngine.patternVote.
  destruct (CandlestickPattern.type p); cbv zeta;
    repeat match goal with
           | |- context [if ?b then _ else _] => destruct b
           end;
    cbn; repeat split.
Qed.

(** C7, as the code has it. The producer returns one vote per detected
    pattern, in order: UP with the pattern's strength as weight for a
    bullish pattern, DOWN with the strength for a bearish one, and a NEUTRAL
    [doji_pattern] vote with half the strength for any other; then an
    [order_block] vote exactly when [orderBlockProbability > 0.6], an
    [fvg_signal] vote exactly when [fvgDetected], a DOWN [wick_rejection]
    vote exactly when [upperWickRatio > 0.6] and an UP [wick_rejection] vote
    exactly when [lowerWickRatio > 0.6]. *)
Theorem psychology_votes (psychology : PsychologyAnalysis.t) :
  exists pattern_votes : list Vote.t,
    Forall2 vote_of_pattern (PsychologyAnalysis.patterns psychology) pattern_votes /\
    SignalEngine.voteFromPsychology psychology =
    pattern_votes ++
    (if 0.6 <? PsychologyAnalysis.orderBlockProbability psychology
     then [Vote.mk "order_block"
             match PsychologyAnalysis.bias psychology with
             | bullish => UP
             | bearish => DOWN
             | neutral => NEUTRAL
             end
             (PsychologyAnalysis.orderBlockProbability psychology)
             (Some "Order block detected"%string)]
     else []) ++
    (if PsychologyAnalysis.fvgDetected psychology
     then [Vote.mk "fvg_signal"
             match PsychologyAnalysis.bias psychology with
             | bullish => UP
             | _ => DOWN
             end
             0.8 (Some "Fair Value Gap detected"%string)]
     else []) ++
    (if 0.6 <? PsychologyAnalysis.upperWickRatio psychology
     then [Vote.mk "wick_rejection" DOWN
             (PsychologyAnalysis.upperWickRatio psychology)
             (Some "Upper wick rejection"%string)]
     else []) ++
    (if 0.6 <? PsychologyAnalysis.lowerWickRatio psychology
     then [Vote.mk "wick_rejection" UP
             (PsychologyAnalysis.lowerWickRatio psychology)
             (Some "Lower wick rejection"%string)]
     else []).
Proof.
  exists (map SignalEngine.patternVote (PsychologyAnalysis.patterns psychology)).
  split.
  - induction (PsychologyAnalysis.patterns psychology) as [|p l IH];
      cbn [map]; constructor; [apply patternVote_spec|exact IH].
  - unfold SignalEngine.voteFromPsychology. rewrite pattern_loop. cbv zeta.
    cbn [app].
    destruct (0.6 <? PsychologyAnalysis.orderBlockProbability psychology);
      destruct (PsychologyAnalysis.fvgDetected psychology);
      destruct (0.6 <? PsychologyAnalysis.upperWickRatio psychology);
      destruct (0.6 <? PsychologyAnalysis.lowerWickRatio psychology);
      rewrite <- ?app_assoc, ?app_nil_r; reflexivity.
Qed.

End PsychologyVotes.

(** ** The manager performs the effects *)

Section EffectRefinement.

#[local] Open Scope Z_scope.

Variable toFixed : float -> nat -> string.
Variable predictWithFormingCandle :
  list Candle.t -> option Candle.t -> Prediction.t.

#[local] Abbreviation emit_effect' := (emit_effect toFixed predictWithFormingCandle).
#[local] Abbreviation once_effect' := (once_effect toFixed predictWithFormingCandle).
#[local] Abbreviation schedule_effect' :=
  (schedule_effect toFixed predictWithFormingCandle).
#[local] Abbreviation timer_effect' := (timer_effect toFixed predictWithFormingCandle).

Lemma install_idle sessionId s m :
  SessionManager.sessions m !! sessionId = Some s ->
  Effect.install sessionId (Effect.idle s) m = m.
Proof.
  intros H. destruct m as [ss hs em sg]. unfold Effect.install. cbn in *.
  rewrite insert_id by exact H. rewrite !app_nil_r. reflexivity.
Qed.

Lemma install_lookup sessionId e m :
  SessionManager.sessions (Effect.install sessionId e m) !! sessionId =
  Some (Effect.next e).
Proof. cbn. apply lookup_insert_eq. Qed.

Lemma install_install sessionId e1 e2 m :
  Effect.install sessionId e2 (Effect.install sessionId e1 m) =
  Effect.install sessionId
    (Effect.mk (Effect.next e2) (Effect.events e1 ++ Effect.events e2)
       (Effect.starts e1 ++ Effect.starts e2)) m.
Proof.
  unfold Effect.install. cbn.
  rewrite insert_insert_eq, map_app, <- !app_assoc. reflexivity.
Qed.

Lemma assign_install sessionId f s m :
  SessionManager.sessions m !! sessionId = Some s ->
  SessionManager.assign sessionId f m =
  Effect.install sessionId (Effect.idle (f s)) m.
Proof.
  intros H. unfold SessionManager.assign, Effect.install. cbn.
  rewrite !app_nil_r. f_equal.
  apply map_eq. intros i. destruct (decide (i = sessionId)) as [->|Hne].
  - rewrite lookup_alter_eq, lookup_insert_eq, H. reflexivity.
  - rewrite lookup_alter_ne, lookup_insert_ne by congruence. reflexivity.
Qed.

Lemma assign_after_install sessionId f e m :
  SessionManager.assign sessionId f (Effect.install sessionId e m) =
  Effect.install sessionId
    (Effect.mk (f (Effect.next e)) (Effect.events e) (Effect.starts e)) m.
Proof.
  rewrite (assign_install sessionId f (Effect.next e))
    by apply install_lookup.
  rewrite install_install. cbn. rewrite !app_nil_r. reflexivity.
Qed.

Lemma emitPreCloseSignal_effect env sessionId candleCloseTime formingStart s m :
  SessionManager.sessions m !! sessionId = Some s ->
  SessionManager.emitPreCloseSignal toFixed predictWithFormingCandle env
    sessionId candleCloseTime formingStart m =
  Effect.install sessionId
    (emit_effect' env sessionId candleCloseTime formingStart s) m.
Proof.
  intros H. unfold SessionManager.emitPreCloseSignal, emit_effect. rewrite H.
  destruct (SessionManager.is_active s); cbn [negb].
  - reflexivity.
  - symmetry. apply install_idle. exact H.
Qed.

Lemma signalOnce_effect env sessionId formingStart candleCloseTime s m :
  SessionManager.sessions m !! sessionId = Some s ->
  SessionManager.signalOnce toFixed predictWithFormingCandle env sessionId
    formingStart candleCloseTime m =
  Effect.install sessionId
    (once_effect' env sessionId formingStart candleCloseTime s) m.
Proof.
  intros H. unfold SessionManager.signalOnce, once_effect. rewrite H.
  destruct (SessionManager.differs _ _).
  - rewrite (emitPreCloseSignal_effect _ _ _ _ s) by exact H.
    apply assign_after_install.
  - symmetry. apply install_idle. exact H.
Qed.

Lemma scheduleNextPreClose_effect env sessionId s m :
  SessionManager.sessions m !! sessionId = Some s ->
  SessionManager.scheduleNextPreClose toFixed predictWithFormingCandle env
    sessionId m =
  Effect.install sessionId (schedule_effect' env sessionId s) m.
Proof.
  intros H. unfold SessionManager.scheduleNextPreClose, schedule_effect.
  rewrite H. destruct (SessionManager.is_active s); cbn [negb].
  2: { symmetry. apply install_idle. exact H. }
  rewrite (assign_install sessionId _ s) by exact H.
  destruct (Env.getFormingCandle env (Session.symbol s) (Session.timeframe s))
    as [formingCandle|].
  - cbv zeta. destruct (_ <=? _).
    + rewrite (signalOnce_effect _ _ _ _ (Session.set_preCloseTimer None s))
        by apply install_lookup.
      rewrite install_install, assign_after_install. cbn. reflexivity.
    + rewrite assign_after_install. reflexivity.
  - rewrite assign_after_install. reflexivity.
Qed.

Lemma timerFired_effect env sessionId s m :
  SessionManager.sessions m !! sessionId = Some s ->
  SessionManager.timerFired toFixed predictWithFormingCandle env sessionId m =
  Effect.install sessionId (timer_effect' env sessionId s) m.
Proof.
  intros H. unfold SessionManager.timerFired, timer_effect. rewrite H.
  destruct (Session.preCloseTimer s) as [[delayMs|p formingStart candleCloseTime]|].
  - rewrite (assign_install sessionId _ s) by exact H.
    rewrite (scheduleNextPreClose_effect _ _ (Session.set_preCloseTimer None s))
      by apply install_lookup.
    rewrite install_install. cbn.
    destruct (schedule_effect' _ _ _); reflexivity.
  - rewrite (assign_install sessionId _ s) by exact H.
    rewrite (signalOnce_effect _ _ _ _ (Session.set_preCloseTimer None s))
      by apply install_lookup.
    rewrite install_install.
    erewrite scheduleNextPreClose_effect by apply install_lookup.
    rewrite install_install. cbn. reflexivity.
  - symmetry. apply install_idle. exact H.
Qed.

End EffectRefinement.

(** ** Deduplication of the pre-close signal *)

Section Chains.

#[local] Open Scope Z_scope.






End Chains.

Section SessionInvariant.

#[local] Open Scope Z_scope.

Variable toFixed : float -> nat -> string.
Variable predictWithFormingCandle :
  list Candle.t -> option Candle.t -> Prediction.t.



(** The result of [generateSignal] carries the session id, the time frame
    and the close time it was called with. *)
Lemma generateSignal_header nowMs sessionId symbol timeframe closed forming
    closeTime options :
  let r :=
    SignalEngine.generateSignal toFixed predictWithFormingCandle nowMs
      sessionId symbol timeframe closed forming closeTime options in
  SignalResult.sessionId r = sessionId /\
  SignalResult.timeframe r = timeframe /\
  SignalResult.candleCloseTime r = closeTime.
Proof.
  destruct (generateSignal_paths predictWithFormingCandle closed forming)
    as [H|[[H Hv]|[H Hv]]].
  - rewrite generateSignal_insufficient by exact H. repeat split.
  - rewrite generateSignal_volatile by assumption. repeat split.
  - rewrite generateSignal_scored by assumption. repeat split.
Qed.

(** The deduplicated firing: it signals at most once, only for a start that
    differs from the one last signalled, and leaves that start recorded. *)
Lemma once_effect_spec env sessionId formingStart candleCloseTime s :
  let e :=
    once_effect toFixed predictWithFormingCandle env sessionId formingStart
      candleCloseTime s in
  Session.lastSignalCandleTimestamp (Effect.next e) = Some formingStart /\
  Session.preCloseTimer (Effect.next e) = Session.preCloseTimer s /\
  Session.status (Effect.next e) = Session.status s /\
  Session.symbol (Effect.next e) = Session.symbol s /\
  Session.timeframe (Effect.next e) = Session.timeframe s /\
  Effect.starts e =
    (if SessionManager.differs (Session.lastSignalCandleTimestamp s) formingStart
        && SessionManager.is_active s
     then [formingStart] else []) /\
  (candleCloseTime =
     TimeUtils.getCandleCloseTime formingStart (Session.timeframe s) ->
   Forall2 signal_of (signals (Effect.events e))
     (map (pair sessionId) (Effect.starts e))).
Proof.
  unfold once_effect, emit_effect.
  destruct (SessionManager.differs _ _) eqn:Hd; cbn [andb].
  - destruct (SessionManager.is_active s); cbn;
      (split; [reflexivity|]); (split; [reflexivity|]); (split; [reflexivity|]);
      (split; [reflexivity|]); (split; [reflexivity|]); (split; [reflexivity|]);
      intros Hct; constructor; [|constructor].
    unfold signal_of. cbn [fst snd].
    match goal with
    | |- context [SignalEngine.generateSignal ?tf ?pr ?n ?i ?sy ?t ?cl ?fo ?ct ?o] =>
        destruct (generateSignal_header n i sy t cl fo ct o) as (-> & -> & ->)
    end.
    split; [reflexivity|exact Hct].
  - cbn. split.
    + unfold SessionManager.differs in Hd.
      destruct (Session.lastSignalCandleTimestamp s) as [l|]; [|discriminate Hd].
      apply negb_false_iff, Z.eqb_eq in Hd. congruence.
    + repeat (split; [reflexivity|]). intros _. constructor.
Qed.





End SessionInvariant.

Section ManagerInvariant.

#[local] Open Scope Z_scope.

Variable toFixed : float -> nat -> string.
Variable predictWithFormingCandle :
  list Candle.t -> option Candle.t -> Prediction.t.







Lemma signals_other events e :
  match e with
  | SessionManager.preCloseSignal _ _ => False
  | _ => True
  end ->
  signals (events ++ [e]) = signals events.
Proof.
  intros He. unfold signals. rewrite flat_map_app. cbn.
  destruct e; try contradiction; rewrite !app_nil_r; reflexivity.
Qed.


Lemma stopSession_sessions env sessionId s m :
  SessionManager.sessions m !! sessionId = Some s ->
  let m' := snd (SessionManager.stopSession env sessionId m) in
  SessionManager.sessions m' =
    <[sessionId :=
        Session.set_signalTimer None
          (Session.set_preCloseTimer None (Session.set_status stopped s))]>
      (SessionManager.sessions m) /\
  SessionManager.signalled m' = SessionManager.signalled m /\
  signals (SessionManager.emitted m') = signals (SessionManager.emitted m).
Proof.
  intros Hs. unfold SessionManager.stopSession. rewrite Hs.
  rewrite (assign_install sessionId (Session.set_status stopped) s m)
    by exact Hs.
  rewrite !assign_after_install.
  destruct (Env.unsubscribeTicks env (Session.symbol s) sessionId); cbn.
  - rewrite !app_nil_r. split; [reflexivity|]. split; [reflexivity|].
    apply signals_other. exact I.
  - rewrite !app_nil_r. repeat split.
Qed.

Lemma startSession_resumes env sessionId chatId symbol timeframe options m :
  SessionManager.startSession toFixed predictWithFormingCandle env sessionId
    chatId symbol timeframe options m =
  match SessionManager.sessions m !! sessionId with
  | Some _ =>
      (Rejected ("Session " ++ sessionId ++ " already exists")%string, m)
  | None =>
      match
        SessionManager.startSessionFetched env sessionId chatId symbol
          timeframe options m
      with
      | (Resolved session, m) =>
          SessionManager.startSessionSubscribed toFixed
            predictWithFormingCandle env session m
      | (Rejected error, m) => (Rejected error, m)
      end
  end.
Proof.
  unfold SessionManager.startSession, SessionManager.startSessionFetched,
    SessionManager.startSessionSubscribed.
  destruct (SessionManager.sessions m !! sessionId); [reflexivity|].
  destruct (Env.fetchCandleHistory _ _ _ _); reflexivity.
Qed.




End ManagerInvariant.

(** ** The session manager *)

Section SessionManagerProperties.

#[local] Open Scope Z_scope.

Variable toFixed : float -> nat -> string.
Variable predictWithFormingCandle :
  list Candle.t -> option Candle.t -> Prediction.t.



Lemma schedule_effect_fields env sessionId s :
  let e := schedule_effect toFixed predictWithFormingCandle env sessionId s in
  Session.timeframe (Effect.next e) = Session.timeframe s /\
  Session.status (Effect.next e) = Session.status s /\
  Session.symbol (Effect.next e) = Session.symbol s.
Proof.
  unfold schedule_effect. destruct (negb _); [repeat split|].
  destruct (Env.getFormingCandle _ _ _) as [c|]; [|repeat split].
  cbv zeta. destruct (_ <=? _); [|repeat split]. cbn.
  destruct (once_effect_spec toFixed predictWithFormingCandle env sessionId
              (Candle.timestamp c)
              (TimeUtils.getCandleCloseTime (Candle.timestamp c)
                 (Session.timeframe s))
              (Session.set_preCloseTimer None s))
    as (_ & _ & Hst & Hsym & Htf & _ & _).
  repeat split; assumption.
Qed.

(** C8, as the code has it. [startSession] does not look at the time frame.
    For an id not yet in use, a history fetch that resolves and a tick
    subscription that resolves, it resolves with an active session of the
    requested time frame, stored under the id, whatever that time frame is.
    It rejects only when the id is in use or the history fetch is rejected,
    the manager being then unchanged, or when the tick subscription is
    rejected. *)
Theorem startSession_ignores_timeframe env sessionId chatId symbol timeframe
    options m :
  (SessionManager.sessions m !! sessionId = None ->
   forall history,
     Env.fetchCandleHistory env symbol timeframe Config.historyCandles =
       Resolved history ->
     Env.subscribeTicks env symbol sessionId = Resolved tt ->
     exists session m',
       SessionManager.startSession toFixed predictWithFormingCandle env
         sessionId chatId symbol timeframe options m = (Resolved session, m') /\
       SessionManager.sessions m' !! sessionId = Some session /\
       Session.timeframe session = timeframe /\
       Session.status session = active) /\
  (forall error m',
     SessionManager.startSession toFixed predictWithFormingCandle env
       sessionId chatId symbol timeframe options m = (Rejected error, m') ->
     (is_Some (SessionManager.sessions m !! sessionId) /\ m' = m) \/
     (Env.fetchCandleHistory env symbol timeframe Config.historyCandles =
        Rejected error /\ m' = m) \/
     Env.subscribeTicks env symbol sessionId = Rejected error).
Proof.
  split.
  - intros Hs history Hfetch Hsub. unfold SessionManager.startSession.
    rewrite Hs, Hfetch, Hsub.
    set (s0 := Session.mk sessionId chatId symbol timeframe active _ None
                 options None None None).
    rewrite (scheduleNextPreClose_effect _ _ _ _ s0) by apply lookup_insert_eq.
    rewrite install_lookup. cbn [default].
    destruct (schedule_effect_fields env sessionId s0) as (Htf & Hst & _).
    eexists. eexists. split; [reflexivity|]. split; [apply install_lookup|].
    split; [exact Htf|exact Hst].
  - intros error m'. unfold SessionManager.startSession.
    destruct (SessionManager.sessions m !! sessionId) as [s|] eqn:Hs.
    + intros H. injection H as _ <-. left. split; [eexists; reflexivity|reflexivity].
    + destruct (Env.fetchCandleHistory _ _ _ _) as [history|error'].
      * destruct (Env.subscribeTicks _ _ _) as [[]|error'']; [discriminate|].
        intros H. injection H as <- _. right. right. reflexivity.
      * intros H. injection H as <- <-. right. left. split; reflexivity.
Qed.

(** C9, as the code has it. [stopSession] keeps the session record: after it
    the manager still holds the session under its id, with status [stopped]
    and its timers cleared, and a later [startSession] with the same id is
    rejected as already existing, leaving the manager unchanged. *)
Theorem stopSession_keeps_the_record env sessionId s m :
  SessionManager.sessions m !! sessionId = Some s ->
  let m' := snd (SessionManager.stopSession env sessionId m) in
  SessionManager.getSession sessionId m' =
    Some (Session.set_signalTimer None
            (Session.set_preCloseTimer None (Session.set_status stopped s))) /\
  forall env' chatId symbol timeframe options,
    SessionManager.startSession toFixed predictWithFormingCandle env' sessionId
      chatId symbol timeframe options m' =
    (Rejected ("Session " ++ sessionId ++ " already exists")%string, m').
Proof.
  intros Hs m'.
  destruct (stopSession_sessions env sessionId s m Hs) as (Hsessions & _ & _).
  fold m' in Hsessions.
  assert (Hlookup : SessionManager.sessions m' !! sessionId =
                    Some (Session.set_signalTimer None
                            (Session.set_preCloseTimer None
                               (Session.set_status stopped s))))
    by (rewrite Hsessions; apply lookup_insert_eq).
  split; [exact Hlookup|].
  intros env' chatId symbol timeframe options.
  unfold SessionManager.startSession. rewrite Hlookup. reflexivity.
Qed.

End SessionManagerProperties.

(** ** The JavaScript helpers at sample values *)

Example Math_round_examples :
  JS.Math_round 50%float = 50%float /\ JS.Math_round 2.5%float = 3%float /\
  JS.Math_round (-2.5)%float = (-2)%float /\
  JS.Math_round 0.49999999999999994%float = 0%float /\
  JS.Math_round 66.66666%float = 67%float /\
  JS.Math_round (-0.5)%float = neg_zero /\
  JS.Math_round nan = nan /\ JS.Math_round infinity = infinity /\
  JS.Math_round 59.5%float = 60%float /\ JS.Math_round 59.49999%float = 59%float.
Proof. vm_compute. repeat split; reflexivity. Qed.

Example Math_max_examples :
  JS.Math_max 0.5%float 0.5%float = 0.5%float /\
  JS.Math_max 0.25%float 0.75%float = 0.75%float /\
  JS.Math_max nan 1%float = nan /\ JS.Math_max neg_zero zero = zero.
Proof. vm_compute. repeat split; reflexivity. Qed.

Example string_examples :
  JS.replace_spaces (JS.toLowerCase "Morning  Star")%string = "morning_star"%string /\
  JS.includes "Bullish Engulfing" "Engulfing" = true /\
  JS.includes "Hammer" "Shooting" = false.
Proof. vm_compute. repeat split; reflexivity. Qed.

(** ** The properties at the sample data *)

Section Samples.

#[local] Open Scope float_scope.

#[local] Abbreviation generateSignal :=
  (SignalEngine.generateSignal Sample.toFixed).

(** Two binary64 values that compare differently are different. *)
Lemma float_neq (x y pivot : float) :
  (x <? pivot) <> (y <? pivot) -> x <> y.
Proof. intros H Heq. apply H. rewrite Heq. reflexivity. Qed.

(** Scenario S2 of the specification: ten closed candles, no forming one. *)
Example scenario_insufficient_data :
  let r := generateSignal Sample.macd_up 0 "s" "R_100" 60 (Sample.candles 10)
             None 60 None in
  SignalResult.direction r = NO_TRADE /\ SignalResult.confidence r = 0 /\
  SignalResult.votes r = [] /\
  SignalResult.indicators r = IndicatorValues.empty /\
  SignalResult.volatilityOverride r = false.
Proof. cbv zeta. repeat split. Qed.

(** A scored call: two UP votes, MACD above its signal line (weight 1.4) and
    a positive histogram (weight 1.2). *)
Example scenario_call :
  let r := generateSignal Sample.macd_up 0 "s" "R_100" 60 (Sample.candles 50)
             None 60 None in
  SignalResult.direction r = CALL /\ SignalResult.confidence r = 100 /\
  map Vote.indicator (SignalResult.votes r) =
    ["macd_signal"; "macd_histogram"]%string /\
  map Vote.weight (SignalResult.votes r) = [1.4; 1.2].
Proof. vm_compute. repeat split. Qed.

(** Scenario S5: the four callbacks of [Sample.two_candles] signal the
    candle of 120 once, at 176, and the candle of 180 once, at 236; the
    reconnection at 237 finds the candle of 180 signalled already. *)
Example scenario_dedup :
  let m := SessionManager.run Sample.toFixed Sample.macd_up Sample.two_candles
             SessionManager.empty in
  SessionManager.signalled m = [("s1"%string, 120%Z); ("s1"%string, 180%Z)] /\
  map (fun signal =>
         (SignalResult.candleCloseTime signal, SignalResult.timestamp signal))
    (signals (SessionManager.emitted m)) = [(180, 176); (240, 236)]%Z.
Proof. vm_compute. split; reflexivity. Qed.


(** C1 at a volatile market with 50 closed candles. *)
Lemma volatility_override_witness :
  SignalResult.volatilityOverride
    (generateSignal Sample.volatile 0 "s" "R_100" 60 (Sample.candles 50) None
       60 None) = true /\
  SignalResult.direction
    (generateSignal Sample.volatile 0 "s" "R_100" 60 (Sample.candles 50) None
       60 None) = NO_TRADE /\
  SignalResult.confidence
    (generateSignal Sample.volatile 0 "s" "R_100" 60 (Sample.candles 50) None
       60 None) = 0.
Proof.
  split; [reflexivity|].
  apply (volatility_override_is_no_trade Sample.toFixed Sample.volatile).
  reflexivity.
Defined.

(** C2 at ten closed candles and a forming one. *)
Lemma insufficient_data_witness :
  (Z.of_nat (length (Sample.candles 10)) < Config.minCandlesForSignal)%Z /\
  SignalResult.direction
    (generateSignal Sample.macd_up 0 "s" "R_100" 60 (Sample.candles 10)
       (Some (Sample.forming 120)) 180 (Some Sample.cancelling_options)) = NO_TRADE.
Proof.
  split; [reflexivity|].
  apply (insufficient_data_is_no_trade Sample.toFixed Sample.macd_up 0 "s"
           "R_100" 60 (Sample.candles 10) (Some (Sample.forming 120)) 180
           (Some Sample.cancelling_options)).
  reflexivity.
Defined.

(** C3 at a failing input. Fifty closed candles, a calm market in which the
    price is below the parabolic SAR, and options that enable [psar_signal]
    alone with the custom weight [-1e-9]: the only vote is DOWN and weighs
    [-1e-9], so [finalDown + 1e-9] is zero and [pUp] is [0 / 0].  The
    confidence is [NaN], which is not below 60, and the direction is PUT:
    a direction other than [NO_TRADE] whose confidence is not at least 60. *)
Lemma nan_confidence_passes_the_gate :
  let r :=
    generateSignal Sample.below_psar 0 "s" "R_100" 60 (Sample.candles 50)
      None 60 (Some Sample.cancelling_options) in
  map Vote.weight (SignalResult.votes r) = [-1e-9] /\
  SignalResult.direction r = PUT /\
  is_nan (SignalResult.pUp r) = true /\
  is_nan (SignalResult.confidence r) = true /\
  ~ Spec.confidence_gate r.
Proof.
  cbv zeta. split; [vm_compute; reflexivity|]. split; [vm_compute; reflexivity|].
  split; [vm_compute; reflexivity|]. split; [vm_compute; reflexivity|].
  unfold Spec.confidence_gate. intros H.
  assert (Hd : SignalResult.direction
                 (generateSignal Sample.below_psar 0 "s" "R_100" 60
                    (Sample.candles 50) None 60 (Some Sample.cancelling_options))
               <> NO_TRADE)
    by (vm_compute; discriminate).
  specialize (H Hd). vm_compute in H. discriminate H.
Qed.

(** The decision rule on the scored path of the sample call. *)
Lemma decision_rule_witness :
  SignalResult.direction
    (generateSignal Sample.macd_up 0 "s" "R_100" 60 (Sample.candles 50) None
       60 None) = CALL.
Proof.
  destruct (decision_rule Sample.toFixed Sample.macd_up 0 "s" "R_100" 60
              (Sample.candles 50) None 60 None) as [H _].
  rewrite (H (le_n 50) eq_refl). reflexivity.
Defined.

(** C4, as the specification states it, fails: with ten closed candles the
    confidence is 0 and not [round(max(0.5, 0.5) * 100) = 50]; and on the
    scored path of the failing input of C3, where [pUp] is [NaN],
    [pUp + pDown] is not within 1e-9 of 1. *)
Lemma probability_closure_fails :
  ~ Spec.probability_closure
      (generateSignal Sample.macd_up 0 "s" "R_100" 60 (Sample.candles 10)
         None 60 None) /\
  ~ Spec.probability_closure
      (generateSignal Sample.below_psar 0 "s" "R_100" 60 (Sample.candles 50)
         None 60 (Some Sample.cancelling_options)).
Proof.
  split.
  - intros (_ & _ & H). unfold Spec.confidence_formula in H.
    vm_compute in H. revert H. apply (float_neq _ _ 1). vm_compute. discriminate.
  - intros (H & _). unfold Spec.closes in H. vm_compute in H. discriminate H.
Qed.

(** C4, as the code has it, on an early return and on the scored path. *)
Lemma probability_by_path_witness :
  SignalResult.confidence
    (generateSignal Sample.macd_up 0 "s" "R_100" 60 (Sample.candles 10) None
       60 None) = 0 /\
  Spec.confidence_formula
    (generateSignal Sample.macd_up 0 "s" "R_100" 60 (Sample.candles 50) None
       60 None).
Proof.
  split.
  - destruct (probability_by_path Sample.toFixed Sample.macd_up 0 "s" "R_100"
                60 (Sample.candles 10) None 60 None) as [H _].
    assert (Hshort : (length (Sample.candles 10) < 50)%nat)
      by (unfold Sample.candles; rewrite repeat_length; lia).
    destruct (H (or_introl Hshort)) as (_ & _ & _ & Hc & _). exact Hc.
  - destruct (probability_by_path Sample.toFixed Sample.macd_up 0 "s" "R_100"
                60 (Sample.candles 50) None 60 None) as [_ H].
    apply H. split; [exact (le_n 50)|reflexivity].
Defined.


(** The weighting of the votes at the neutral pattern of [Sample.doji] and
    the options of [Sample.cancelling_options]. *)
Lemma weighting_witness :
  plain_patterns (SessionOptions.customWeights Sample.cancelling_options)
    Sample.doji /\
  SignalEngine.collectVotes Sample.toFixed (Sample.with_psar 101) Sample.doji
    100.5 (Some Sample.cancelling_options) =
  [Vote.mk "psar_signal" DOWN (1 * -1e-9) (Some "Price below PSAR"%string)].
Proof.
  assert (Hplain : plain_patterns
                     (SessionOptions.customWeights Sample.cancelling_options)
                     Sample.doji)
    by (repeat constructor).
  split; [exact Hplain|].
  rewrite (proj1 (votes_are_filtered_and_weighted Sample.toFixed
                    (Sample.with_psar 101) Sample.doji 100.5
                    (Some Sample.cancelling_options) Hplain)).
  vm_compute. reflexivity.
Defined.

(** C5 at a failing input.  Two calls of [startSession] for the id [s1]
    are made on the empty manager before the history of the first has
    arrived, at second 177 of the candle of [120, 180).  Both pass the test
    of the id.  The first stores its session, finds the pre-close time 176
    passed and signals for the candle.  The second stores a new session
    over it, whose [lastSignalCandleTimestamp] is not set, and signals for
    the same candle again: the session [s1] is sent two [preCloseSignal]s
    for the forming-candle start 120. *)
Lemma overlapping_starts_signal_twice :
  let m :=
    SessionManager.run Sample.toFixed Sample.macd_up Sample.overlapping_starts
      SessionManager.empty in
  SessionManager.sessions SessionManager.empty !! "s1"%string = None /\
  fst (SessionManager.startSessionFetched
         (Sample.env (Some (Sample.forming 120)) 177) "s1" 7 "R_100" 60 None
         SessionManager.empty) = Resolved Sample.created /\
  SessionManager.signalled m = [("s1"%string, 120%Z); ("s1"%string, 120%Z)] /\
  map (fun signal =>
         (SignalResult.sessionId signal, SignalResult.candleCloseTime signal))
    (signals (SessionManager.emitted m)) =
    [("s1"%string, 180%Z); ("s1"%string, 180%Z)] /\
  ~ List.NoDup (SessionManager.signalled m).
Proof.
  cbv zeta.
  assert (H : SessionManager.signalled
                (SessionManager.run Sample.toFixed Sample.macd_up
                   Sample.overlapping_starts SessionManager.empty) =
              [("s1"%string, 120%Z); ("s1"%string, 120%Z)])
    by (vm_compute; reflexivity).
  split; [reflexivity|]. split; [reflexivity|]. split; [exact H|].
  split; [vm_compute; reflexivity|].
  rewrite H. intros Hnd. inversion Hnd as [|? ? Hin _]; subst.
  apply Hin. left. reflexivity.
Qed.


(** C7, as the specification states it, fails: the vote for a neutral
    pattern of strength 0.8 weighs 0.4. *)
Lemma neutral_pattern_vote_is_halved :
  ~ exists pattern_votes rest,
      SignalEngine.voteFromPsychology Sample.doji = pattern_votes ++ rest /\
      Forall2 Spec.pattern_vote (PsychologyAnalysis.patterns Sample.doji)
        pattern_votes.
Proof.
  intros (pattern_votes & rest & Heq & HF). cbn in HF.
  inversion HF as [|p v l l' Hv Hrest]; subst. inversion Hrest; subst.
  assert (Hvotes : SignalEngine.voteFromPsychology Sample.doji =
                   [SignalEngine.patternVote
                      (CandlestickPattern.mk "Doji" neutral 0.8 "Indecision")])
    by reflexivity.
  rewrite Hvotes in Heq. cbn [app] in Heq. injection Heq as <- _.
  destruct Hv as [Hw _]. revert Hw. apply (float_neq _ _ 0.5).
  vm_compute. discriminate.
Qed.

(** C8, as the specification states it, fails: three minutes is not a
    supported time frame, and a session of three minutes is started. *)
Lemma unsupported_timeframe_is_accepted :
  ~ Spec.supported 180 /\
  exists session,
    fst (SessionManager.startSession Sample.toFixed Sample.macd_up
           (Sample.env None 130) "s1" 7 "R_100" 180 None SessionManager.empty) =
      Resolved session /\
    Session.timeframe session = 180%Z /\
    SessionManager.getSession "s1"
      (snd (SessionManager.startSession Sample.toFixed Sample.macd_up
              (Sample.env None 130) "s1" 7 "R_100" 180 None
              SessionManager.empty)) = Some session.
Proof.
  split.
  - unfold Spec.supported. cbn. intros H.
    repeat (destruct H as [H|H]; [discriminate H|]). exact H.
  - eexists. split; [vm_compute; reflexivity|]. split; [reflexivity|].
    vm_compute. reflexivity.
Qed.

(** C8, as the code has it, at the same call. *)
Lemma startSession_witness :
  exists session m',
    SessionManager.startSession Sample.toFixed Sample.macd_up
      (Sample.env None 130) "s1" 7 "R_100" 180 None SessionManager.empty =
      (Resolved session, m') /\
    SessionManager.sessions m' !! "s1"%string = Some session /\
    Session.timeframe session = 180%Z /\
    Session.status session = active.
Proof.
  destruct (startSession_ignores_timeframe Sample.toFixed Sample.macd_up
              (Sample.env None 130) "s1" 7 "R_100" 180 None
              SessionManager.empty) as [H _].
  apply (H (lookup_empty _) (Sample.candles 60)); reflexivity.
Defined.

(** C9, as the specification states it, fails: the session started in
    [Sample.started] is stopped, is still held by the manager, and starting
    a session with its id again is rejected. *)
Lemma stopped_session_blocks_its_id :
  let stop := SessionManager.stopSession (Sample.env None 140) "s1" Sample.started in
  fst stop = Resolved tt /\
  option_map Session.status (SessionManager.getSession "s1" (snd stop)) =
    Some stopped /\
  fst (SessionManager.startSession Sample.toFixed Sample.macd_up
         (Sample.env None 150) "s1" 7 "R_100" 60 None (snd stop)) =
    Rejected "Session s1 already exists".
Proof. vm_compute. repeat split. Qed.

(** C9, as the code has it, at the same session. *)
Lemma stopSession_witness :
  SessionManager.sessions Sample.started !! "s1"%string =
    Some Sample.started_session /\
  SessionManager.getSession "s1"
    (snd (SessionManager.stopSession (Sample.env None 140) "s1" Sample.started)) =
    Some (Session.set_signalTimer None
            (Session.set_preCloseTimer None
               (Session.set_status stopped Sample.started_session))).
Proof.
  assert (H : SessionManager.sessions Sample.started !! "s1"%string =
              Some Sample.started_session)
    by (vm_compute; reflexivity).
  split; [exact H|].
  apply (stopSession_keeps_the_record Sample.toFixed Sample.macd_up
           (Sample.env None 140) "s1" Sample.started_session Sample.started H).
Defined.

(** C10, as the specification states it, fails: the same inputs, read at
    two different seconds of the clock, give results with different
    timestamps. *)
Lemma same_inputs_different_timestamps :
  generateSignal Sample.macd_up 0 "s" "R_100" 60 (Sample.candles 50) None 60
    None <>
  generateSignal Sample.macd_up 1000 "s" "R_100" 60 (Sample.candles 50) None 60
    None.
Proof.
  intros H. apply (f_equal SignalResult.timestamp) in H. vm_compute in H.
  discriminate H.
Qed.

End Samples.

(** * Further properties of the code *)

(** ** Candle windows ([utils/time.ts]) *)

Section TimeProperties.

#[local] Open Scope Z_scope.

(** For a positive time frame and a timestamp at or after the epoch whose
    close time is a safe integer, [getCandleBoundary] is the start of the
    window that holds the timestamp: it is a multiple of the time frame, the
    timestamp lies between it and [getCandleCloseTime], and the timestamps
    with the same boundary are exactly those of that window. *)
Theorem candle_boundary_is_the_window_start (timestamp timeframeSec : Z) :
  exact_window timestamp timeframeSec ->
  let boundary := TimeUtils.getCandleBoundary timestamp timeframeSec in
  boundary <= timestamp < TimeUtils.getCandleCloseTime timestamp timeframeSec /\
  (timeframeSec | boundary) /\
  (forall t,
     exact_window t timeframeSec ->
     TimeUtils.getCandleBoundary t timeframeSec = boundary <->
     boundary <= t < boundary + timeframeSec).
Proof.
  intros (Hpos & _ & _) boundary. subst boundary.
  unfold TimeUtils.getCandleCloseTime, TimeUtils.getCandleBoundary.
  pose proof (Z.mul_div_le timestamp timeframeSec Hpos) as Hle.
  pose proof (Z.mul_succ_div_gt timestamp timeframeSec Hpos) as Hgt.
  split; [|split; [apply Z.divide_factor_r|]].
  - generalize dependent (timestamp / timeframeSec). intros q Hle Hgt. lia.
  - intros t _. split.
    + intros Heq. rewrite <- Heq.
      pose proof (Z.mul_div_le t timeframeSec Hpos) as Hle'.
      pose proof (Z.mul_succ_div_gt t timeframeSec Hpos) as Hgt'.
      generalize dependent (t / timeframeSec). intros q _ Hle' Hgt'. lia.
    + intros Hin. f_equal. symmetry.
      generalize dependent (timestamp / timeframeSec). intros q Hle Hgt Hin.
      apply Z.div_unique with (r := t - q * timeframeSec); lia.
Qed.

(** For a positive time frame and a timestamp at or after the epoch whose
    close time is a safe integer, the seconds until the close are at least
    1 and at most the time frame; the timestamp is in the pre-close window
    exactly when it is no earlier than [preCloseSeconds] before the close
    of its candle; and the window recurs with the period of the time frame,
    as far as the close time of the next candle is a safe integer too. *)
Theorem pre_close_window_is_the_tail_of_the_candle
    (timestamp timeframeSec preCloseSeconds : Z) :
  exact_window timestamp timeframeSec ->
  JS.safe_integer preCloseSeconds ->
  0 < TimeUtils.getSecondsUntilClose timestamp timeframeSec <= timeframeSec /\
  (TimeUtils.isPreCloseWindow timestamp timeframeSec preCloseSeconds = true <->
   TimeUtils.getCandleCloseTime timestamp timeframeSec - preCloseSeconds
     <= timestamp) /\
  (exact_window (timestamp + timeframeSec) timeframeSec ->
   TimeUtils.isPreCloseWindow (timestamp + timeframeSec) timeframeSec
     preCloseSeconds =
   TimeUtils.isPreCloseWindow timestamp timeframeSec preCloseSeconds).
Proof.
  intros (Hpos & _ & _) _.
  assert (Hshift : TimeUtils.getSecondsUntilClose (timestamp + timeframeSec)
                     timeframeSec =
                   TimeUtils.getSecondsUntilClose timestamp timeframeSec).
  { unfold TimeUtils.getSecondsUntilClose, TimeUtils.getCandleCloseTime,
      TimeUtils.getCandleBoundary.
    replace (timestamp + timeframeSec) with (timestamp + 1 * timeframeSec)
      by lia.
    rewrite Z.div_add by lia. lia. }
  unfold TimeUtils.isPreCloseWindow. rewrite Hshift.
  unfold TimeUtils.getSecondsUntilClose, TimeUtils.getCandleCloseTime,
    TimeUtils.getCandleBoundary in *.
  pose proof (Z.mul_div_le timestamp timeframeSec Hpos) as Hle.
  pose proof (Z.mul_succ_div_gt timestamp timeframeSec Hpos) as Hgt.
  generalize dependent (timestamp / timeframeSec). intros q _ Hle Hgt.
  split; [lia|]. split; [|intros _; reflexivity].
  rewrite andb_true_iff, Z.leb_le, Z.ltb_lt. lia.
Qed.

(** [formatDuration] shows the two largest units of a duration that is a
    safe integer: hours and minutes from one hour on, the seconds being
    dropped; minutes and seconds below, the seconds left out when they are
    zero; seconds alone below one minute.  A negative duration is shown in
    seconds whatever its size. *)
Theorem formatDuration_shows_the_two_largest_units :
  (forall hours minutes seconds,
     0 <= hours -> 0 <= minutes < 60 -> 0 <= seconds < 60 ->
     JS.safe_integer (3600 * hours + 60 * minutes + seconds) ->
     TimeUtils.formatDuration (3600 * hours + 60 * minutes + seconds) =
     if 0 <? hours then
       (JS.String_of_Z hours ++ "h " ++ JS.String_of_Z minutes ++ "m")%string
     else if 0 <? minutes then
       if 0 <? seconds then
         (JS.String_of_Z minutes ++ "m " ++
          JS.String_of_Z seconds ++ "s")%string
       else (JS.String_of_Z minutes ++ "m")%string
     else (JS.String_of_Z seconds ++ "s")%string) /\
  (forall seconds,
     seconds < 0 -> JS.safe_integer seconds ->
     TimeUtils.formatDuration seconds = (JS.String_of_Z seconds ++ "s")%string).
Proof.
  split.
  - intros h m r Hh Hm Hr _. unfold TimeUtils.formatDuration.
    assert (Hdiv : (3600 * h + 60 * m + r) / 60 = 60 * h + m)
      by (symmetry; apply Z.div_unique with (r := r); lia).
    assert (Hrem : Z.rem (3600 * h + 60 * m + r) 60 = r).
    { rewrite Z.rem_mod_nonneg by lia. symmetry.
      apply Z.mod_unique with (q := 60 * h + m); lia. }
    assert (Hdiv' : (60 * h + m) / 60 = h)
      by (symmetry; apply Z.div_unique with (r := m); lia).
    assert (Hrem' : Z.rem (60 * h + m) 60 = m).
    { rewrite Z.rem_mod_nonneg by lia. symmetry.
      apply Z.mod_unique with (q := h); lia. }
    rewrite Hdiv, Hrem, Hdiv', Hrem'.
    destruct (Z.ltb_spec 0 h) as [Hpos|Hzero].
    + destruct (Z.ltb_spec (3600 * h + 60 * m + r) 60); [lia|].
      destruct (Z.ltb_spec (60 * h + m) 60); [lia|]. reflexivity.
    + assert (h = 0) as -> by lia. rewrite ?Z.mul_0_r, ?Z.add_0_l.
      destruct (Z.ltb_spec 0 m) as [Hm'|Hm'].
      * destruct (Z.ltb_spec (60 * m + r) 60); [lia|].
        destruct (Z.ltb_spec m 60); [|lia]. reflexivity.
      * assert (m = 0) as -> by lia. rewrite ?Z.mul_0_r, ?Z.add_0_l.
        destruct (Z.ltb_spec r 60); [|lia]. reflexivity.
  - intros seconds Hneg _. unfold TimeUtils.formatDuration.
    destruct (Z.ltb_spec seconds 60); [reflexivity|lia].
Qed.

End TimeProperties.

(** ** Numerals and strings *)

Section Numerals.

#[local] Open Scope string_scope.

Lemma decimal_prefix_string_of_uint (d : Decimal.uint) :
  JS.decimal_prefix (DecimalString.NilEmpty.string_of_uint d) =
  (d, EmptyString).
Proof.
  induction d as [|d IH|d IH|d IH|d IH|d IH|d IH|d IH|d IH|d IH|d IH];
    [reflexivity|..]; cbn [DecimalString.NilEmpty.string_of_uint];
    cbn [JS.decimal_prefix]; rewrite IH; reflexivity.
Qed.

Lemma parseInt_string_of_uint (d : Decimal.uint) :
  d <> Decimal.Nil ->
  JS.parseInt (DecimalString.NilEmpty.string_of_uint d) = Some (Z.of_uint d) /\
  JS.parseInt (String "-" (DecimalString.NilEmpty.string_of_uint d)) =
    Some (- Z.of_uint d)%Z.
Proof.
  intros Hd.
  assert (Hprefix : fst (JS.decimal_prefix
                           (DecimalString.NilEmpty.string_of_uint d)) = d)
    by (rewrite decimal_prefix_string_of_uint; reflexivity).
  destruct d as [|d|d|d|d|d|d|d|d|d|d]; [contradiction|..];
    cbn [DecimalString.NilEmpty.string_of_uint] in *;
    try (reduce_parseInt; rewrite Hprefix; split; reflexivity).
  destruct d as [|d|d|d|d|d|d|d|d|d|d]; [split; reflexivity|..];
    cbn [DecimalString.NilEmpty.string_of_uint] in *;
    reduce_parseInt; rewrite Hprefix; split; reflexivity.
Qed.

(** Reading back the numeral of an integer gives the integer. *)
Lemma parseInt_String_of_Z (n : Z) : JS.parseInt (JS.String_of_Z n) = Some n.
Proof.
  unfold JS.String_of_Z. rewrite <- (DecimalZ.of_to n) at 2.
  destruct n as [|p|p]; [reflexivity| |].
  - cbn [Z.to_int DecimalString.NilZero.string_of_int Z.of_int].
    pose proof (DecimalPos.Unsigned.to_uint_nonnil p) as Hnil.
    destruct (parseInt_string_of_uint (Pos.to_uint p) Hnil) as [H _].
    unfold DecimalString.NilZero.string_of_uint.
    destruct (Pos.to_uint p); [contradiction|..]; exact H.
  - cbn [Z.to_int DecimalString.NilZero.string_of_int Z.of_int].
    pose proof (DecimalPos.Unsigned.to_uint_nonnil p) as Hnil.
    destruct (parseInt_string_of_uint (Pos.to_uint p) Hnil) as [_ H].
    unfold DecimalString.NilZero.string_of_uint.
    destruct (Pos.to_uint p); [contradiction|..]; exact H.
Qed.

Lemma String_of_Z_inj (n n' : Z) :
  JS.String_of_Z n = JS.String_of_Z n' -> n = n'.
Proof.
  intros H. apply (f_equal JS.parseInt) in H.
  rewrite !parseInt_String_of_Z in H. congruence.
Qed.

Lemma includes_char (c a : ascii) (r : string) :
  JS.includes (String a r) (String c "") =
  Ascii.eqb c a || JS.includes r (String c "").
Proof.
  cbn [JS.includes String.prefix].
  destruct (Ascii.eqb_spec c a) as [->|Hne].
  - destruct (ascii_dec a a); [|contradiction].
    destruct r; reflexivity.
  - destruct (ascii_dec c a); [contradiction|]. reflexivity.
Qed.

Lemma split_without (separator : ascii) (s : string) :
  JS.includes s (String separator "") = false ->
  JS.split separator s = [s].
Proof.
  induction s as [|a r IH]; [reflexivity|].
  rewrite includes_char, orb_false_iff. intros [Ha Hr].
  cbn [JS.split]. rewrite Ascii.eqb_sym, Ha, (IH Hr). reflexivity.
Qed.

Lemma split_at_first (separator : ascii) (s t : string) :
  JS.includes s (String separator "") = false ->
  JS.split separator (s ++ String separator t) = s :: JS.split separator t.
Proof.
  induction s as [|a r IH].
  - intros _. change ("" ++ String separator t) with (String separator t).
    cbn [JS.split]. rewrite Ascii.eqb_refl. reflexivity.
  - rewrite includes_char, orb_false_iff. intros [Ha Hr].
    change (String a r ++ String separator t)
      with (String a (r ++ String separator t)).
    cbn [JS.split]. rewrite Ascii.eqb_sym, Ha, (IH Hr). reflexivity.
Qed.

Lemma string_of_uint_without (c : ascii) (d : Decimal.uint) :
  JS.includes "0123456789" (String c "") = false ->
  JS.includes (DecimalString.NilEmpty.string_of_uint d) (String c "") = false.
Proof.
  intros Hc. rewrite !includes_char in Hc.
  repeat (apply orb_false_iff in Hc; destruct Hc as [? Hc]).
  induction d as [|d IH|d IH|d IH|d IH|d IH|d IH|d IH|d IH|d IH|d IH];
    [reflexivity|..]; cbn [DecimalString.NilEmpty.string_of_uint];
    rewrite includes_char, IH, orb_false_r; assumption.
Qed.

(** A numeral is made of digits and a minus sign. *)
Lemma String_of_Z_without (c : ascii) (n : Z) :
  JS.includes "-0123456789" (String c "") = false ->
  JS.includes (JS.String_of_Z n) (String c "") = false.
Proof.
  rewrite includes_char, orb_false_iff. intros [Hminus Hc].
  pose proof (string_of_uint_without c) as Hd.
  unfold JS.String_of_Z. destruct n as [|p|p]; cbn [Z.to_int].
  - exact (Hd (Decimal.D0 Decimal.Nil) Hc).
  - cbn [DecimalString.NilZero.string_of_int].
    unfold DecimalString.NilZero.string_of_uint.
    pose proof (DecimalPos.Unsigned.to_uint_nonnil p) as Hnil.
    destruct (Pos.to_uint p) eqn:E; [contradiction|..]; rewrite <- E;
      apply Hd, Hc.
  - cbn [DecimalString.NilZero.string_of_int].
    unfold DecimalString.NilZero.string_of_uint.
    pose proof (DecimalPos.Unsigned.to_uint_nonnil p) as Hnil.
    rewrite includes_char, Hminus.
    destruct (Pos.to_uint p) eqn:E; [contradiction|..]; rewrite <- E;
      apply Hd, Hc.
Qed.

Lemma includes_separator (separator : ascii) (s t : string) :
  JS.includes (s ++ String separator t) (String separator "") = true.
Proof.
  induction s as [|a r IH].
  - change ("" ++ String separator t) with (String separator t).
    rewrite includes_char, Ascii.eqb_refl. reflexivity.
  - change (String a r ++ String separator t)
      with (String a (r ++ String separator t)).
    rewrite includes_char, IH. apply orb_true_r.
Qed.

(** A string is cut in one way only at its last separator. *)
Lemma append_separator_inj (separator : ascii) (s : string) :
  forall s' t t',
    JS.includes t (String separator "") = false ->
    JS.includes t' (String separator "") = false ->
    s ++ String separator t = s' ++ String separator t' ->
    s = s' /\ t = t'.
Proof.
  induction s as [|a r IH]; intros [|a' r'] t t' Ht Ht'.
  - change ("" ++ String separator t) with (String separator t).
    change ("" ++ String separator t') with (String separator t').
    intros H. injection H as <-. split; reflexivity.
  - change ("" ++ String separator t) with (String separator t).
    change (String a' r' ++ String separator t')
      with (String a' (r' ++ String separator t')).
    intros H. injection H as _ ->.
    rewrite includes_separator in Ht. discriminate Ht.
  - change ("" ++ String separator t') with (String separator t').
    change (String a r ++ String separator t)
      with (String a (r ++ String separator t)).
    intros H. injection H as _ <-.
    rewrite includes_separator in Ht'. discriminate Ht'.
  - change (String a r ++ String separator t)
      with (String a (r ++ String separator t)).
    change (String a' r' ++ String separator t')
      with (String a' (r' ++ String separator t')).
    intros H. injection H as <- H.
    destruct (IH r' t t' Ht Ht' H) as [-> ->]. split; reflexivity.
Qed.

Lemma prefix_append (p s : string) : String.prefix p (p ++ s) = true.
Proof.
  induction p as [|a p IH].
  - destruct s; reflexivity.
  - change (String a p ++ s) with (String a (p ++ s)). cbn [String.prefix].
    destruct (ascii_dec a a); [exact IH|contradiction].
Qed.

Lemma skip_append (p s : string) : JS.skip (String.length p) (p ++ s) = s.
Proof.
  induction p as [|a p IH]; [destruct s; reflexivity|exact IH].
Qed.

(** Removing a prefix by [replace] leaves the rest, whatever the rest
    holds. *)
Lemma replace_prefix (p s : string) : JS.replace (p ++ s) p "" = s.
Proof.
  assert (Hunfold : forall t,
            JS.replace t p "" =
            if String.prefix p t then JS.skip (String.length p) t
            else
              match t with
              | EmptyString => EmptyString
              | String c r => String c (JS.replace r p "")
              end)
    by (intros [|c r]; reflexivity).
  rewrite Hunfold, prefix_append. apply skip_append.
Qed.

End Numerals.

(** ** Assets and time-frame labels ([config/assets.ts]) *)

Section Assets.

#[local] Open Scope string_scope.

Lemma getAssetById_listed (id : string) :
  match Config.getAssetById id with
  | Some asset => In asset Config.SUPPORTED_ASSETS /\ Asset.id asset = id
  | None =>
      forall asset, In asset Config.SUPPORTED_ASSETS -> Asset.id asset <> id
  end.
Proof.
  unfold Config.getAssetById.
  destruct (List.find _ _) as [asset|] eqn:Hfind.
  - apply List.find_some in Hfind. destruct Hfind as [Hin Heq].
    split; [exact Hin|]. apply String.eqb_eq. exact Heq.
  - intros asset Hin Heq.
    pose proof (List.find_none _ _ Hfind asset Hin) as Hnone.
    cbv beta in Hnone. rewrite Heq, String.eqb_refl in Hnone.
    discriminate Hnone.
Qed.

(** [getAssetById] returns a listed asset with the id asked for, or nothing
    when no listed asset has that id; and since the ids of the list are
    distinct, looking up the id of a listed asset returns that asset. *)
Theorem getAssetById_finds_every_listed_asset :
  (forall id,
     match Config.getAssetById id with
     | Some asset => In asset Config.SUPPORTED_ASSETS /\ Asset.id asset = id
     | None =>
         forall asset, In asset Config.SUPPORTED_ASSETS -> Asset.id asset <> id
     end) /\
  (forall asset,
     In asset Config.SUPPORTED_ASSETS ->
     Config.getAssetById (Asset.id asset) = Some asset).
Proof.
  split; [exact getAssetById_listed|].
  assert (H : Forall
                (fun asset =>
                   Config.getAssetById (Asset.id asset) = Some asset)
                Config.SUPPORTED_ASSETS)
    by (repeat constructor).
  intros asset Hin. exact (proj1 (List.Forall_forall _ _) H asset Hin).
Qed.

(** [getTimeframeLabel] gives a listed time frame its label and any other
    number of seconds that is a safe integer its numeral followed by
    [s]. *)
Theorem getTimeframeLabel_of_listed_and_other (seconds : Z) :
  (forall label,
     In (seconds, label) Config.TIMEFRAMES ->
     Config.getTimeframeLabel seconds = label) /\
  (~ In seconds (map fst Config.TIMEFRAMES) -> JS.safe_integer seconds ->
   Config.getTimeframeLabel seconds = JS.String_of_Z seconds ++ "s").
Proof.
  split.
  - intros label Hin. cbn in Hin.
    repeat (destruct Hin as [[= <- <-]|Hin]; [reflexivity|]).
    contradiction.
  - intros Hout _. unfold Config.getTimeframeLabel.
    destruct (List.find _ _) as [tf|] eqn:Hfind; [|reflexivity].
    apply List.find_some in Hfind. destruct Hfind as [Hin Heq].
    apply Z.eqb_eq in Heq. contradiction Hout. rewrite <- Heq.
    apply in_map. exact Hin.
Qed.

End Assets.

(** ** Keyboards and the callback dispatcher
       ([telegram/keyboards.ts], [telegram/handlers.ts]) *)

Section KeyboardProperties.

#[local] Open Scope string_scope.

Lemma assetRows_spec (assets : list Asset.t) :
  concat (Keyboards.assetRows assets) = map Keyboards.assetButton assets /\
  Forall (fun row => (1 <= length row <= 2)%nat) (Keyboards.assetRows assets).
Proof.
  assert (H : forall n (l : list Asset.t), (length l <= n)%nat ->
            concat (Keyboards.assetRows l) = map Keyboards.assetButton l /\
            Forall (fun row => (1 <= length row <= 2)%nat)
              (Keyboards.assetRows l)).
  { induction n as [|n IH]; intros [|a [|b rest]] Hlen; cbn in Hlen;
      try lia; try (split; [reflexivity|repeat constructor]).
    destruct (IH rest ltac:(lia)) as [Hc Hf].
    cbn [Keyboards.assetRows concat map app]. rewrite Hc.
    split; [reflexivity|]. constructor; [cbn; lia|exact Hf]. }
  exact (H (length assets) assets (le_n _)).
Qed.

Lemma categoryRows_spec header data category assets :
  concat (Keyboards.categoryRows header data category assets) =
    category_buttons header data category assets /\
  Forall (fun row => (1 <= length row <= 2)%nat)
    (Keyboards.categoryRows header data category assets).
Proof.
  unfold Keyboards.categoryRows, category_buttons.
  destruct (List.filter _ assets) as [|a l] eqn:E; [split; constructor|].
  destruct (assetRows_spec (a :: l)) as [Hc Hf].
  cbn [concat app]. rewrite Hc. split; [reflexivity|].
  constructor; [cbn; lia|exact Hf].
Qed.

Lemma createAssetKeyboard_buttons (assets : list Asset.t) :
  concat (Keyboards.createAssetKeyboard assets) =
    (category_buttons "FOREX" "header_forex" "forex" assets ++
     category_buttons "SYNTHETIC INDICES" "header_synthetic" "synthetic"
       assets ++
     category_buttons "CRYPTO" "header_crypto" "crypto" assets ++
     [Keyboards.mkButton "Cancel" "cancel"])%list.
Proof.
  unfold Keyboards.createAssetKeyboard.
  destruct (categoryRows_spec "FOREX" "header_forex" "forex" assets)
    as [Hc1 _].
  destruct (categoryRows_spec "SYNTHETIC INDICES" "header_synthetic"
              "synthetic" assets) as [Hc2 _].
  destruct (categoryRows_spec "CRYPTO" "header_crypto" "crypto" assets)
    as [Hc3 _].
  rewrite !concat_app, Hc1, Hc2, Hc3. reflexivity.
Qed.

(** The asset keyboard shows, in this order, the forex, the synthetic and
    the crypto assets of the list, each category under its header and in
    the order of the list, an empty category being left out with its
    header, and a Cancel button last; an asset of another category, or of
    none, has no button; every row holds one or two buttons. *)
Theorem createAssetKeyboard_layout (assets : list Asset.t) :
  let keyboard := Keyboards.createAssetKeyboard assets in
  Forall (fun row => (1 <= length row <= 2)%nat) keyboard /\
  concat keyboard =
    (category_buttons "FOREX" "header_forex" "forex" assets ++
     category_buttons "SYNTHETIC INDICES" "header_synthetic" "synthetic"
       assets ++
     category_buttons "CRYPTO" "header_crypto" "crypto" assets ++
     [Keyboards.mkButton "Cancel" "cancel"])%list.
Proof.
  cbv zeta. split; [|apply createAssetKeyboard_buttons].
  unfold Keyboards.createAssetKeyboard.
  destruct (categoryRows_spec "FOREX" "header_forex" "forex" assets)
    as [_ Hf1].
  destruct (categoryRows_spec "SYNTHETIC INDICES" "header_synthetic"
              "synthetic" assets) as [_ Hf2].
  destruct (categoryRows_spec "CRYPTO" "header_crypto" "crypto" assets)
    as [_ Hf3].
  repeat (apply Forall_app; split); try assumption.
  constructor; [cbn; lia|constructor].
Qed.

Lemma handleCallback_prefixed (id : string) :
  Handlers.handleCallback ("asset:" ++ id) =
    Handlers.Call.handleAssetSelection id /\
  Handlers.handleCallback ("stop:" ++ id) =
    Handlers.Call.handleStopSession id /\
  Handlers.handleCallback ("view:" ++ id) =
    Handlers.Call.handleViewSession id /\
  Handlers.handleCallback ("rerun:" ++ id) =
    Handlers.Call.handleRerunSignal id.
Proof.
  unfold Handlers.handleCallback, JS.startsWith.
  repeat split; decide_tests; rewrite prefix_append, replace_prefix;
    reflexivity.
Qed.

Lemma handleCallback_timeframe (assetId : string) (timeframe : Z) :
  JS.includes assetId ":" = false ->
  Handlers.handleCallback
    ("timeframe:" ++ assetId ++ ":" ++ JS.String_of_Z timeframe) =
    Handlers.Call.handleTimeframeSelection (Some assetId) (Some timeframe) /\
  Handlers.handleCallback
    ("start_session:" ++ assetId ++ ":" ++ JS.String_of_Z timeframe) =
    Handlers.Call.handleStartSession (Some assetId) (Some timeframe).
Proof.
  intros Hfree.
  assert (Hsplit : forall command,
            JS.includes command ":" = false ->
            Handlers.assetAndTimeframe
              (command ++
               String ":" (assetId ++ String ":" (JS.String_of_Z timeframe))) =
            (Some assetId, Some (JS.String_of_Z timeframe))).
  { intros command Hcommand. unfold Handlers.assetAndTimeframe.
    rewrite (split_at_first ":" command) by exact Hcommand.
    rewrite (split_at_first ":" assetId) by exact Hfree.
    rewrite split_without by (apply String_of_Z_without; reflexivity).
    reflexivity. }
  unfold Handlers.handleCallback, JS.startsWith. split; decide_tests.
  - rewrite (prefix_append "timeframe:").
    change ("timeframe:" ++ assetId ++ ":" ++ JS.String_of_Z timeframe)
      with ("timeframe" ++
            String ":" (assetId ++ String ":" (JS.String_of_Z timeframe))).
    rewrite (Hsplit "timeframe" eq_refl). cbn [mbind option_bind].
    rewrite parseInt_String_of_Z. reflexivity.
  - rewrite (prefix_append "start_session:").
    change ("start_session:" ++ assetId ++ ":" ++ JS.String_of_Z timeframe)
      with ("start_session" ++
            String ":" (assetId ++ String ":" (JS.String_of_Z timeframe))).
    rewrite (Hsplit "start_session" eq_refl). cbn [mbind option_bind].
    rewrite parseInt_String_of_Z. reflexivity.
Qed.

(** Pressing a button of the asset keyboard makes [handleCallback] select
    the asset of the button, with the id the button was built from
    whatever characters the id holds; a header makes no call and Cancel
    cancels.  The buttons of the session keyboards view, stop and re-run
    the session they were built for, and the start buttons begin. *)
Theorem asset_and_session_buttons_reach_their_handler :
  (forall assets,
     map call_of (concat (Keyboards.createAssetKeyboard assets)) =
     (category_calls "forex" assets ++ category_calls "synthetic" assets ++
      category_calls "crypto" assets ++ [Handlers.Call.handleCancel])%list) /\
  (forall sessionId,
     map (map call_of) (Keyboards.createSessionControlKeyboard sessionId) =
       [ [ Handlers.Call.handleViewSession sessionId;
           Handlers.Call.handleStopSession sessionId ] ] /\
     map (map call_of) (Keyboards.createSignalActionKeyboard sessionId) =
       [ [ Handlers.Call.handleViewSession sessionId;
           Handlers.Call.handleRerunSignal sessionId ];
         [ Handlers.Call.handleStopSession sessionId ] ]) /\
  map (map call_of) Keyboards.createStartKeyboard =
    [[Handlers.Call.handleBegin]] /\
  map (map call_of) Keyboards.createStoppedSessionKeyboard =
    [[Handlers.Call.handleBegin]].
Proof.
  assert (Hbuttons : forall l,
            map call_of (map Keyboards.assetButton l) =
            map
              (fun asset => Handlers.Call.handleAssetSelection (Asset.id asset))
              l).
  { intros l. rewrite map_map. apply map_ext. intros asset.
    apply (handleCallback_prefixed (Asset.id asset)). }
  assert (Hcategory : forall header data category assets,
            Handlers.handleCallback data = Handlers.Call.noCall ->
            map call_of (category_buttons header data category assets) =
            category_calls category assets).
  { intros header data category assets Hdata.
    unfold category_buttons, category_calls.
    destruct (List.filter _ assets) as [|a l]; [reflexivity|].
    rewrite map_cons, Hbuttons. f_equal. exact Hdata. }
  split; [|split; [|split; reflexivity]].
  - intros assets. rewrite createAssetKeyboard_buttons.
    rewrite !map_app, !Hcategory by reflexivity. reflexivity.
  - intros sessionId.
    destruct (handleCallback_prefixed sessionId)
      as (_ & Hstop & Hview & Hrerun).
    unfold Keyboards.createSessionControlKeyboard,
      Keyboards.createSignalActionKeyboard, call_of.
    cbn [map Keyboards.callback_data]. rewrite Hstop, Hview, Hrerun.
    split; reflexivity.
Qed.

(** For an asset id without a colon, pressing a button of the time-frame
    keyboard makes [handleCallback] select that asset with the time frame
    of the button, and the Start button of the confirmation keyboard starts
    a session for that asset and the time frame the keyboard was built
    with: the asset id and the time frame written into the callback data
    are read back unchanged. *)
Theorem timeframe_buttons_round_trip (assetId : string) :
  JS.includes assetId ":" = false ->
  map (map call_of) (Keyboards.createTimeframeKeyboard assetId) =
    [ map (fun tf =>
             Handlers.Call.handleTimeframeSelection (Some assetId)
               (Some (fst tf)))
        (firstn 3 Config.TIMEFRAMES);
      map (fun tf =>
             Handlers.Call.handleTimeframeSelection (Some assetId)
               (Some (fst tf)))
        (skipn 3 Config.TIMEFRAMES);
      [ Handlers.Call.handleBegin; Handlers.Call.handleCancel ] ] /\
  (forall timeframe,
     JS.safe_integer timeframe ->
     map (map call_of)
       (Keyboards.createConfirmSessionKeyboard assetId timeframe) =
       [ [ Handlers.Call.handleStartSession (Some assetId)
             (Some timeframe) ];
         [ Handlers.Call.handleAssetSelection assetId;
           Handlers.Call.handleBegin ];
         [ Handlers.Call.handleCancel ] ]).
Proof.
  intros Hfree.
  assert (Htf : forall tf,
            call_of (Keyboards.timeframeButton assetId tf) =
            Handlers.Call.handleTimeframeSelection (Some assetId)
              (Some (fst tf)))
    by (intros tf; apply (handleCallback_timeframe assetId (fst tf) Hfree)).
  split.
  - unfold Keyboards.createTimeframeKeyboard.
    cbn [firstn skipn Config.TIMEFRAMES map app].
    rewrite !Htf. reflexivity.
  - intros timeframe _.
    unfold Keyboards.createConfirmSessionKeyboard, call_of.
    cbn [map Keyboards.callback_data].
    destruct (handleCallback_timeframe assetId timeframe Hfree) as [_ ->].
    destruct (handleCallback_prefixed assetId) as [-> _]. reflexivity.
Qed.

(** No id of a listed asset holds a colon. *)
Example supported_assets_have_plain_ids :
  Forall (fun asset => JS.includes (Asset.id asset) ":" = false)
    Config.SUPPORTED_ASSETS.
Proof. repeat constructor. Qed.

(** The id [handleStartSession] builds for a session determines the chat
    and the millisecond it was built for: two ids are equal only when both
    are. *)
Theorem sessionIdFor_is_injective chatId nowMs chatId' nowMs' :
  Handlers.sessionIdFor chatId nowMs = Handlers.sessionIdFor chatId' nowMs' <->
  chatId = chatId' /\ nowMs = nowMs'.
Proof.
  split; [|intros [-> ->]; reflexivity].
  unfold Handlers.sessionIdFor. intros H.
  change (JS.String_of_Z chatId ++ String "_" (JS.String_of_Z nowMs) =
          JS.String_of_Z chatId' ++ String "_" (JS.String_of_Z nowMs')) in H.
  apply (append_separator_inj "_") in H;
    try (apply String_of_Z_without; reflexivity).
  destruct H as [H1 H2]. split; apply String_of_Z_inj; assumption.
Qed.

End KeyboardProperties.

(** ** The in-memory storage ([storage.ts]) *)

Section Slices.

#[local] Open Scope Z_scope.

Context {A : Type}.

Lemma slice_suffix (start : Z) (l : list A) :
  exists dropped, l = dropped ++ JS.slice start l.
Proof.
  unfold JS.slice. eexists. symmetry. apply firstn_skipn.
Qed.

Lemma slice_last (start : Z) (l : list A) :
  start < 0 -> JS.slice start l = skipn (length l - Z.to_nat (- start)) l.
Proof.
  intros Hk. unfold JS.slice.
  destruct (Z.ltb_spec start 0) as [_|]; [|lia]. f_equal. lia.
Qed.

Lemma slice_zero (l : list A) : JS.slice (- 0) l = l.
Proof. unfold JS.slice. cbn. rewrite Z.min_l by lia. reflexivity. Qed.

Lemma slice_first (start : Z) (l : list A) :
  0 <= start -> JS.slice start l = skipn (Z.to_nat start) l.
Proof.
  intros Hk. unfold JS.slice.
  destruct (Z.ltb_spec start 0) as [|_]; [lia|].
  destruct (Z.le_ge_cases start (Z.of_nat (length l))) as [Hle|Hge].
  - rewrite Z.min_l by exact Hle. reflexivity.
  - rewrite Z.min_r by exact Hge. rewrite Nat2Z.id.
    rewrite !skipn_all2 by lia. reflexivity.
Qed.

Lemma slice_length (start : Z) (l : list A) :
  (length (JS.slice start l) <= length l)%nat.
Proof.
  destruct (slice_suffix start l) as [dropped H].
  rewrite H at 2. rewrite length_app. lia.
Qed.

Lemma slice_last_length (start : Z) (l : list A) :
  start < 0 ->
  Z.of_nat (length (JS.slice start l)) = Z.min (- start) (Z.of_nat (length l)).
Proof. intros Hk. rewrite slice_last, length_skipn by exact Hk. lia. Qed.

(** A slice from the end of an array that was just pushed to ends with the
    element pushed. *)
Lemma slice_after_push (start : Z) (l : list A) (x : A) :
  start < 0 -> exists kept, JS.slice start (l ++ [x]) = kept ++ [x].
Proof.
  intros Hk. rewrite slice_last by exact Hk. rewrite length_app. cbn [length].
  exists (skipn (length l + 1 - Z.to_nat (- start)) l).
  rewrite skipn_app. f_equal.
  replace (length l + 1 - Z.to_nat (- start) - length l)%nat with 0%nat by lia.
  reflexivity.
Qed.

End Slices.

Section Storage.

#[local] Open Scope Z_scope.

(** Whatever signals are saved to an empty storage, the log never holds
    more than 10000 of them; what it holds is the end of the sequence
    saved, in the order saved; and nothing is lost as long as no more than
    10000 were saved. *)
Theorem signal_log_keeps_the_newest (saved : list SignalResult.t) :
  let st :=
    fold_left (fun st signal => MemStorage.saveSignal signal st) saved
      MemStorage.empty in
  Z.of_nat (length (MemStorage.signals st)) <= 10000 /\
  (exists dropped, saved = dropped ++ MemStorage.signals st) /\
  (Z.of_nat (length saved) <= 10000 -> MemStorage.signals st = saved).
Proof.
  cbv zeta.
  assert (H : forall later st earlier,
            Z.of_nat (length (MemStorage.signals st)) <= 10000 ->
            (exists dropped, earlier = dropped ++ MemStorage.signals st) ->
            (Z.of_nat (length earlier) <= 10000 ->
             MemStorage.signals st = earlier) ->
            let st' :=
              fold_left (fun st signal => MemStorage.saveSignal signal st)
                later st in
            Z.of_nat (length (MemStorage.signals st')) <= 10000 /\
            (exists dropped,
               earlier ++ later = dropped ++ MemStorage.signals st') /\
            (Z.of_nat (length (earlier ++ later)) <= 10000 ->
             MemStorage.signals st' = earlier ++ later)).
  { induction later as [|signal later IH]; intros st earlier Hlen Hsuf Hall.
    - cbn [fold_left]. rewrite app_nil_r. auto.
    - cbn [fold_left].
      replace (earlier ++ signal :: later)
        with ((earlier ++ [signal]) ++ later)
        by (rewrite <- app_assoc; reflexivity).
      apply IH; unfold MemStorage.saveSignal.
      + destruct (Z.ltb_spec 10000
                    (Z.of_nat (length (MemStorage.signals st ++ [signal]))))
          as [Hfull|Hroom]; cbn [MemStorage.signals].
        * rewrite slice_last_length by lia. lia.
        * lia.
      + destruct Hsuf as [dropped ->].
        destruct (10000 <? _); cbn [MemStorage.signals].
        * destruct (slice_suffix (-5000) (MemStorage.signals st ++ [signal]))
            as [dropped' Hd].
          exists (dropped ++ dropped'). rewrite <- !app_assoc. f_equal.
          exact Hd.
        * exists dropped. rewrite app_assoc. reflexivity.
      + rewrite length_app. cbn [length]. intros Hfew.
        rewrite Hall by lia.
        destruct (Z.ltb_spec 10000 (Z.of_nat (length (earlier ++ [signal]))))
          as [Hfull|Hroom]; cbn [MemStorage.signals]; [|reflexivity].
        rewrite length_app in Hfull. cbn [length] in Hfull. lia. }
  apply (H saved MemStorage.empty []).
  - cbn. lia.
  - exists []. reflexivity.
  - reflexivity.
Qed.

(** [getRecentSignals] returns the newest signals first: the [limit] newest
    for a positive limit, the 50 newest when the limit is left out, but the
    whole log for a limit of 0, and the log without its [-limit] oldest
    signals for a negative limit. *)
Theorem getRecentSignals_newest_first (st : MemStorage.t) :
  (forall limit,
     0 < limit ->
     MemStorage.getRecentSignals (Some limit) st =
     firstn (Z.to_nat limit) (rev (MemStorage.signals st))) /\
  MemStorage.getRecentSignals None st =
    firstn 50 (rev (MemStorage.signals st)) /\
  MemStorage.getRecentSignals (Some 0) st = rev (MemStorage.signals st) /\
  (forall limit,
     limit < 0 ->
     MemStorage.getRecentSignals (Some limit) st =
     rev (skipn (Z.to_nat (- limit)) (MemStorage.signals st))).
Proof.
  unfold MemStorage.getRecentSignals. cbn [default from_option id]; unfold id.
  split; [|split; [|split]].
  - intros limit Hlimit. rewrite slice_last by lia.
    rewrite Z.opp_involutive. symmetry. apply firstn_rev.
  - rewrite slice_last by lia. symmetry. apply (firstn_rev 50).
  - rewrite slice_zero. reflexivity.
  - intros limit Hlimit. rewrite slice_first by lia. reflexivity.
Qed.

Lemma saveSignal_last (signal : SignalResult.t) (st : MemStorage.t) :
  exists kept,
    MemStorage.signals (MemStorage.saveSignal signal st) = kept ++ [signal].
Proof.
  unfold MemStorage.saveSignal. destruct (10000 <? _); cbn [MemStorage.signals].
  - apply slice_after_push. lia.
  - eexists. reflexivity.
Qed.

(** [getSignals] returns signals of the log that belong to the session
    asked for, and no others; and the signal that was saved last comes
    first in the answer for its session, when the limit is positive or left
    out. *)
Theorem getSignals_of_a_session (sessionId : string) (st : MemStorage.t) :
  (forall limit,
     Forall
       (fun signal =>
          SignalResult.sessionId signal = sessionId /\
          In signal (MemStorage.signals st))
       (MemStorage.getSignals sessionId limit st)) /\
  (forall signal limit,
     SignalResult.sessionId signal = sessionId ->
     0 < default 100 limit ->
     hd_error
       (MemStorage.getSignals sessionId limit
          (MemStorage.saveSignal signal st)) = Some signal).
Proof.
  split.
  - intros limit. unfold MemStorage.getSignals. apply List.Forall_forall.
    intros signal Hin. apply in_rev in Hin.
    destruct (slice_suffix (- default 100 limit)
                (List.filter
                   (fun s => String.eqb (SignalResult.sessionId s) sessionId)
                   (MemStorage.signals st))) as [dropped Hd].
    assert (Hf : In signal
                   (List.filter
                      (fun s =>
                         String.eqb (SignalResult.sessionId s) sessionId)
                      (MemStorage.signals st)))
      by (rewrite Hd; apply in_or_app; right; exact Hin).
    apply List.filter_In in Hf. destruct Hf as [Hlog Heq].
    split; [apply String.eqb_eq; exact Heq|exact Hlog].
  - intros signal limit Hid Hlimit. unfold MemStorage.getSignals.
    destruct (saveSignal_last signal st) as [kept ->].
    rewrite List.filter_app. cbn [List.filter].
    rewrite Hid, String.eqb_refl.
    destruct (slice_after_push (- default 100 limit)
                (List.filter
                   (fun s => String.eqb (SignalResult.sessionId s) sessionId)
                   kept) signal ltac:(lia)) as [kept' ->].
    rewrite rev_app_distr. reflexivity.
Qed.

(** Two buffers share a key only when they are for the same symbol and the
    same time frame. *)
Lemma key_inj symbol timeframe symbol' timeframe' :
  MemStorage.key symbol timeframe = MemStorage.key symbol' timeframe' ->
  symbol = symbol' /\ timeframe = timeframe'.
Proof.
  unfold MemStorage.key. intros H.
  apply (append_separator_inj ":") in H;
    try (apply String_of_Z_without; reflexivity).
  destruct H as [-> H]. split; [reflexivity|]. apply String_of_Z_inj, H.
Qed.

(** After [saveCandle], the candles of the symbol and time frame of the
    candle end with that candle, for a positive limit or none; and the
    candles of every other symbol or time frame are what they were, also
    when the symbol holds a colon. *)
Theorem saveCandle_appends_to_its_own_buffer
    (candle : Candle.t) (st : MemStorage.t) :
  let st' := MemStorage.saveCandle candle st in
  (forall limit,
     0 < default 500 limit ->
     list.last
       (MemStorage.getCandles (Candle.symbol candle) (Candle.timeframe candle)
          limit st') = Some candle) /\
  (forall symbol timeframe limit,
     (symbol, timeframe) <> (Candle.symbol candle, Candle.timeframe candle) ->
     MemStorage.getCandles symbol timeframe limit st' =
     MemStorage.getCandles symbol timeframe limit st).
Proof.
  cbv zeta. split.
  - intros limit Hlimit. unfold MemStorage.getCandles, MemStorage.saveCandle.
    set (arr := default [] (MemStorage.candles st !! _) ++ [candle]).
    assert (Hbuf : exists kept,
              default []
                (MemStorage.candles
                   (if 1000 <? Z.of_nat (length arr)
                    then MemStorage.mk (MemStorage.signals st)
                           (<[MemStorage.key (Candle.symbol candle)
                                (Candle.timeframe candle) :=
                                JS.slice (-500) arr]> (MemStorage.candles st))
                    else MemStorage.mk (MemStorage.signals st)
                           (<[MemStorage.key (Candle.symbol candle)
                                (Candle.timeframe candle) := arr]>
                              (MemStorage.candles st)))
                 !! MemStorage.key (Candle.symbol candle)
                      (Candle.timeframe candle)) = kept ++ [candle]).
    { destruct (1000 <? _); cbn [MemStorage.candles];
        rewrite lookup_insert_eq; cbn [default from_option id]; unfold id.
      - apply slice_after_push. lia.
      - eexists. reflexivity. }
    destruct Hbuf as [kept ->].
    destruct (slice_after_push (- default 500 limit) kept candle ltac:(lia))
      as [kept' ->].
    apply last_snoc.
  - intros symbol timeframe limit Hother.
    unfold MemStorage.getCandles, MemStorage.saveCandle.
    assert (Hkey : MemStorage.key (Candle.symbol candle)
                     (Candle.timeframe candle) <>
                   MemStorage.key symbol timeframe).
    { intros Heq. apply key_inj in Heq. destruct Heq as [<- <-].
      apply Hother. reflexivity. }
    destruct (1000 <? _); cbn [MemStorage.candles];
      rewrite lookup_insert_ne by exact Hkey; reflexivity.
Qed.

(** Whatever candles are saved to an empty storage, [getCandles] never
    returns more than 1000 candles, for any symbol, time frame and
    limit. *)
Theorem candle_buffers_are_bounded (saved : list Candle.t) :
  let st :=
    fold_left (fun st candle => MemStorage.saveCandle candle st) saved
      MemStorage.empty in
  forall symbol timeframe limit,
    Z.of_nat (length (MemStorage.getCandles symbol timeframe limit st))
      <= 1000.
Proof.
  cbv zeta.
  assert (H : forall later st,
            (forall key arr,
               MemStorage.candles st !! key = Some arr ->
               Z.of_nat (length arr) <= 1000) ->
            forall key arr,
              MemStorage.candles
                (fold_left (fun st candle => MemStorage.saveCandle candle st)
                   later st) !! key = Some arr ->
              Z.of_nat (length arr) <= 1000).
  { induction later as [|candle later IH]; intros st Hst; [exact Hst|].
    cbn [fold_left]. apply IH. intros key arr.
    unfold MemStorage.saveCandle.
    set (own := MemStorage.key _ _).
    set (pushed := default [] (MemStorage.candles st !! own) ++ [candle]).
    destruct (Z.ltb_spec 1000 (Z.of_nat (length pushed))) as [Hfull|Hroom];
      cbn [MemStorage.candles];
      (destruct (decide (own = key)) as [<-|Hne];
       [rewrite lookup_insert_eq; intros [= <-]
       |rewrite lookup_insert_ne by exact Hne; apply Hst]).
    - rewrite slice_last_length by lia. lia.
    - lia. }
  intros symbol timeframe limit. unfold MemStorage.getCandles.
  etransitivity; [apply inj_le, slice_length|].
  destruct (MemStorage.candles _ !! _) as [arr|] eqn:E;
    cbn [default from_option id length]; unfold id; [|lia].
  eapply (H saved MemStorage.empty); [|exact E].
  intros key arr'. cbn. rewrite lookup_empty. discriminate.
Qed.

End Storage.

(** ** More on the session manager *)

Section Quiet.

#[local] Open Scope Z_scope.

Variable toFixed : float -> nat -> string.
Variable predictWithFormingCandle :
  list Candle.t -> option Candle.t -> Prediction.t.

Lemma quiet_idle sessionId s s' :
  Session.status s' = Session.status s -> quiet sessionId s (Effect.idle s').
Proof. intros H. split; [constructor|]. split; [exact H|reflexivity]. Qed.

Lemma quiet_then sessionId s e1 e2 :
  quiet sessionId s e1 ->
  quiet sessionId (Effect.next e1) e2 ->
  quiet sessionId s
    (Effect.mk (Effect.next e2) (Effect.events e1 ++ Effect.events e2)
       (Effect.starts e1 ++ Effect.starts e2)).
Proof.
  intros (H1 & Hs1 & Hq1) (H2 & Hs2 & Hq2). split; [|split]; cbn.
  - apply Forall_app. split; assumption.
  - congruence.
  - intros Hst. rewrite (Hq1 Hst), Hq2 by congruence. reflexivity.
Qed.

Lemma once_effect_quiet env sessionId formingStart candleCloseTime s :
  quiet sessionId s
    (once_effect toFixed predictWithFormingCandle env sessionId formingStart
       candleCloseTime s).
Proof.
  unfold once_effect, emit_effect, SessionManager.is_active.
  destruct (SessionManager.differs _ _); [|apply quiet_idle; reflexivity].
  destruct (Session.status s) eqn:Hst; cbn.
  - split; [|split]; cbn.
    + constructor; [|constructor]. cbn.
      apply (generateSignal_header toFixed predictWithFormingCandle).
    + reflexivity.
    + intros Hstopped. congruence.
  - split; [constructor|]. split; cbn; reflexivity.
Qed.

Lemma schedule_effect_quiet env sessionId s :
  quiet sessionId s
    (schedule_effect toFixed predictWithFormingCandle env sessionId s).
Proof.
  unfold schedule_effect.
  destruct (negb _); [apply quiet_idle; reflexivity|].
  destruct (Env.getFormingCandle _ _ _) as [c|];
    [|apply quiet_idle; reflexivity].
  cbv zeta. destruct (_ <=? _); [|apply quiet_idle; reflexivity].
  destruct (once_effect_quiet env sessionId (Candle.timestamp c)
              (TimeUtils.getCandleCloseTime (Candle.timestamp c)
                 (Session.timeframe s))
              (Session.set_preCloseTimer None s)) as (H & Hs & Hq).
  split; [exact H|]. split; [exact Hs|exact Hq].
Qed.

Lemma timer_effect_quiet env sessionId s :
  quiet sessionId s
    (timer_effect toFixed predictWithFormingCandle env sessionId s).
Proof.
  unfold timer_effect.
  destruct (Session.preCloseTimer s) as [[delayMs|p formingStart closeTime]|];
    [| |apply quiet_idle; reflexivity].
  - apply (schedule_effect_quiet env sessionId
             (Session.set_preCloseTimer None s)).
  - apply (quiet_then sessionId s
             (once_effect toFixed predictWithFormingCandle env sessionId
                formingStart closeTime (Session.set_preCloseTimer None s))).
    + apply (once_effect_quiet env sessionId formingStart closeTime
               (Session.set_preCloseTimer None s)).
    + apply schedule_effect_quiet.
Qed.

(** The scheduler never rewrites who a session belongs to or when it was
    started. *)
Lemma schedule_effect_identity env sessionId s :
  let e := schedule_effect toFixed predictWithFormingCandle env sessionId s in
  Session.id (Effect.next e) = Session.id s /\
  Session.chatId (Effect.next e) = Session.chatId s /\
  Session.startedAt (Effect.next e) = Session.startedAt s.
Proof.
  unfold schedule_effect, once_effect, emit_effect.
  repeat match goal with
         | |- context [match ?x with _ => _ end] => destruct x
         end; repeat split.
Qed.

End Quiet.

Section Steps.

#[local] Open Scope Z_scope.

Variable toFixed : float -> nat -> string.
Variable predictWithFormingCandle :
  list Candle.t -> option Candle.t -> Prediction.t.

Lemma changes_refl sessionId m : changes sessionId m m.
Proof.
  split; [reflexivity|]. exists []. rewrite app_nil_r.
  split; [reflexivity|constructor].
Qed.

Lemma changes_trans sessionId m1 m2 m3 :
  changes sessionId m1 m2 -> changes sessionId m2 m3 ->
  changes sessionId m1 m3.
Proof.
  intros [Hf1 (n1 & He1 & Hn1)] [Hf2 (n2 & He2 & Hn2)]. split.
  - intros k Hk. rewrite (Hf2 k Hk). apply Hf1, Hk.
  - exists (n1 ++ n2). rewrite He2, He1, app_assoc.
    split; [reflexivity|]. apply Forall_app. split; assumption.
Qed.

Lemma changes_install sessionId e m :
  Forall (signal_for sessionId) (Effect.events e) ->
  changes sessionId m (Effect.install sessionId e m).
Proof.
  intros He. split.
  - intros k Hk. cbn. apply lookup_insert_ne. congruence.
  - exists (Effect.events e). split; [reflexivity|].
    eapply List.Forall_impl; [|exact He]. intros ev Hev. left. exact Hev.
Qed.

Lemma changes_emit sessionId e m :
  other_event e -> changes sessionId m (SessionManager.emit e m).
Proof.
  intros He. split; [reflexivity|]. exists [e]. split; [reflexivity|].
  constructor; [right; exact He|constructor].
Qed.

Lemma scheduleNextPreClose_changes env sessionId m :
  changes sessionId m
    (SessionManager.scheduleNextPreClose toFixed predictWithFormingCandle env
       sessionId m).
Proof.
  destruct (SessionManager.sessions m !! sessionId) as [s|] eqn:Hs.
  - rewrite (scheduleNextPreClose_effect _ _ _ _ s) by exact Hs.
    apply changes_install, schedule_effect_quiet.
  - unfold SessionManager.scheduleNextPreClose. rewrite Hs.
    apply changes_refl.
Qed.

Lemma timerFired_changes env sessionId m :
  changes sessionId m
    (SessionManager.timerFired toFixed predictWithFormingCandle env
       sessionId m).
Proof.
  destruct (SessionManager.sessions m !! sessionId) as [s|] eqn:Hs.
  - rewrite (timerFired_effect _ _ _ _ s) by exact Hs.
    apply changes_install, timer_effect_quiet.
  - unfold SessionManager.timerFired. rewrite Hs. apply changes_refl.
Qed.

Lemma onConnected_changes env sessionId m :
  changes sessionId m
    (SessionManager.onConnected toFixed predictWithFormingCandle env
       sessionId m).
Proof.
  unfold SessionManager.onConnected, SessionManager.restartSession.
  destruct (SessionManager.sessions m !! sessionId) as [s|];
    [|apply changes_refl].
  destruct (SessionManager.is_active s); [|apply changes_refl].
  destruct (Env.fetchCandleHistory _ _ _ _); [|apply changes_refl].
  destruct (Env.subscribeTicks _ _ _); [|apply changes_refl].
  apply scheduleNextPreClose_changes.
Qed.

Lemma stopSession_changes env sessionId m :
  changes sessionId m (snd (SessionManager.stopSession env sessionId m)).
Proof.
  unfold SessionManager.stopSession.
  destruct (SessionManager.sessions m !! sessionId) as [s|] eqn:Hs;
    [|apply changes_refl].
  set (m1 := SessionManager.mk _ _ _ _).
  assert (H1 : changes sessionId m m1).
  { split; [|exists []; rewrite app_nil_r; split; [reflexivity|constructor]].
    intros k Hk. cbn. rewrite !lookup_alter_ne by congruence. reflexivity. }
  destruct (Env.unsubscribeTicks _ _ _); cbn [snd]; [|exact H1].
  eapply changes_trans; [exact H1|]. apply changes_emit. exact I.
Qed.

Lemma startSession_changes env sessionId chatId symbol timeframe options m :
  changes sessionId m
    (snd (SessionManager.startSession toFixed predictWithFormingCandle env
            sessionId chatId symbol timeframe options m)).
Proof.
  unfold SessionManager.startSession.
  destruct (SessionManager.sessions m !! sessionId) as [s|] eqn:Hs;
    [apply changes_refl|].
  destruct (Env.fetchCandleHistory _ _ _ _); [|apply changes_refl].
  set (m1 := SessionManager.mk _ _ _ _).
  assert (H1 : changes sessionId m m1).
  { split; [|exists []; rewrite app_nil_r; split; [reflexivity|constructor]].
    intros k Hk. cbn. apply lookup_insert_ne. congruence. }
  destruct (Env.subscribeTicks _ _ _); cbn [snd]; [|exact H1].
  eapply changes_trans; [exact H1|].
  eapply changes_trans; [apply scheduleNextPreClose_changes|].
  apply changes_emit. exact I.
Qed.

Lemma startSessionFetched_changes env sessionId chatId symbol timeframe
    options m :
  changes sessionId m
    (snd (SessionManager.startSessionFetched env sessionId chatId symbol
            timeframe options m)).
Proof.
  unfold SessionManager.startSessionFetched.
  destruct (Env.fetchCandleHistory _ _ _ _); [|apply changes_refl].
  split; [|exists []; rewrite app_nil_r; split; [reflexivity|constructor]].
  intros k Hk. cbn. apply lookup_insert_ne. congruence.
Qed.

Lemma startSessionSubscribed_changes env session m :
  changes (Session.id session) m
    (snd (SessionManager.startSessionSubscribed toFixed
            predictWithFormingCandle env session m)).
Proof.
  unfold SessionManager.startSessionSubscribed.
  destruct (Env.subscribeTicks _ _ _); cbn [snd]; [|apply changes_refl].
  eapply changes_trans; [apply scheduleNextPreClose_changes|].
  apply changes_emit. exact I.
Qed.

(** A callback changes the session it is about and no other. *)
Lemma step_changes env a m :
  changes (action_session a) m
    (SessionManager.step toFixed predictWithFormingCandle m (env, a)).
Proof.
  destruct a; cbn [SessionManager.step action_session].
  - apply startSession_changes.
  - apply stopSession_changes.
  - apply onConnected_changes.
  - apply timerFired_changes.
  - apply startSessionFetched_changes.
  - apply startSessionSubscribed_changes.
Qed.

Lemma stopSession_handlers env sessionId s m :
  SessionManager.sessions m !! sessionId = Some s ->
  SessionManager.tickHandlers
    (snd (SessionManager.stopSession env sessionId m)) =
  delete sessionId (SessionManager.tickHandlers m).
Proof.
  intros Hs. unfold SessionManager.stopSession. rewrite Hs.
  destruct (Env.unsubscribeTicks _ _ _); reflexivity.
Qed.

Lemma step_keeps_stopped env a m sessionId s :
  SessionManager.sessions m !! sessionId = Some s ->
  Session.status s = stopped ->
  stores a <> Some sessionId ->
  (exists s',
     SessionManager.sessions
       (SessionManager.step toFixed predictWithFormingCandle m (env, a))
       !! sessionId = Some s' /\
     Session.status s' = stopped) /\
  exists new,
    SessionManager.emitted
      (SessionManager.step toFixed predictWithFormingCandle m (env, a)) =
      SessionManager.emitted m ++ new /\
    Forall (fun e => ~ signal_for sessionId e) new.
Proof.
  intros Hs Hst Hstores.
  destruct (decide (action_session a = sessionId)) as [Ha|Ha].
  - destruct a as [sid chatId symbol timeframe options|sid|sid|sid
                  |sid chatId symbol timeframe options|session];
      cbn [action_session] in Ha; try subst sid; cbn [SessionManager.step].
    + unfold SessionManager.startSession. rewrite Hs. cbn [snd].
      split; [exists s; split; assumption|].
      exists []. rewrite app_nil_r. split; [reflexivity|constructor].
    + destruct (stopSession_sessions env sessionId s m Hs) as (Hm & _ & _).
      split.
      * eexists. rewrite Hm, lookup_insert_eq. split; reflexivity.
      * unfold SessionManager.stopSession. rewrite Hs.
        destruct (Env.unsubscribeTicks _ _ _); cbn [snd].
        -- eexists [_]. split; [reflexivity|].
           constructor; [intros H; exact H|constructor].
        -- exists []. rewrite app_nil_r. split; [reflexivity|constructor].
    + unfold SessionManager.onConnected, SessionManager.is_active.
      rewrite Hs, Hst. split; [exists s; split; assumption|].
      exists []. rewrite app_nil_r. split; [reflexivity|constructor].
    + rewrite (timerFired_effect _ _ _ _ s) by exact Hs.
      destruct (timer_effect_quiet toFixed predictWithFormingCandle env
                  sessionId s) as (_ & Hstatus & Hquiet).
      split.
      * eexists. rewrite install_lookup. split; [reflexivity|].
        rewrite Hstatus. exact Hst.
      * exists []. cbn. rewrite (Hquiet Hst).
        split; [reflexivity|constructor].
    + contradiction Hstores. reflexivity.
    + unfold SessionManager.startSessionSubscribed. rewrite Ha.
      destruct (Env.subscribeTicks _ _ _); cbn [snd].
      * rewrite (scheduleNextPreClose_effect _ _ _ _ s) by exact Hs.
        destruct (schedule_effect_quiet toFixed predictWithFormingCandle env
                    sessionId s) as (_ & Hstatus & Hquiet).
        split.
        -- eexists. cbn [SessionManager.emit SessionManager.sessions].
           rewrite install_lookup. split; [reflexivity|].
           rewrite Hstatus. exact Hst.
        -- eexists [_]. cbn. rewrite (Hquiet Hst), app_nil_r.
           split; [reflexivity|].
           constructor; [intros H; exact H|constructor].
      * split; [exists s; split; assumption|].
        exists []. rewrite app_nil_r. split; [reflexivity|constructor].
  - destruct (step_changes env a m) as [Hframe (new & Hnew & Hev)].
    split.
    + exists s. rewrite Hframe by congruence. split; assumption.
    + exists new. split; [exact Hnew|].
      eapply List.Forall_impl; [|exact Hev].
      intros [session|session|session signal|]; cbn; intros [H|H] H';
        try contradiction; congruence.
Qed.

(** Once a session is stopped it stays stopped, whatever callbacks follow
    (sessions started and stopped, calls of [startSession] resuming after
    their awaits, the feed reconnecting, timers firing, for this session or
    for others), and no [preCloseSignal] is emitted for it any more,
    provided no call of [startSession] for its id that passed the test
    before the session was stored resumes after its history fetch: such a
    call would store an active session over it. *)
Theorem stopped_session_gets_no_signal
    (l : list (Env.t * SessionManager.Action)) (m : SessionManager.t)
    (sessionId : string) (s : Session.t) :
  SessionManager.sessions m !! sessionId = Some s ->
  Session.status s = stopped ->
  Forall (fun ea => stores (snd ea) <> Some sessionId) l ->
  (exists s',
     SessionManager.sessions
       (SessionManager.run toFixed predictWithFormingCandle l m)
       !! sessionId = Some s' /\
     Session.status s' = stopped) /\
  exists later,
    SessionManager.emitted
      (SessionManager.run toFixed predictWithFormingCandle l m) =
      SessionManager.emitted m ++ later /\
    Forall (fun e => ~ signal_for sessionId e) later.
Proof.
  revert m s. induction l as [|[env a] l IH]; intros m s Hs Hst Hl.
  - split; [exists s; split; assumption|].
    exists []. rewrite app_nil_r. split; [reflexivity|constructor].
  - inversion Hl as [|? ? Ha Hl']; subst.
    destruct (step_keeps_stopped env a m sessionId s Hs Hst Ha)
      as [(s1 & Hs1 & Hst1) (new & Hnew & Hquiet)].
    destruct (IH _ s1 Hs1 Hst1 Hl') as [Hstopped (later & Hlater & Hquiet')].
    unfold SessionManager.run in *. cbn [fold_left].
    split; [exact Hstopped|].
    exists (new ++ later). rewrite Hlater, Hnew, app_assoc.
    split; [reflexivity|]. apply Forall_app. split; assumption.
Qed.

(** Stopping a session that the manager does not hold resolves and changes
    nothing, and so does the stop route for such an id.  Stopping a session
    removes its tick handler, and stopping it again changes no session and
    no handler. *)
Theorem stopSession_is_idempotent env env' sessionId m :
  (SessionManager.sessions m !! sessionId = None ->
   SessionManager.stopSession env sessionId m = (Resolved tt, m) /\
   (sessionId <> ""%string ->
    Routes.stopSession env (Some sessionId) m = (Routes.success None, m))) /\
  (forall s,
     SessionManager.sessions m !! sessionId = Some s ->
     let m1 := snd (SessionManager.stopSession env sessionId m) in
     let m2 := snd (SessionManager.stopSession env' sessionId m1) in
     SessionManager.tickHandlers m1 !! sessionId = None /\
     SessionManager.sessions m2 = SessionManager.sessions m1 /\
     SessionManager.tickHandlers m2 = SessionManager.tickHandlers m1).
Proof.
  split.
  - intros Hs.
    assert (Hstop : SessionManager.stopSession env sessionId m =
                    (Resolved tt, m))
      by (unfold SessionManager.stopSession; rewrite Hs; reflexivity).
    split; [exact Hstop|]. intros Hid. unfold Routes.stopSession.
    cbn [Routes.missingString default from_option id].
    destruct (String.eqb_spec sessionId ""); [contradiction|].
    unfold id. rewrite Hstop. reflexivity.
  - intros s Hs m1 m2.
    destruct (stopSession_sessions env sessionId s m Hs) as (Hm1 & _ & _).
    fold m1 in Hm1.
    set (s1 := Session.set_signalTimer None
                 (Session.set_preCloseTimer None
                    (Session.set_status stopped s))) in *.
    assert (Hs1 : SessionManager.sessions m1 !! sessionId = Some s1)
      by (rewrite Hm1; apply lookup_insert_eq).
    destruct (stopSession_sessions env' sessionId s1 m1 Hs1) as (Hm2 & _ & _).
    fold m2 in Hm2.
    pose proof (stopSession_handlers env sessionId s m Hs) as Hh1.
    pose proof (stopSession_handlers env' sessionId s1 m1 Hs1) as Hh2.
    fold m1 in Hh1. fold m1 m2 in Hh2.
    split; [rewrite Hh1; apply lookup_delete_eq|]. split.
    + rewrite Hm2. apply insert_id. rewrite Hs1. reflexivity.
    + rewrite Hh2, Hh1. apply delete_id. apply lookup_delete_eq.
Qed.

End Steps.

Section SessionManagerMore.

#[local] Open Scope Z_scope.

Variable toFixed : float -> nat -> string.
Variable predictWithFormingCandle :
  list Candle.t -> option Candle.t -> Prediction.t.

Lemma count_step (s1 s2 : Session.t) (n : Z) :
  (if SessionManager.is_active s1
   then (if SessionManager.is_active s2 then n + 1 else n) + 1
   else if SessionManager.is_active s2 then n + 1 else n) =
  (if SessionManager.is_active s2
   then (if SessionManager.is_active s1 then n + 1 else n) + 1
   else if SessionManager.is_active s1 then n + 1 else n).
Proof.
  destruct (SessionManager.is_active s1), (SessionManager.is_active s2);
    reflexivity.
Qed.

Lemma count_fresh sessionId s (sessions : gmap string Session.t) :
  sessions !! sessionId = None ->
  count (<[sessionId := s]> sessions) = count sessions + counted s.
Proof.
  intros Hs. unfold count.
  rewrite map_fold_insert_L; [|intros; apply count_step|exact Hs].
  unfold counted. destruct (SessionManager.is_active s); lia.
Qed.

Lemma count_present sessionId s (sessions : gmap string Session.t) :
  sessions !! sessionId = Some s ->
  count sessions = count (delete sessionId sessions) + counted s.
Proof.
  intros Hs. unfold count.
  rewrite (map_fold_delete_L _ _ sessionId s);
    [|intros; apply count_step|exact Hs].
  unfold counted. destruct (SessionManager.is_active s); lia.
Qed.

Lemma count_replaced sessionId s s' (sessions : gmap string Session.t) :
  sessions !! sessionId = Some s ->
  count (<[sessionId := s']> sessions) =
  count sessions - counted s + counted s'.
Proof.
  intros Hs. rewrite (count_present sessionId s sessions Hs).
  rewrite <- insert_delete_eq.
  rewrite count_fresh by apply lookup_delete_eq. lia.
Qed.

Lemma count_install sessionId s e m :
  SessionManager.sessions m !! sessionId = Some s ->
  Session.status (Effect.next e) = Session.status s ->
  SessionManager.getActiveSessionsCount (Effect.install sessionId e m) =
  SessionManager.getActiveSessionsCount m.
Proof.
  intros Hs Hst. unfold SessionManager.getActiveSessionsCount.
  cbn [Effect.install SessionManager.sessions].
  change (map_fold _ 0 ?x) with (count x).
  rewrite (count_replaced sessionId s) by exact Hs.
  unfold counted, SessionManager.is_active. rewrite Hst. lia.
Qed.

Lemma count_schedule env sessionId m :
  SessionManager.getActiveSessionsCount
    (SessionManager.scheduleNextPreClose toFixed predictWithFormingCandle env
       sessionId m) =
  SessionManager.getActiveSessionsCount m.
Proof.
  destruct (SessionManager.sessions m !! sessionId) as [s|] eqn:Hs.
  - rewrite (scheduleNextPreClose_effect _ _ _ _ s) by exact Hs.
    apply (count_install sessionId s); [exact Hs|].
    apply schedule_effect_quiet.
  - unfold SessionManager.scheduleNextPreClose. rewrite Hs. reflexivity.
Qed.

(** [getActiveSessionsCount] goes up by one when [startSession] resolves,
    goes down by one when [stopSession] is given an active session and
    stays as it is when given a stopped or unknown one, and is left alone by
    timers firing and by the feed reconnecting. *)
Theorem active_count_follows_start_and_stop env sessionId m :
  (forall chatId symbol timeframe options session m',
     SessionManager.startSession toFixed predictWithFormingCandle env
       sessionId chatId symbol timeframe options m = (Resolved session, m') ->
     SessionManager.getActiveSessionsCount m' =
     SessionManager.getActiveSessionsCount m + 1) /\
  SessionManager.getActiveSessionsCount
    (snd (SessionManager.stopSession env sessionId m)) =
    SessionManager.getActiveSessionsCount m -
    match SessionManager.sessions m !! sessionId with
    | Some s => if SessionManager.is_active s then 1 else 0
    | None => 0
    end /\
  SessionManager.getActiveSessionsCount
    (SessionManager.timerFired toFixed predictWithFormingCandle env
       sessionId m) =
    SessionManager.getActiveSessionsCount m /\
  SessionManager.getActiveSessionsCount
    (SessionManager.onConnected toFixed predictWithFormingCandle env
       sessionId m) =
    SessionManager.getActiveSessionsCount m.
Proof.
  split; [|split; [|split]].
  - intros chatId symbol timeframe options session m'.
    unfold SessionManager.startSession.
    destruct (SessionManager.sessions m !! sessionId) as [s|] eqn:Hs;
      [discriminate|].
    destruct (Env.fetchCandleHistory _ _ _ _); [|discriminate].
    destruct (Env.subscribeTicks _ _ _); [|discriminate].
    intros H. injection H as _ <-.
    change (SessionManager.getActiveSessionsCount (SessionManager.emit ?e ?x))
      with (SessionManager.getActiveSessionsCount x).
    rewrite count_schedule. unfold SessionManager.getActiveSessionsCount.
    cbn [SessionManager.sessions]. change (map_fold _ 0 ?x) with (count x).
    rewrite count_fresh by exact Hs. reflexivity.
  - unfold SessionManager.getActiveSessionsCount.
    change (map_fold _ 0 ?x) with (count x).
    destruct (SessionManager.sessions m !! sessionId) as [s|] eqn:Hs.
    + destruct (stopSession_sessions env sessionId s m Hs) as (Hm & _ & _).
      rewrite Hm, (count_replaced sessionId s) by exact Hs.
      unfold counted. cbn. lia.
    + unfold SessionManager.stopSession. rewrite Hs. cbn [snd]. lia.
  - destruct (SessionManager.sessions m !! sessionId) as [s|] eqn:Hs.
    + rewrite (timerFired_effect _ _ _ _ s) by exact Hs.
      apply (count_install sessionId s); [exact Hs|].
      apply timer_effect_quiet.
    + unfold SessionManager.timerFired. rewrite Hs. reflexivity.
  - unfold SessionManager.onConnected, SessionManager.restartSession.
    destruct (SessionManager.sessions m !! sessionId) as [s|];
      [|reflexivity].
    destruct (SessionManager.is_active s); [|reflexivity].
    destruct (Env.fetchCandleHistory _ _ _ _); [|reflexivity].
    destruct (Env.subscribeTicks _ _ _); [|reflexivity].
    apply count_schedule.
Qed.

(** When the history is fetched but the tick subscription is rejected,
    [startSession] rejects with the error of the subscription and yet
    leaves the session behind: stored under its id as an active session
    without a timer, counted among the active sessions, with no event
    emitted; a second [startSession] with the same id is rejected as
    already existing. *)
Theorem failed_subscription_leaves_the_session_behind
    env sessionId chatId symbol timeframe options m history error :
  SessionManager.sessions m !! sessionId = None ->
  Env.fetchCandleHistory env symbol timeframe Config.historyCandles =
    Resolved history ->
  Env.subscribeTicks env symbol sessionId = Rejected error ->
  let result :=
    SessionManager.startSession toFixed predictWithFormingCandle env sessionId
      chatId symbol timeframe options m in
  fst result = Rejected error /\
  SessionManager.getSession sessionId (snd result) =
    Some (Session.mk sessionId chatId symbol timeframe active
            (TimeUtils.nowEpoch (Env.now env)) None options None None None) /\
  SessionManager.emitted (snd result) = SessionManager.emitted m /\
  SessionManager.getActiveSessionsCount (snd result) =
    SessionManager.getActiveSessionsCount m + 1 /\
  forall env' chatId' symbol' timeframe' options',
    SessionManager.startSession toFixed predictWithFormingCandle env'
      sessionId chatId' symbol' timeframe' options' (snd result) =
    (Rejected ("Session " ++ sessionId ++ " already exists")%string,
     snd result).
Proof.
  intros Hs Hfetch Hsub result.
  assert (Hresult : result =
            (Rejected error,
             SessionManager.mk
               (<[sessionId :=
                    Session.mk sessionId chatId symbol timeframe active
                      (TimeUtils.nowEpoch (Env.now env)) None options None
                      None None]> (SessionManager.sessions m))
               (<[sessionId := SessionManager.mkHandler symbol sessionId]>
                  (SessionManager.tickHandlers m))
               (SessionManager.emitted m) (SessionManager.signalled m))).
  { subst result. unfold SessionManager.startSession.
    rewrite Hs, Hfetch, Hsub. reflexivity. }
  rewrite Hresult. cbn [fst snd]. split; [reflexivity|].
  split; [apply lookup_insert_eq|]. split; [reflexivity|]. split.
  - unfold SessionManager.getActiveSessionsCount.
    cbn [SessionManager.sessions]. change (map_fold _ 0 ?x) with (count x).
    rewrite count_fresh by exact Hs. reflexivity.
  - intros env' chatId' symbol' timeframe' options'.
    unfold SessionManager.startSession. cbn [SessionManager.sessions].
    rewrite lookup_insert_eq. reflexivity.
Qed.

(** [scheduleNextPreClose] leaves an active session with a pending timer,
    where the arithmetic of the clock is exact.  When the forming candle is
    known and its pre-close time, [preCloseSeconds] before its close, is
    still ahead, the timer is set for that time: whatever [scheduleAt]
    reads on the clock, the timer is due no earlier than the pre-close
    second, and within it unless the clock has passed it.  Otherwise the
    scheduler looks again after a delay of at least one second, exactly one
    second when there is no forming candle. *)
Theorem scheduleNextPreClose_arms_a_timer env sessionId s m :
  SessionManager.sessions m !! sessionId = Some s ->
  Session.status s = active ->
  exact_schedule env s ->
  exists s',
    SessionManager.sessions
      (SessionManager.scheduleNextPreClose toFixed predictWithFormingCandle
         env sessionId m) !! sessionId = Some s' /\
    match Session.preCloseTimer s' with
    | Some (Session.Rearm delayMs) =>
        1000 <= delayMs /\
        match Env.getFormingCandle env (Session.symbol s)
                (Session.timeframe s) with
        | Some forming =>
            TimeUtils.getCandleCloseTime (Candle.timestamp forming)
              (Session.timeframe s) - Config.preCloseSeconds
            <= TimeUtils.nowEpoch (Env.now env)
        | None => delayMs = 1000
        end
    | Some (Session.AtPreClose preCloseTime formingStart candleCloseTime) =>
        TimeUtils.nowEpoch (Env.now env) < preCloseTime /\
        (forall nowMs,
           0 <= nowMs -> JS.safe_integer nowMs ->
           let due := nowMs + TimeUtils.scheduleAt nowMs preCloseTime in
           preCloseTime * 1000 <= due /\
           (TimeUtils.nowEpoch nowMs <= preCloseTime ->
            due < (preCloseTime + 1) * 1000)) /\
        preCloseTime = candleCloseTime - Config.preCloseSeconds /\
        candleCloseTime =
          TimeUtils.getCandleCloseTime formingStart (Session.timeframe s) /\
        exists forming,
          Env.getFormingCandle env (Session.symbol s) (Session.timeframe s) =
            Some forming /\
          Candle.timestamp forming = formingStart
    | None => False
    end.
Proof.
  intros Hs Hst _.
  rewrite (scheduleNextPreClose_effect _ _ _ _ s) by exact Hs.
  eexists. split; [apply install_lookup|].
  unfold schedule_effect, SessionManager.is_active. rewrite Hst. cbn [negb].
  destruct (Env.getFormingCandle _ _ _) as [forming|].
  - cbv zeta.
    destruct (Z.leb_spec
                (TimeUtils.getCandleCloseTime (Candle.timestamp forming)
                   (Session.timeframe s) - Config.preCloseSeconds)
                (TimeUtils.nowEpoch (Env.now env))) as [Hlate|Hearly].
    + cbn. split; [lia|exact Hlate].
    + cbn. split; [exact Hearly|]. split.
      { intros nowMs _ _. unfold TimeUtils.scheduleAt, TimeUtils.nowEpoch.
        pose proof (Z.mul_div_le nowMs 1000 ltac:(lia)) as Hle.
        pose proof (Z.mul_succ_div_gt nowMs 1000 ltac:(lia)) as Hgt.
        generalize dependent (nowMs / 1000). intros q Hle Hgt.
        generalize (TimeUtils.getCandleCloseTime (Candle.timestamp forming)
                      (Session.timeframe s) - Config.preCloseSeconds).
        intros p. lia. }
      split; [reflexivity|]. split; [reflexivity|].
      exists forming. split; reflexivity.
  - cbn. split; [lia|reflexivity].
Qed.

(** [getDebugSignal] returns nothing exactly when the aggregator holds no
    closed candle.  Otherwise it returns a signal of the session called
    debug for the symbol asked for; with fewer than 50 closed candles that
    signal is a [NO_TRADE] of confidence 0 without votes. *)
Theorem getDebugSignal_needs_one_closed_candle env symbol timeframe :
  let closed := Env.getClosedCandles env symbol timeframe in
  (SessionManager.getDebugSignal toFixed predictWithFormingCandle env symbol
     timeframe = None <-> closed = []) /\
  forall signal,
    SessionManager.getDebugSignal toFixed predictWithFormingCandle env symbol
      timeframe = Some signal ->
    SignalResult.sessionId signal = "debug"%string /\
    SignalResult.symbol signal = symbol /\
    ((length closed < 50)%nat ->
     SignalResult.direction signal = NO_TRADE /\
     SignalResult.confidence signal = 0%float /\
     SignalResult.votes signal = []).
Proof.
  intros closed. unfold SessionManager.getDebugSignal. fold closed.
  destruct (list.last closed) as [lastClosed|] eqn:Hlast.
  - split.
    + split; [discriminate|]. intros Hnil. rewrite Hnil in Hlast.
      discriminate Hlast.
    + intros signal H. injection H as <-.
      split; [apply (generateSignal_header toFixed predictWithFormingCandle)|].
      split.
      * destruct (generateSignal_paths predictWithFormingCandle closed
                    (Env.getFormingCandle env symbol timeframe))
          as [H|[[H Hv]|[H Hv]]].
        -- rewrite generateSignal_insufficient by exact H. reflexivity.
        -- rewrite generateSignal_volatile by assumption. reflexivity.
        -- rewrite generateSignal_scored by assumption. reflexivity.
      * intros Hfew. rewrite generateSignal_insufficient by exact Hfew.
        repeat split.
  - apply last_None in Hlast.
    split; [split; [intros _; exact Hlast|reflexivity]|].
    intros signal H. discriminate H.
Qed.

End SessionManagerMore.

(** ** Edges of the signal engine *)

Section EngineEdges.

#[local] Open Scope float_scope.

Variable toFixed : float -> nat -> string.
Variable predictWithFormingCandle :
  list Candle.t -> option Candle.t -> Prediction.t.

#[local] Abbreviation generateSignal :=
  (SignalEngine.generateSignal toFixed predictWithFormingCandle).

Lemma neutral_votes_weigh_nothing (votes : list Vote.t) :
  Forall (fun v => Vote.direction v = NEUTRAL) votes ->
  SignalEngine.calculateScores votes =
  SignalEngine.mkScores 0 0 (0 / (0 + 0 + 1e-9)).
Proof.
  intros H. rewrite calculateScores_sums. unfold Spec.weight_sum.
  assert (Hnone : forall d, d <> NEUTRAL ->
            List.filter (Spec.has_direction d) votes = []).
  { intros d Hd. induction H as [|v l Hv _ IH]; [reflexivity|].
    cbn [List.filter]. unfold Spec.has_direction at 1. rewrite Hv.
    destruct d; [exact IH|exact IH|contradiction]. }
  rewrite !Hnone by discriminate. reflexivity.
Qed.

Lemma empty_whitelist_keeps_nothing (votes : list Vote.t) :
  List.filter (kept (Some [])) votes = [].
Proof. induction votes as [|v l IH]; [reflexivity|exact IH]. Qed.

(** On the scored path (at least 50 closed candles, no volatility
    override), a result none of whose votes is UP or DOWN is a [PUT] of
    confidence 100, with [pUp = 0] and [pDown = 1]; and a session whose
    options enable no indicator at all gets no vote, hence that result. *)
Theorem no_directional_vote_is_a_confident_PUT nowMs sessionId symbol
    timeframe closed forming closeTime options :
  let r :=
    generateSignal nowMs sessionId symbol timeframe closed forming closeTime
      options in
  (50 <= length closed)%nat ->
  Volatility.isVolatile
    (Prediction.volatility (predictWithFormingCandle closed forming)) = false ->
  (Forall (fun v => Vote.direction v = NEUTRAL) (SignalResult.votes r) ->
   SignalResult.direction r = PUT /\ SignalResult.confidence r = 100 /\
   SignalResult.pUp r = 0 /\ SignalResult.pDown r = 1) /\
  (options ≫= SessionOptions.enabledIndicators = Some [] ->
   SignalResult.votes r = []).
Proof.
  intros r Hlen Hcalm. subst r.
  rewrite generateSignal_scored by assumption.
  cbn [SignalResult.votes SignalResult.direction SignalResult.confidence
       SignalResult.pUp SignalResult.pDown].
  split.
  - intros Hneutral. rewrite (neutral_votes_weigh_nothing _ Hneutral).
    cbn [SignalEngine.pUp]. repeat split; vm_compute; reflexivity.
  - intros Hnone. rewrite collectVotes_produced. cbv zeta.
    destruct options as [o|]; [|discriminate Hnone].
    cbn in Hnone. rewrite Hnone, empty_whitelist_keeps_nothing. reflexivity.
Qed.

Lemma produced_length indicators psychology lastClose :
  (length (produced toFixed indicators psychology lastClose) <=
   24 + length (PsychologyAnalysis.patterns psychology))%nat.
Proof.
  assert (Hone : forall vote : option Vote.t,
            (length (at_most_one vote) <= 1)%nat)
    by (intros [v|]; cbn; lia).
  assert (Hmacd : (length (SignalEngine.voteFromMACD indicators) <= 2)%nat)
    by (unfold SignalEngine.voteFromMACD; producer_length).
  assert (Hrsi :
            (length (SignalEngine.voteFromRSI toFixed indicators) <= 1)%nat)
    by (unfold SignalEngine.voteFromRSI; producer_length).
  assert (Hstoch :
            (length (SignalEngine.voteFromStochastic indicators) <= 2)%nat)
    by (unfold SignalEngine.voteFromStochastic; producer_length).
  assert (Hboll :
            (length (SignalEngine.voteFromBollinger indicators lastClose)
             <= 2)%nat)
    by (unfold SignalEngine.voteFromBollinger; producer_length).
  assert (Hpsy :
            (length (SignalEngine.voteFromPsychology psychology) <=
             length (PsychologyAnalysis.patterns psychology) + 4)%nat).
  { unfold SignalEngine.voteFromPsychology. rewrite pattern_loop.
    cbn [app].
    repeat match goal with
           | |- context [if ?b then _ else _] => destruct b
           end;
      rewrite ?length_app, ?length_map; cbn [length]; lia. }
  unfold produced. rewrite !length_app.
  pose proof (Hone (SignalEngine.voteFromEMACross indicators "ema5" "ema21"
                      lastClose "ema_cross_5_21")).
  pose proof (Hone (SignalEngine.voteFromEMACross indicators "ema9" "ema21"
                      lastClose "ema_cross_9_21")).
  pose proof (Hone (SignalEngine.voteFromEMACross indicators "ema12" "ema50"
                      lastClose "ema_cross_12_50")).
  pose proof (Hone (SignalEngine.voteFromSMATrend indicators "sma20"
                      lastClose "sma_trend_20")).
  pose proof (Hone (SignalEngine.voteFromSMATrend indicators "sma50"
                      lastClose "sma_trend_50")).
  pose proof (Hone (SignalEngine.voteFromSMATrend indicators "sma200"
                      lastClose "sma_trend_200")).
  pose proof (Hone (SignalEngine.voteFromSuperTrend indicators)).
  pose proof (Hone (SignalEngine.voteFromPSAR indicators lastClose)).
  pose proof (Hone (SignalEngine.voteFromADX toFixed indicators)).
  pose proof (Hone (SignalEngine.voteFromCCI toFixed indicators)).
  pose proof (Hone (SignalEngine.voteFromWilliamsR indicators)).
  pose proof (Hone (SignalEngine.voteFromHullMA indicators lastClose)).
  pose proof (Hone (SignalEngine.voteFromMeanReversion toFixed indicators)).
  lia.
Qed.

(** A result never carries more votes than the catalogue can cast: 24 from
    the indicators, the order block, the gap and the two wicks, and one
    for each pattern of its psychology analysis. *)
Theorem votes_are_bounded_by_the_catalogue nowMs sessionId symbol timeframe
    closed forming closeTime options :
  let r :=
    generateSignal nowMs sessionId symbol timeframe closed forming closeTime
      options in
  (length (SignalResult.votes r) <=
   24 + length (PsychologyAnalysis.patterns (SignalResult.psychology r)))%nat.
Proof.
  intros r. subst r.
  destruct (generateSignal_paths predictWithFormingCandle closed forming)
    as [H|[[H Hv]|[H Hv]]].
  - rewrite generateSignal_insufficient by exact H. cbn. lia.
  - rewrite generateSignal_volatile by assumption. cbn. lia.
  - rewrite generateSignal_scored by assumption.
    cbn [SignalResult.votes SignalResult.psychology].
    rewrite collectVotes_produced. cbv zeta. rewrite length_map.
    etransitivity; [apply filter_length_le|]. apply produced_length.
Qed.

End EngineEdges.

(** ** The start route ([routes.ts]) *)

Section RouteProperties.

#[local] Open Scope Z_scope.

Variable toFixed : float -> nat -> string.
Variable predictWithFormingCandle :
  list Candle.t -> option Candle.t -> Prediction.t.

Lemma startSession_resolved env sessionId chatId symbol timeframe options m
    session m' :
  SessionManager.startSession toFixed predictWithFormingCandle env sessionId
    chatId symbol timeframe options m = (Resolved session, m') ->
  SessionManager.sessions m !! sessionId = None /\
  SessionManager.sessions m' !! sessionId = Some session /\
  Session.id session = sessionId /\ Session.symbol session = symbol /\
  Session.timeframe session = timeframe /\ Session.status session = active /\
  Session.startedAt session = TimeUtils.nowEpoch (Env.now env).
Proof.
  unfold SessionManager.startSession.
  destruct (SessionManager.sessions m !! sessionId) as [s|] eqn:Hs;
    [discriminate|].
  destruct (Env.fetchCandleHistory _ _ _ _); [|discriminate].
  destruct (Env.subscribeTicks _ _ _); [|discriminate].
  set (s0 := Session.mk sessionId chatId symbol timeframe active _ None
               options None None None).
  rewrite (scheduleNextPreClose_effect _ _ _ _ s0) by apply lookup_insert_eq.
  rewrite install_lookup. cbn [default from_option id].
  intros H. injection H as <- <-.
  destruct (schedule_effect_fields toFixed predictWithFormingCandle env
              sessionId s0) as (Htf & Hst & Hsym).
  destruct (schedule_effect_identity toFixed predictWithFormingCandle env
              sessionId s0) as (Hid & _ & Hat).
  split; [reflexivity|]. split; [apply install_lookup|].
  repeat split; assumption.
Qed.

Lemma missingString_false value :
  Routes.missingString value = false <->
  exists v, value = Some v /\ v <> ""%string.
Proof.
  destruct value as [v|]; cbn.
  - destruct (String.eqb_spec v ""); split.
    + discriminate.
    + intros (v' & [= <-] & Hne). contradiction.
    + intros _. exists v. split; [reflexivity|assumption].
    + reflexivity.
  - split; [discriminate|]. intros (v & H & _). discriminate H.
Qed.

Lemma missingNumber_false value :
  Routes.missingNumber value = false <-> exists v, value = Some v /\ v <> 0.
Proof.
  destruct value as [v|]; cbn.
  - destruct (Z.eqb_spec v 0); split.
    + discriminate.
    + intros (v' & [= <-] & Hne). contradiction.
    + intros _. exists v. split; [reflexivity|assumption].
    + reflexivity.
  - split; [discriminate|]. intros (v & H & _). discriminate H.
Qed.

(** The start route answers 400 and leaves the manager as it is exactly
    when the body lacks a session id, a chat id, an asset or a time frame
    (an empty string or a zero counting as missing) or names an asset that
    is not listed; the time frame is not compared with the listed ones.
    When it answers with success, the session of the answer is held by the
    manager under the id of the body, active, with the asset and the time
    frame of the body. *)
Theorem startSession_route_checks_fields_and_asset env body m :
  let result :=
    Routes.startSession toFixed predictWithFormingCandle env body m in
  match fst result with
  | Routes.badRequest _ => ~ accepted body /\ snd result = m
  | Routes.serverError _ => accepted body
  | Routes.success view =>
      accepted body /\
      exists session,
        SessionManager.getSession (Session.id session) (snd result) =
          Some session /\
        Some (Session.id session) = Routes.session_id body /\
        Some (Session.symbol session) = Routes.asset body /\
        Some (Session.timeframe session) = Routes.timeframe body /\
        Session.status session = active /\
        view =
          Some (Routes.mkView (Session.id session) (Session.symbol session)
                  (Session.timeframe session) active
                  (Session.startedAt session))
  end.
Proof.
  intros result. subst result. unfold Routes.startSession.
  destruct (Routes.missingString (Routes.session_id body)) eqn:E1.
  { cbn. split; [|reflexivity]. intros (i & c & a & t & info & H & Hne & _).
    rewrite H in E1. cbn in E1. apply String.eqb_eq in E1. contradiction. }
  destruct (Routes.missingNumber (Routes.chat_id body)) eqn:E2.
  { cbn. split; [|reflexivity].
    intros (i & c & a & t & info & _ & _ & H & Hne & _).
    rewrite H in E2. cbn in E2. apply Z.eqb_eq in E2. contradiction. }
  destruct (Routes.missingString (Routes.asset body)) eqn:E3.
  { cbn. split; [|reflexivity].
    intros (i & c & a & t & info & _ & _ & _ & _ & H & Hne & _).
    rewrite H in E3. cbn in E3. apply String.eqb_eq in E3. contradiction. }
  destruct (Routes.missingNumber (Routes.timeframe body)) eqn:E4.
  { cbn. split; [|reflexivity].
    intros (i & c & a & t & info & _ & _ & _ & _ & _ & _ & H & Hne & _).
    rewrite H in E4. cbn in E4. apply Z.eqb_eq in E4. contradiction. }
  cbn [orb].
  apply missingString_false in E1. destruct E1 as (i & Hi & Hi').
  apply missingNumber_false in E2. destruct E2 as (c & Hc & Hc').
  apply missingString_false in E3. destruct E3 as (a & Ha & Ha').
  apply missingNumber_false in E4. destruct E4 as (t & Ht & Ht').
  rewrite Hi, Hc, Ha, Ht. cbn [default from_option id].
  pose proof (getAssetById_listed a) as Hfind.
  destruct (Config.getAssetById a) as [info|].
  - destruct Hfind as [Hin Hid].
    assert (Hacc : accepted body)
      by (exists i, c, a, t, info; repeat split; assumption).
    destruct (SessionManager.startSession _ _ _ _ _ _ _ _ _)
      as [[session|error] m'] eqn:Hstart; cbn [fst snd]; [|exact Hacc].
    split; [exact Hacc|]. exists session.
    destruct (startSession_resolved _ _ _ _ _ _ _ _ _ Hstart)
      as (_ & Hstored & Hsid & Hsym & Htf & Hst & _).
    unfold SessionManager.getSession. rewrite Hsid, Hsym, Htf, Hst.
    repeat split; try assumption; try reflexivity.
  - cbn [fst snd]. split; [|reflexivity].
    intros (i' & c' & a' & t' & info & _ & _ & _ & _ & Ha2 & _ & _ & _ &
            Hin & Hid).
    rewrite Ha in Ha2. injection Ha2 as <-. exact (Hfind info Hin Hid).
Qed.

End RouteProperties.

(** ** The sessions of a chat ([telegram/handlers.ts], [telegram/bot.ts]) *)

Section ChatSessions.

#[local] Open Scope Z_scope.

Variable toFixed : float -> nat -> string.
Variable predictWithFormingCandle :
  list Candle.t -> option Candle.t -> Prediction.t.

Lemma active_for_test chatId s :
  (Session.chatId s =? chatId) && SessionManager.is_active s = true <->
  active_for chatId s.
Proof.
  unfold active_for, SessionManager.is_active.
  rewrite andb_true_iff, Z.eqb_eq.
  destruct (Session.status s); split; intros [H1 H2];
    try discriminate; split; auto.
Qed.

Lemma getSessionByChatId_first order chatId m :
  match SessionManager.getSessionByChatId order chatId m with
  | Some session =>
      exists before sessionId after,
        order = before ++ sessionId :: after /\
        SessionManager.sessions m !! sessionId = Some session /\
        active_for chatId session /\
        forall k s,
          In k before -> SessionManager.sessions m !! k = Some s ->
          ~ active_for chatId s
  | None =>
      forall k s,
        In k order -> SessionManager.sessions m !! k = Some s ->
        ~ active_for chatId s
  end.
Proof.
  unfold SessionManager.getSessionByChatId.
  induction order as [|k0 order IH]; [intros k s []|].
  cbn [omap list_omap].
  destruct (SessionManager.sessions m !! k0) as [s0|] eqn:Hk0.
  - cbn [List.find].
    destruct ((Session.chatId s0 =? chatId) && SessionManager.is_active s0)
      eqn:Htest.
    + exists [], k0, order. split; [reflexivity|]. split; [exact Hk0|].
      split; [apply active_for_test; exact Htest|]. intros k s [].
    + destruct (List.find _ _) as [session|].
      * destruct IH as (before & sessionId & after & -> & Hs & Hact & Hbefore).
        exists (k0 :: before), sessionId, after.
        split; [reflexivity|]. split; [exact Hs|]. split; [exact Hact|].
        intros k s [<-|Hin] Hk.
        -- rewrite Hk0 in Hk. injection Hk as <-.
           rewrite <- active_for_test, Htest. discriminate.
        -- exact (Hbefore k s Hin Hk).
      * intros k s [<-|Hin] Hk.
        -- rewrite Hk0 in Hk. injection Hk as <-.
           rewrite <- active_for_test, Htest. discriminate.
        -- exact (IH k s Hin Hk).
  - destruct (List.find _ _) as [session|].
    + destruct IH as (before & sessionId & after & -> & Hs & Hact & Hbefore).
      exists (k0 :: before), sessionId, after.
      split; [reflexivity|]. split; [exact Hs|]. split; [exact Hact|].
      intros k s [<-|Hin] Hk; [congruence|exact (Hbefore k s Hin Hk)].
    + intros k s [<-|Hin] Hk; [congruence|exact (IH k s Hin Hk)].
Qed.

Lemma getSessionByChatId_listed order chatId m :
  lists_sessions order m ->
  match SessionManager.getSessionByChatId order chatId m with
  | Some session =>
      exists before sessionId after,
        order = before ++ sessionId :: after /\
        SessionManager.sessions m !! sessionId = Some session /\
        active_for chatId session /\
        forall k s,
          In k before -> SessionManager.sessions m !! k = Some s ->
          ~ active_for chatId s
  | None =>
      forall k s,
        SessionManager.sessions m !! k = Some s -> ~ active_for chatId s
  end.
Proof.
  intros [_ Horder].
  pose proof (getSessionByChatId_first order chatId m) as H.
  destruct (SessionManager.getSessionByChatId order chatId m); [exact H|].
  intros k s Hk. apply (H k s); [|exact Hk].
  apply Horder. rewrite Hk. eexists. reflexivity.
Qed.

(** With at most one active session for the chat, the answer does not
    depend on the order. *)
Lemma getSessionByChatId_only order chatId m k s :
  lists_sessions order m -> one_session chatId m ->
  SessionManager.sessions m !! k = Some s -> active_for chatId s ->
  SessionManager.getSessionByChatId order chatId m = Some s.
Proof.
  intros Horder Hone Hk Hact.
  pose proof (getSessionByChatId_listed order chatId m Horder) as H.
  destruct (SessionManager.getSessionByChatId order chatId m) as [s'|].
  - destruct H as (_ & k' & _ & _ & Hk' & Hact' & _).
    assert (k' = k) as -> by exact (Hone _ _ _ _ Hk' Hk Hact' Hact).
    congruence.
  - destruct (H k s Hk Hact).
Qed.

(** [getSessionByChatId] returns an active session of the chat, the one
    stored first when there are several, and nothing only when the manager
    holds no active session of the chat. *)
Theorem getSessionByChatId_returns_the_first_active_session
    order chatId m :
  lists_sessions order m ->
  match SessionManager.getSessionByChatId order chatId m with
  | Some session =>
      exists before sessionId after,
        order = before ++ sessionId :: after /\
        SessionManager.sessions m !! sessionId = Some session /\
        active_for chatId session /\
        forall k s,
          In k before -> SessionManager.sessions m !! k = Some s ->
          ~ active_for chatId s
  | None =>
      forall k s,
        SessionManager.sessions m !! k = Some s -> ~ active_for chatId s
  end.
Proof. apply getSessionByChatId_listed. Qed.

(** What [startSession] stores: nothing when the id is taken or the
    history cannot be fetched, and otherwise an active session of the chat
    under the id, for the symbol and the time frame asked for. *)
Lemma startSession_stores env sessionId chatId symbol timeframe options m :
  let result :=
    SessionManager.startSession toFixed predictWithFormingCandle env
      sessionId chatId symbol timeframe options m in
  match SessionManager.sessions m !! sessionId,
        Env.fetchCandleHistory env symbol timeframe Config.historyCandles with
  | None, Resolved _ =>
      exists s,
        SessionManager.sessions (snd result) !! sessionId = Some s /\
        Session.id s = sessionId /\ active_for chatId s /\
        Session.symbol s = symbol /\ Session.timeframe s = timeframe /\
        (Env.subscribeTicks env symbol sessionId = Resolved tt ->
         fst result = Resolved s)
  | _, _ => exists error, result = (Rejected error, m)
  end.
Proof.
  cbv zeta. unfold SessionManager.startSession.
  destruct (SessionManager.sessions m !! sessionId) as [s|] eqn:Hs;
    [eexists; reflexivity|].
  destruct (Env.fetchCandleHistory _ _ _ _) as [history|error];
    [|eexists; reflexivity].
  set (s0 := Session.mk sessionId chatId symbol timeframe active _ None
               options None None None).
  destruct (Env.subscribeTicks _ _ _) as [[]|error].
  - rewrite (scheduleNextPreClose_effect _ _ _ _ s0) by apply lookup_insert_eq.
    rewrite install_lookup. cbn [default from_option id fst snd].
    destruct (schedule_effect_fields toFixed predictWithFormingCandle env
                sessionId s0) as (Htf & Hst & Hsym).
    destruct (schedule_effect_identity toFixed predictWithFormingCandle env
                sessionId s0) as (Hid & Hchat & _).
    eexists. split; [apply install_lookup|].
    repeat split; assumption.
  - exists s0. cbn [fst snd SessionManager.sessions].
    split; [apply lookup_insert_eq|]. repeat split. discriminate.
Qed.

Lemma stopSession_stops env k s m chatId :
  SessionManager.sessions m !! k = Some s ->
  let m' := snd (SessionManager.stopSession env k m) in
  (forall k' s',
     SessionManager.sessions m' !! k' = Some s' -> active_for chatId s' ->
     k' <> k /\ SessionManager.sessions m !! k' = Some s') /\
  (forall k', k' <> k ->
     SessionManager.sessions m' !! k' = SessionManager.sessions m !! k') /\
  exists s', SessionManager.sessions m' !! k = Some s' /\
             Session.status s' = stopped /\ Session.id s' = Session.id s.
Proof.
  intros Hk m'.
  destruct (stopSession_sessions env k s m Hk) as (Hm & _ & _).
  fold m' in Hm. split; [|split].
  - intros k' s' Hk' [_ Hact]. rewrite Hm in Hk'.
    destruct (decide (k' = k)) as [->|Hne].
    + rewrite lookup_insert_eq in Hk'. injection Hk' as <-. discriminate Hact.
    + rewrite lookup_insert_ne in Hk' by congruence. split; assumption.
  - intros k' Hne. rewrite Hm. apply lookup_insert_ne. congruence.
  - eexists. rewrite Hm, lookup_insert_eq. repeat split.
Qed.

(** The first step of [handleStartSession] and the [/stop] command: the
    session [getSessionByChatId] finds is stopped.  When the chat had at
    most one active session it has none afterwards, also when the feed
    rejects the unsubscription. *)
Lemma stop_found_session env order chatId m :
  lists_sessions order m -> keyed m ->
  let stopped :=
    match SessionManager.getSessionByChatId order chatId m with
    | Some existingSession =>
        SessionManager.stopSession env (Session.id existingSession) m
    | None => (Resolved tt, m)
    end in
  (one_session chatId m ->
   forall k s,
     SessionManager.sessions (snd stopped) !! k = Some s ->
     ~ active_for chatId s) /\
  (forall k s,
     SessionManager.sessions m !! k = Some s -> Session.chatId s <> chatId ->
     SessionManager.sessions (snd stopped) !! k = Some s) /\
  keyed (snd stopped) /\
  (forall k,
     SessionManager.sessions m !! k = None ->
     SessionManager.sessions (snd stopped) !! k = None) /\
  ((forall symbol sessionId,
      Env.unsubscribeTicks env symbol sessionId = Resolved tt) ->
   fst stopped = Resolved tt).
Proof.
  intros Horder Hkeyed.
  pose proof (getSessionByChatId_listed order chatId m Horder) as Hfound.
  destruct (SessionManager.getSessionByChatId order chatId m)
    as [existing|]; cbv zeta.
  - destruct Hfound as (_ & k0 & _ & _ & Hk0 & Hact0 & _).
    rewrite (Hkeyed k0 existing Hk0).
    destruct (stopSession_stops env k0 existing m chatId Hk0)
      as (Hactive & Hframe & s0 & Hs0 & _ & Hid).
    split; [|split; [|split; [|split]]].
    + intros Hone k s Hk Hact.
      destruct (Hactive k s Hk Hact) as [Hne Hk'].
      apply Hne. exact (Hone _ _ _ _ Hk' Hk0 Hact Hact0).
    + intros k s Hk Hchat. rewrite Hframe; [exact Hk|].
      intros ->. rewrite Hk0 in Hk. injection Hk as <-.
      apply Hchat, Hact0.
    + intros k s Hk. destruct (decide (k = k0)) as [->|Hne].
      * rewrite Hs0 in Hk. injection Hk as <-. rewrite Hid.
        exact (Hkeyed k0 existing Hk0).
      * rewrite Hframe in Hk by exact Hne. exact (Hkeyed k s Hk).
    + intros k Hk. rewrite Hframe; [exact Hk|]. congruence.
    + intros Hunsubscribe. unfold SessionManager.stopSession.
      rewrite Hk0, Hunsubscribe. reflexivity.
  - cbn [fst snd]. split; [intros _; exact Hfound|].
    split; [intros k s Hk _; exact Hk|]. split; [exact Hkeyed|].
    split; [intros k Hk; exact Hk|reflexivity].
Qed.

(** Run from a state in which the chat has at most one active session,
    [handleStartSession] leaves it with at most one: the session it had is
    stopped before the new one is started.  No session of another chat is
    touched.  A session stored under the new id is an active session of
    the chat for the asset and the time frame asked for, the asset is a
    listed one, and it is the session [getSessionByChatId] returns from
    then on.  The state of the user is changed only to name such a
    session.  And a session is stored whenever the asset is listed, the id
    is free, the feed accepts the unsubscription and returns the
    history. *)
Theorem handleStartSession_keeps_one_session_per_chat
    stopEnv startEnv order nowMs chatId assetId timeframe state m :
  lists_sessions order m -> keyed m -> one_session chatId m ->
  let sessionId := Handlers.sessionIdFor chatId nowMs in
  let result :=
    Handlers.handleStartSession toFixed predictWithFormingCandle stopEnv
      startEnv order nowMs chatId assetId timeframe state m in
  let stored s :=
    SessionManager.sessions (snd result) !! sessionId = Some s /\
    active_for chatId s /\
    Session.symbol s = assetId /\ Session.timeframe s = timeframe in
  (one_session chatId (snd result) /\ keyed (snd result)) /\
  (forall k s,
     SessionManager.sessions m !! k = Some s -> Session.chatId s <> chatId ->
     SessionManager.sessions (snd result) !! k = Some s) /\
  (forall s,
     SessionManager.sessions m !! sessionId = None ->
     SessionManager.sessions (snd result) !! sessionId = Some s ->
     stored s /\
     (exists asset,
        In asset Config.SUPPORTED_ASSETS /\ Asset.id asset = assetId) /\
     forall order',
       lists_sessions order' (snd result) ->
       SessionManager.getSessionByChatId order' chatId (snd result) =
       Some s) /\
  (fst result = state \/
   fst result =
     Handlers.mkState (Handlers.selectedAsset state)
       (Handlers.selectedTimeframe state) (Some sessionId) /\
   exists s, stored s) /\
  (forall asset history,
     In asset Config.SUPPORTED_ASSETS -> Asset.id asset = assetId ->
     SessionManager.sessions m !! sessionId = None ->
     (forall symbol sessionId,
        Env.unsubscribeTicks stopEnv symbol sessionId = Resolved tt) ->
     Env.fetchCandleHistory startEnv assetId timeframe Config.historyCandles =
       Resolved history ->
     exists s, stored s).
Proof.
  intros Horder Hkeyed Hone sessionId result stored.
  pose proof (getAssetById_listed assetId) as Hasset.
  destruct (stop_found_session stopEnv order chatId m Horder Hkeyed)
    as (Hnone & Hother & Hkeyed1 & Hfree & Hresolves).
  specialize (Hnone Hone).
  assert (Hone1 : forall m1,
            (forall k s,
               SessionManager.sessions m1 !! k = Some s ->
               ~ active_for chatId s) ->
            one_session chatId m1).
  { intros m1 H k1 k2 s1 s2 Hk1 _ Hact1 _. destruct (H k1 s1 Hk1 Hact1). }
  subst result. unfold Handlers.handleStartSession in *.
  destruct (Config.getAssetById assetId) as [asset|].
  2:{ cbn [fst snd]. split; [split; assumption|].
      split; [intros k s Hk _; exact Hk|].
      split; [intros s Hfresh Hs; congruence|].
      split; [left; reflexivity|].
      intros asset history Hin Hid. destruct (Hasset asset Hin Hid). }
  destruct Hasset as [Hin Hid].
  fold sessionId in stored |- *.
  destruct (match SessionManager.getSessionByChatId order chatId m with
            | Some existingSession => _
            | None => _
            end) as [[[]|error] m1]; cbn [fst snd] in *.
  2:{ split; [split; [apply Hone1; exact Hnone|exact Hkeyed1]|].
      split; [exact Hother|].
      split; [intros s Hfresh Hs; rewrite (Hfree _ Hfresh) in Hs;
              discriminate Hs|].
      split; [left; reflexivity|].
      intros ? ? _ _ _ Hunsubscribe _. discriminate (Hresolves Hunsubscribe). }
  pose proof (startSession_stores startEnv sessionId chatId assetId timeframe
                None m1) as Hstores.
  pose proof (startSession_changes toFixed predictWithFormingCandle startEnv
                sessionId chatId assetId timeframe None m1) as [Hframe _].
  cbv zeta in Hstores.
  destruct (SessionManager.startSession toFixed predictWithFormingCandle
              startEnv sessionId chatId assetId timeframe None m1)
    as [outcome m2] eqn:Hstart.
  cbn [fst snd] in *.
  assert (Hresult : snd (match outcome with
                         | Resolved _ =>
                             (Handlers.mkState (Handlers.selectedAsset state)
                                (Handlers.selectedTimeframe state)
                                (Some sessionId), m2)
                         | Rejected _ => (state, m2)
                         end) = m2)
    by (destruct outcome; reflexivity).
  destruct (SessionManager.sessions m1 !! sessionId) as [s1|] eqn:Hs1.
  { destruct Hstores as [error [= -> ->]]. cbn [fst snd].
    split; [split; [apply Hone1; exact Hnone|exact Hkeyed1]|].
    split; [exact Hother|].
    split; [intros s Hfresh Hs; rewrite (Hfree _ Hfresh) in Hs1;
            discriminate Hs1|].
    split; [left; reflexivity|].
    intros ? ? _ _ Hfresh _ _. rewrite (Hfree _ Hfresh) in Hs1.
    discriminate Hs1. }
  destruct (Env.fetchCandleHistory startEnv assetId timeframe
              Config.historyCandles) as [history|error'].
  2:{ destruct Hstores as [error [= -> ->]]. cbn [fst snd].
      split; [split; [apply Hone1; exact Hnone|exact Hkeyed1]|].
      split; [exact Hother|].
      split; [intros s Hfresh Hs; congruence|].
      split; [left; reflexivity|].
      intros ? ? _ _ _ _ Hfetch. discriminate Hfetch. }
  destruct Hstores as (s & Hs & Hsid & Hact & Hsym & Htf & Hok).
  assert (Hstored : stored s).
  { subst stored. cbv beta. rewrite Hresult. repeat split; try assumption;
      apply Hact. }
  assert (Hone2 : one_session chatId m2).
  { intros k1 k2 s1 s2 Hk1 Hk2 Hact1 Hact2.
    destruct (decide (k1 = sessionId)) as [->|Hne1];
      [|rewrite Hframe in Hk1 by exact Hne1; destruct (Hnone _ _ Hk1 Hact1)].
    destruct (decide (k2 = sessionId)) as [->|Hne2]; [reflexivity|].
    rewrite Hframe in Hk2 by exact Hne2. destruct (Hnone _ _ Hk2 Hact2). }
  rewrite Hresult.
  split; [split; [exact Hone2|]|].
  { intros k s' Hk. destruct (decide (k = sessionId)) as [->|Hne].
    - rewrite Hs in Hk. injection Hk as <-. exact Hsid.
    - rewrite Hframe in Hk by exact Hne. exact (Hkeyed1 k s' Hk). }
  split.
  { intros k s' Hk Hchat. pose proof (Hother k s' Hk Hchat) as Hk1.
    rewrite Hframe; [exact Hk1|]. intros ->. congruence. }
  split.
  { intros s' _ Hs'. rewrite Hs in Hs'. injection Hs' as <-.
    split; [exact Hstored|]. split; [exists asset; split; assumption|].
    intros order' Horder'.
    exact (getSessionByChatId_only order' chatId m2 sessionId s Horder'
             Hone2 Hs Hact). }
  split; [|intros; exists s; exact Hstored].
  destruct outcome; [right|left; reflexivity].
  split; [reflexivity|exists s; exact Hstored].
Qed.

(** A chat with at most one active session has none after the [/stop]
    command, and none after the Stop button of that session, also when the
    feed rejects the unsubscription; the sessions of other chats are left
    as they are by the command, and any other text changes nothing.  When
    the unsubscription resolves, the state of the user no longer names the
    session stopped by the button. *)
Theorem stopping_leaves_the_chat_without_session env order chatId m :
  lists_sessions order m -> keyed m -> one_session chatId m ->
  let m' := Bot.onMessage env order "/stop" chatId m in
  (forall k s,
     SessionManager.sessions m' !! k = Some s -> ~ active_for chatId s) /\
  (forall k s,
     SessionManager.sessions m !! k = Some s -> Session.chatId s <> chatId ->
     SessionManager.sessions m' !! k = Some s) /\
  (forall text,
     text <> "/stop"%string -> Bot.onMessage env order text chatId m = m) /\
  forall sessionId s state,
    SessionManager.sessions m !! sessionId = Some s ->
    active_for chatId s ->
    let result := Handlers.handleStopSession env sessionId state m in
    (forall k s',
       SessionManager.sessions (snd result) !! k = Some s' ->
       ~ active_for chatId s') /\
    (Env.unsubscribeTicks env (Session.symbol s) sessionId = Resolved tt ->
     Handlers.activeSessionId (fst result) <> Some sessionId).
Proof.
  intros Horder Hkeyed Hone m'.
  destruct (stop_found_session env order chatId m Horder Hkeyed)
    as (Hnone & Hother & _).
  assert (Hm' : m' =
                snd match SessionManager.getSessionByChatId order chatId m with
                    | Some existingSession =>
                        SessionManager.stopSession env
                          (Session.id existingSession) m
                    | None => (Resolved tt, m)
                    end).
  { subst m'. unfold Bot.onMessage. cbn [String.eqb Ascii.eqb Bool.eqb].
    destruct (SessionManager.getSessionByChatId order chatId m); reflexivity. }
  rewrite Hm'. split; [exact (Hnone Hone)|]. split; [exact Hother|].
  split.
  { intros text Htext. unfold Bot.onMessage.
    destruct (String.eqb_spec text "/stop"); [contradiction|reflexivity]. }
  intros sessionId s state Hs Hact result.
  destruct (stopSession_stops env sessionId s m chatId Hs)
    as (Hactive & _ & _).
  assert (Hsnd : snd result = snd (SessionManager.stopSession env sessionId m)).
  { subst result. unfold Handlers.handleStopSession.
    destruct (SessionManager.stopSession env sessionId m) as [[[]|error] m1];
      [|reflexivity].
    destruct (Handlers.activeSessionId state) as [a|]; [|reflexivity].
    destruct (String.eqb a sessionId); reflexivity. }
  split.
  - intros k s' Hk Hact'. rewrite Hsnd in Hk.
    destruct (Hactive k s' Hk Hact') as [Hne Hk'].
    apply Hne. exact (Hone _ _ _ _ Hk' Hs Hact' Hact).
  - intros Hunsubscribe. subst result.
    unfold Handlers.handleStopSession, SessionManager.stopSession.
    rewrite Hs, Hunsubscribe.
    destruct (Handlers.activeSessionId state) as [a|] eqn:Ha;
      [|cbn [fst]; rewrite Ha; discriminate].
    destruct (String.eqb_spec a sessionId) as [->|Hne]; cbn [fst].
    + discriminate.
    + rewrite Ha. congruence.
Qed.

End ChatSessions.

(** ** The further properties at sample data *)

Section MoreSamples.

#[local] Open Scope Z_scope.

(** Second 125 lies in the one-minute candle of [120, 180). *)
Lemma candle_boundary_witness :
  TimeUtils.getCandleBoundary 125 60 <= 125 <
  TimeUtils.getCandleCloseTime 125 60.
Proof.
  assert (Hexact : exact_window 125 60)
    by (unfold exact_window, JS.safe_integer; lia).
  destruct (candle_boundary_is_the_window_start 125 60 Hexact) as [H _].
  exact H.
Defined.

(** Second 176 is in the pre-close window of that candle. *)
Lemma pre_close_window_witness :
  TimeUtils.isPreCloseWindow 176 60 4 = true.
Proof.
  assert (Hexact : exact_window 176 60)
    by (unfold exact_window, JS.safe_integer; lia).
  assert (Hsafe : JS.safe_integer 4) by (unfold JS.safe_integer; lia).
  destruct (pre_close_window_is_the_tail_of_the_candle 176 60 4 Hexact Hsafe)
    as (_ & [_ H] & _).
  apply H. vm_compute. discriminate.
Defined.

(** One hour, two minutes and five seconds. *)
Lemma formatDuration_witness :
  TimeUtils.formatDuration 3725 = "1h 2m"%string.
Proof.
  assert (Hsafe : JS.safe_integer (3600 * 1 + 60 * 2 + 5))
    by (unfold JS.safe_integer; lia).
  exact (proj1 formatDuration_shows_the_two_largest_units 1 2 5
           ltac:(lia) ltac:(lia) ltac:(lia) Hsafe).
Defined.

Lemma getAssetById_witness :
  Config.getAssetById "R_100" =
  Some (Asset.mk "R_100" "Volatility 100 Index" (Some "synthetic"%string)).
Proof.
  apply (proj2 getAssetById_finds_every_listed_asset
           (Asset.mk "R_100" "Volatility 100 Index"
              (Some "synthetic"%string))).
  repeat (first [left; reflexivity | right]).
Defined.

(** Three minutes have no label of their own. *)
Lemma getTimeframeLabel_witness :
  Config.getTimeframeLabel 180 = "180s"%string.
Proof.
  apply (proj2 (getTimeframeLabel_of_listed_and_other 180)).
  - cbn. intuition discriminate.
  - unfold JS.safe_integer. lia.
Defined.

Lemma timeframe_buttons_witness :
  map (map call_of) (Keyboards.createConfirmSessionKeyboard "R_100" 60) =
  [ [ Handlers.Call.handleStartSession (Some "R_100"%string) (Some 60) ];
    [ Handlers.Call.handleAssetSelection "R_100";
      Handlers.Call.handleBegin ];
    [ Handlers.Call.handleCancel ] ].
Proof.
  apply (proj2 (timeframe_buttons_round_trip "R_100" eq_refl) 60).
  split; reflexivity.
Defined.

Lemma signal_log_witness :
  MemStorage.signals
    (fold_left (fun st signal => MemStorage.saveSignal signal st)
       [Sample.signal "a" 1; Sample.signal "b" 2] MemStorage.empty) =
  [Sample.signal "a" 1; Sample.signal "b" 2].
Proof.
  destruct (signal_log_keeps_the_newest
              [Sample.signal "a" 1; Sample.signal "b" 2]) as (_ & _ & H).
  apply H. cbn. lia.
Defined.

Lemma getRecentSignals_witness :
  MemStorage.getRecentSignals (Some 1)
    (MemStorage.mk [Sample.signal "a" 1; Sample.signal "b" 2] ∅) =
  [Sample.signal "b" 2].
Proof.
  exact (proj1 (getRecentSignals_newest_first
                  (MemStorage.mk [Sample.signal "a" 1; Sample.signal "b" 2]
                     ∅)) 1 ltac:(lia)).
Defined.

Lemma getSignals_witness :
  hd_error
    (MemStorage.getSignals "a" None
       (MemStorage.saveSignal (Sample.signal "a" 3)
          (MemStorage.mk [Sample.signal "a" 1; Sample.signal "b" 2] ∅))) =
  Some (Sample.signal "a" 3).
Proof.
  apply (proj2 (getSignals_of_a_session "a"
                  (MemStorage.mk [Sample.signal "a" 1; Sample.signal "b" 2]
                     ∅))).
  - reflexivity.
  - cbn. lia.
Defined.

Lemma saveCandle_witness :
  list.last
    (MemStorage.getCandles (Candle.symbol Sample.candle)
       (Candle.timeframe Sample.candle) None
       (MemStorage.saveCandle Sample.candle MemStorage.empty)) =
  Some Sample.candle.
Proof.
  apply (proj1 (saveCandle_appends_to_its_own_buffer Sample.candle
                  MemStorage.empty)).
  cbn. lia.
Defined.

(** The stopped session of the sample stays stopped when the call that
    started it resumes after its subscription, when a timer fires for it
    and when the feed reconnects. *)
Lemma stopped_session_witness :
  exists s',
    SessionManager.sessions
      (SessionManager.run Sample.toFixed Sample.macd_up
         [ (Sample.env (Some (Sample.forming 120)) 150,
            SessionManager.Subscribed
              (Session.mk "s1" 7 "R_100" 60 active 130 None None None None
                 None));
           (Sample.env (Some (Sample.forming 120)) 176,
            SessionManager.TimerFired "s1");
           (Sample.env (Some (Sample.forming 180)) 237,
            SessionManager.Connected "s1") ]
         Sample.stopped_manager) !! "s1"%string = Some s' /\
    Session.status s' = stopped.
Proof.
  assert (H : SessionManager.sessions Sample.stopped_manager !! "s1"%string =
              Some Sample.stopped_session)
    by (vm_compute; reflexivity).
  refine (proj1 (stopped_session_gets_no_signal Sample.toFixed Sample.macd_up
                   _ Sample.stopped_manager "s1" Sample.stopped_session H
                   eq_refl _)).
  repeat constructor; discriminate.
Defined.

Lemma stopSession_twice_witness :
  SessionManager.sessions
    (snd (SessionManager.stopSession (Sample.env None 150) "s1"
            Sample.stopped_manager)) =
  SessionManager.sessions Sample.stopped_manager.
Proof.
  assert (H : SessionManager.sessions Sample.started !! "s1"%string =
              Some Sample.started_session)
    by (vm_compute; reflexivity).
  destruct (proj2 (stopSession_is_idempotent (Sample.env None 140)
                     (Sample.env None 150) "s1" Sample.started)
              Sample.started_session H) as (_ & Hsame & _).
  exact Hsame.
Defined.

Lemma active_count_witness :
  SessionManager.getActiveSessionsCount Sample.started =
  SessionManager.getActiveSessionsCount SessionManager.empty + 1.
Proof.
  apply (proj1 (active_count_follows_start_and_stop Sample.toFixed
                  Sample.macd_up (Sample.env (Some (Sample.forming 120)) 130)
                  "s1" SessionManager.empty)
           7 "R_100"%string 60 None Sample.started_session Sample.started).
  vm_compute. reflexivity.
Defined.

Lemma failed_subscription_witness :
  fst (SessionManager.startSession Sample.toFixed Sample.macd_up
         (Sample.deaf 130) "s1" 7 "R_100" 60 None SessionManager.empty) =
  Rejected "no ticks"%string.
Proof.
  destruct (failed_subscription_leaves_the_session_behind Sample.toFixed
              Sample.macd_up (Sample.deaf 130) "s1" 7 "R_100"%string 60 None
              SessionManager.empty (Sample.candles 60) "no ticks"%string
              eq_refl eq_refl eq_refl) as [H _].
  exact H.
Defined.

Lemma scheduleNextPreClose_witness :
  exists s',
    SessionManager.sessions
      (SessionManager.scheduleNextPreClose Sample.toFixed Sample.macd_up
         (Sample.env (Some (Sample.forming 120)) 150) "s1" Sample.started)
      !! "s1"%string = Some s' /\
    Session.preCloseTimer s' <> None.
Proof.
  assert (H : SessionManager.sessions Sample.started !! "s1"%string =
              Some Sample.started_session)
    by (vm_compute; reflexivity).
  assert (Hexact : exact_schedule
                     (Sample.env (Some (Sample.forming 120)) 150)
                     Sample.started_session).
  { unfold exact_schedule, JS.safe_integer. cbn.
    split; [lia|]. split; [lia|]. split; [lia|].
    intros forming [= <-]. cbn. lia. }
  destruct (scheduleNextPreClose_arms_a_timer Sample.toFixed Sample.macd_up
              (Sample.env (Some (Sample.forming 120)) 150) "s1"
              Sample.started_session Sample.started H eq_refl Hexact)
    as (s' & Hs' & Htimer).
  exists s'. split; [exact Hs'|].
  destruct (Session.preCloseTimer s'); [discriminate|contradiction].
Defined.

(** With ten closed candles the debug signal is a [NO_TRADE], not
    nothing. *)
Lemma getDebugSignal_witness :
  exists signal,
    SessionManager.getDebugSignal Sample.toFixed Sample.macd_up
      (Sample.short 0) "R_100" 60 = Some signal /\
    SignalResult.direction signal = NO_TRADE.
Proof.
  eexists. split; [reflexivity|].
  destruct (getDebugSignal_needs_one_closed_candle Sample.toFixed
              Sample.macd_up (Sample.short 0) "R_100"%string 60) as [_ H].
  destruct (H _ eq_refl) as (_ & _ & Hfew).
  apply Hfew. cbn. lia.
Defined.

(** A session that enables no indicator is told to PUT with confidence
    100. *)
Lemma no_directional_vote_witness :
  let r :=
    SignalEngine.generateSignal Sample.toFixed Sample.macd_up 0 "s" "R_100"
      60 (Sample.candles 50) None 60 (Some Sample.no_indicator) in
  SignalResult.direction r = PUT /\ SignalResult.confidence r = 100%float.
Proof.
  destruct (no_directional_vote_is_a_confident_PUT Sample.toFixed
              Sample.macd_up 0 "s"%string "R_100"%string 60
              (Sample.candles 50) None 60 (Some Sample.no_indicator)
              (le_n 50) eq_refl) as [Hneutral Hnone].
  cbv zeta in Hneutral, Hnone |- *.
  destruct Hneutral as (Hd & Hc & _).
  - rewrite (Hnone eq_refl). constructor.
  - split; assumption.
Defined.

(** The manager of the sample holds one session, the active session of
    chat 7, under its id. *)
Lemma started_sessions :
  lists_sessions ["s1"%string] Sample.started /\ keyed Sample.started /\
  one_session 7 Sample.started.
Proof.
  assert (H : SessionManager.sessions Sample.started =
              {[ "s1"%string := Sample.started_session ]})
    by (vm_compute; reflexivity).
  unfold lists_sessions, keyed, one_session. rewrite H.
  split; [split|split].
  - apply NoDup_singleton.
  - intros k. rewrite lookup_singleton_is_Some. cbn. intuition.
  - intros k s [<- <-]%lookup_singleton_Some. reflexivity.
  - intros k1 k2 s1 s2 [<- _]%lookup_singleton_Some
      [<- _]%lookup_singleton_Some _ _. reflexivity.
Qed.

Lemma getSessionByChatId_witness :
  exists session,
    SessionManager.getSessionByChatId ["s1"%string] 7 Sample.started =
      Some session /\
    active_for 7 session.
Proof.
  pose proof (getSessionByChatId_returns_the_first_active_session
                ["s1"%string] 7 Sample.started (proj1 started_sessions)) as H.
  destruct (SessionManager.getSessionByChatId _ _ _) as [session|].
  - exists session. split; [reflexivity|].
    destruct H as (_ & _ & _ & _ & _ & Hact & _). exact Hact.
  - destruct (H "s1"%string Sample.started_session);
      [vm_compute; reflexivity|split; reflexivity].
Defined.

Lemma handleStartSession_witness :
  exists s,
    SessionManager.sessions
      (snd (Handlers.handleStartSession Sample.toFixed Sample.macd_up
              (Sample.env None 140)
              (Sample.env (Some (Sample.forming 120)) 150)
              ["s1"%string] 150000 7 "R_50" 120
              (Handlers.mkState None None None) Sample.started))
      !! "7_150000"%string = Some s /\
    active_for 7 s.
Proof.
  destruct started_sessions as (Horder & Hkeyed & Hone).
  destruct (handleStartSession_keeps_one_session_per_chat Sample.toFixed
              Sample.macd_up (Sample.env None 140)
              (Sample.env (Some (Sample.forming 120)) 150) ["s1"%string]
              150000 7 "R_50"%string 120 (Handlers.mkState None None None)
              Sample.started Horder Hkeyed Hone)
    as (_ & _ & _ & _ & Hstored).
  destruct (Hstored (Asset.mk "R_50" "Volatility 50 Index" (Some "synthetic"))
              (Sample.candles 60))
    as (s & Hs & Hact & _).
  - cbn. tauto.
  - reflexivity.
  - vm_compute. reflexivity.
  - reflexivity.
  - reflexivity.
  - exists s. split; [exact Hs|exact Hact].
Defined.

Lemma stop_command_witness :
  SessionManager.getSessionByChatId ["s1"%string] 7
    (Bot.onMessage (Sample.env None 140) ["s1"%string] "/stop" 7
       Sample.started) = None.
Proof.
  destruct started_sessions as (Horder & Hkeyed & Hone).
  pose proof (proj1 (stopping_leaves_the_chat_without_session
                       (Sample.env None 140) ["s1"%string] 7 Sample.started
                       Horder Hkeyed Hone)) as Hnone.
  pose proof (getSessionByChatId_first ["s1"%string] 7
                (Bot.onMessage (Sample.env None 140) ["s1"%string] "/stop" 7
                   Sample.started)) as Hfirst.
  destruct (SessionManager.getSessionByChatId _ _ _) as [session|];
    [|reflexivity].
  destruct Hfirst as (_ & k & _ & _ & Hk & Hact & _).
  destruct (Hnone k session Hk Hact).
Defined.

End MoreSamples.
